(** * Engineering-insights bot: the analysis pipeline and its metrics engine

    A shallow embedding of [src/agents/pipeline.py] and [src/core/metrics.py].

    Conventions of the embedding.
    - The payloads exchanged by the agents are Python dicts; they are embedded
      as values of [Py.pyval], whose dicts are finite maps with string keys.
    - Python [int] is [Z].  Python [float] is embedded as an exact rational
      ([Q]): rounding error, infinities and NaN of IEEE doubles are not part
      of the model, and [round] rounds the rational half to even.  Numeric
      results are compared with [==] ([Qeq]).  An [int] that the interpreter
      turns into a float (true division, arithmetic with a float) must be
      within the range of a double: beyond it the interpreter raises
      OverflowError, which the arithmetic of [Py] does not have; where a
      statement about arbitrary payloads depends on it, the range is a
      hypothesis ([within_float_range]).
    - An exception is a value of [Py.exn]; code that can raise returns a
      [Py.result], and [try ... except Exception] is a match on it.
    - Collaborators (storage, source control, text generation, clock, random
      generator) are explicit arguments.  The functions of the metrics engine
      are given the rows of the storage and one instant [now]: every query of
      one call sees the same storage at the same time, and reading the
      storage does not fail.  A query raises OverflowError when its window
      starts at a date that does not exist ([Metrics.window_exists]);
      statements that need it take the existence of the window as a
      hypothesis. *)

From Stdlib Require Import QArith Qminmax Qround Lqa ZArith Ascii String List Sorted.
From stdpp Require Import gmap strings list fin_maps.

#[local] Set Warnings "-register-all".

(** ** Rational helpers *)

Definition Qltb (x y : Q) : bool := negb (Qle_bool y x).

(** Round half to even, to the nearest integer. *)
Definition round_half_even (q : Q) : Z :=
  let f := Qfloor q in
  let r := (q - inject_Z f)%Q in
  if Qltb r (1 # 2) then f
  else if Qltb (1 # 2) r then (f + 1)%Z
  else if Z.even f then f else (f + 1)%Z.

(** [round(q, n)] on a float, for [n >= 0] decimal places. *)
Definition round_digits (q : Q) (n : nat) : Q :=
  let scale := inject_Z (10 ^ Z.of_nat n) in
  (inject_Z (round_half_even (q * scale)) / scale)%Q.

(** ** ASCII string helpers (keys and messages built by the code) *)

Definition lower_ascii (c : ascii) : ascii :=
  let n := nat_of_ascii c in
  if (65 <=? n)%nat && (n <=? 90)%nat then ascii_of_nat (n + 32) else c.

Fixpoint lower (s : string) : string :=
  match s with
  | EmptyString => EmptyString
  | String c s' => String (lower_ascii c) (lower s')
  end.

(** [needle in hay] *)
Fixpoint contains (needle hay : string) : bool :=
  String.prefix needle hay ||
  match hay with
  | EmptyString => false
  | String _ hay' => contains needle hay'
  end.

Fixpoint repeat_string (s : string) (n : nat) : string :=
  match n with
  | O => EmptyString
  | S n' => (s ++ repeat_string s n')%string
  end.

(** ** Python values and the operations the agents apply to them *)

Module Py.

Inductive exn : Type :=
  | AttributeError
  | TypeError
  | ZeroDivisionError
  | IndexError
  | External (what : string).

Inductive result (A : Type) : Type :=
  | Ok (a : A)
  | Raise (e : exn).
Arguments Ok {A} a.
Arguments Raise {A} e.

(** Sequencing: the first exception raised ends the computation. *)
Definition bind {A B} (m : result A) (f : A -> result B) : result B :=
  match m with Ok a => f a | Raise e => Raise e end.

Inductive pyval : Type :=
  | PNone
  | PBool (b : bool)
  | PInt (z : Z)
  | PFloat (q : Q)
  | PStr (s : string)
  | PDict (d : gmap string pyval).

(** The numeric value of an [int], [bool] or [float]. *)
Definition num (v : pyval) : option Q :=
  match v with
  | PBool b => Some (if b then 1 else 0)%Q
  | PInt z => Some (inject_Z z)
  | PFloat q => Some q
  | _ => None
  end.

(** The value of an [int] or [bool]. *)
Definition int (v : pyval) : option Z :=
  match v with
  | PBool b => Some (if b then 1 else 0)%Z
  | PInt z => Some z
  | _ => None
  end.

(** [bool(v)] *)
Definition truthy (v : pyval) : bool :=
  match v with
  | PNone => false
  | PBool b => b
  | PInt z => negb (z =? 0)%Z
  | PFloat q => negb (Qeq_bool q 0)
  | PStr s => negb (String.eqb s "")
  | PDict d => negb (bool_decide (size d = 0%nat))
  end.

(** [o.get(k, dflt)]: only dicts have the method. *)
Definition get (o : pyval) (k : string) (dflt : pyval) : result pyval :=
  match o with
  | PDict d => Ok (default dflt (d !! k))
  | _ => Raise AttributeError
  end.

(** Comparisons of a value with a numeric literal [k]. *)
Definition gt (v : pyval) (k : Q) : result bool :=
  match num v with Some q => Ok (Qltb k q) | None => Raise TypeError end.
Definition lt (v : pyval) (k : Q) : result bool :=
  match num v with Some q => Ok (Qltb q k) | None => Raise TypeError end.
Definition ge (v : pyval) (k : Q) : result bool :=
  match num v with Some q => Ok (Qle_bool k q) | None => Raise TypeError end.

(** [v * k] for an int literal [k]; a string is repeated. *)
Definition mul_int (v : pyval) (k : Z) : result pyval :=
  match v with
  | PBool _ | PInt _ =>
      match int v with Some z => Ok (PInt (z * k)) | None => Raise TypeError end
  | PFloat q => Ok (PFloat (q * inject_Z k))
  | PStr s => Ok (PStr (repeat_string s (Z.to_nat k)))
  | _ => Raise TypeError
  end.

(** [v * k] for a float literal [k]. *)
Definition mul_float (v : pyval) (k : Q) : result pyval :=
  match num v with Some q => Ok (PFloat (q * k)) | None => Raise TypeError end.

(** [a + b] *)
Definition add (a b : pyval) : result pyval :=
  match a, b with
  | PStr s, PStr t => Ok (PStr (s ++ t))
  | _, _ =>
      match int a, int b with
      | Some x, Some y => Ok (PInt (x + y))
      | _, _ =>
          match num a, num b with
          | Some x, Some y => Ok (PFloat (x + y))
          | _, _ => Raise TypeError
          end
      end
  end.

(** [k - v] for an int literal [k]. *)
Definition rsub_int (k : Z) (v : pyval) : result pyval :=
  match int v with
  | Some z => Ok (PInt (k - z))
  | None =>
      match num v with
      | Some q => Ok (PFloat (inject_Z k - q))
      | None => Raise TypeError
      end
  end.

(** [a / b], true division, for operands within the range of a double:
    an int beyond it makes the interpreter raise OverflowError, which this
    definition does not have (see the conventions). *)
Definition div (a b : pyval) : result pyval :=
  match num a, num b with
  | Some x, Some y =>
      if Qeq_bool y 0 then Raise ZeroDivisionError else Ok (PFloat (x / y))
  | _, _ => Raise TypeError
  end.

(** [min(k, v)] for an int literal [k]: [v] is taken only when [v < k]. *)
Definition min_int (k : Z) (v : pyval) : result pyval :=
  bind (lt v (inject_Z k)) (fun b => Ok (if b then v else PInt k)).

(** [max(k, v)] for an int literal [k]: [v] is taken only when [v > k]. *)
Definition max_int (k : Z) (v : pyval) : result pyval :=
  bind (gt v (inject_Z k)) (fun b => Ok (if b then v else PInt k)).

(** [round(v, n)]: an int is returned as it is, a float is rounded. *)
Definition round (v : pyval) (n : nat) : result pyval :=
  match v with
  | PBool _ | PInt _ =>
      match int v with Some z => Ok (PInt z) | None => Raise TypeError end
  | PFloat q => Ok (PFloat (round_digits q n))
  | _ => Raise TypeError
  end.

End Py.

Import Py.

Declare Scope py_scope.
Delimit Scope py_scope with py.
Notation "x <- e ;; k" := (Py.bind e (fun x => k))
  (at level 100, e at next level, right associativity) : py_scope.
Open Scope py_scope.

(** ** DiffAnalystAgent: the analysis engine ([src/agents/pipeline.py]) *)

Inductive level : Type := LOW | MODERATE | HIGH.

Definition level_eqb (a b : level) : bool :=
  match a, b with
  | LOW, LOW | MODERATE, MODERATE | HIGH, HIGH => true
  | _, _ => false
  end.

Inductive grade : Type := A | B | C | D | F.

Record churn_patterns : Type := {
  large_changes : bool;
  frequent_modifications : bool;
  risk_threshold_exceeded : bool
}.

Record churn_analysis : Type := {
  ca_total_churn : pyval;
  ca_churn_rate : pyval;
  churn_level : level;
  ca_risk_score : pyval;
  recommendations : list string;
  patterns : churn_patterns
}.

Record risk_assessment : Type := {
  overall_risk_level : level;
  identified_risks : list string;
  risk_score : pyval;
  mitigation_strategies : gset string
}.

Record quality_indicators : Type := {
  velocity_score : pyval;
  quality_score : pyval;
  collaboration_score : pyval;
  overall_score : pyval;
  qi_grade : grade
}.

Record trend_analysis : Type := {
  velocity_trend : string;
  quality_trend : string;
  collaboration_trend : string;
  trend_recommendations : list string
}.

Record analysis : Type := {
  an_churn_analysis : churn_analysis;
  an_risk_assessment : risk_assessment;
  an_quality_indicators : quality_indicators;
  an_trend_analysis : trend_analysis
}.

(** The fixed texts of the analysis. *)
Definition recommendations_high : list string :=
  ["Consider breaking down large changes"; "Increase code review rigor"].
Definition recommendations_moderate : list string :=
  ["Monitor for refactoring opportunities"; "Maintain current review practices"].
Definition recommendations_low : list string :=
  ["Churn levels are healthy"; "Continue current practices"].

Definition risk_failure_rate : string :=
  "High change failure rate indicates quality issues".
Definition risk_lead_time : string :=
  "Long lead times may indicate process bottlenecks".
Definition risk_churn : string :=
  "Code churn patterns indicate potential technical debt".
Definition risk_review : string :=
  "Low review participation may lead to quality issues".
Definition risk_none : string :=
  "No significant risk factors identified".

Definition empty_dict : pyval := PDict ∅.

Definition _analyze_churn_patterns (data : pyval) : result churn_analysis :=
  churn_data <- get data "code_quality" empty_dict ;;
  total_churn <- get churn_data "total_churn" (PInt 0) ;;
  churn_rate <- get churn_data "churn_rate" (PInt 0) ;;
  risk_score <- get churn_data "risk_score" (PInt 0) ;;
  classified <-
    (is_high <- gt churn_rate 200 ;;
     if is_high then Ok (HIGH, recommendations_high)
     else
       is_moderate <- gt churn_rate 100 ;;
       if is_moderate then Ok (MODERATE, recommendations_moderate)
       else Ok (LOW, recommendations_low)) ;;
  large <- gt churn_rate 150 ;;
  frequent <- gt total_churn 5000 ;;
  exceeded <- gt risk_score 70 ;;
  Ok {| ca_total_churn := total_churn;
        ca_churn_rate := churn_rate;
        churn_level := fst classified;
        ca_risk_score := risk_score;
        recommendations := snd classified;
        patterns := {| large_changes := large;
                       frequent_modifications := frequent;
                       risk_threshold_exceeded := exceeded |} |}.

Definition _calculate_composite_risk_score (data : pyval) : result pyval :=
  dora <- get data "dora_metrics" empty_dict ;;
  code_quality <- get data "code_quality" empty_dict ;;
  change_failure_rate <- get dora "change_failure_rate" (PInt 0) ;;
  failure_risk <- mul_int change_failure_rate 2 ;;
  churn_score <- get code_quality "risk_score" (PInt 0) ;;
  churn_risk <- mul_float churn_score (1 # 2) ;;
  lead_time_days <- get dora "lead_time_days" (PInt 0) ;;
  scaled <- mul_int lead_time_days 5 ;;
  lead_time_risk <- min_int 50 scaled ;;
  partial <- add failure_risk churn_risk ;;
  total <- add partial lead_time_risk ;;
  min_int 100 total.

(** One pass of the loop of [_suggest_mitigation_strategies]. *)
Definition strategies_for (risk : string) : list string :=
  let r := lower risk in
  if contains "failure rate" r then
    ["Implement more comprehensive testing"; "Add pre-deployment validation checks"]
  else if contains "lead time" r then
    ["Optimize CI/CD pipeline"; "Reduce approval bottlenecks"]
  else if contains "churn" r then
    ["Focus on smaller, more frequent changes"; "Increase pair programming sessions"]
  else if contains "review" r then
    ["Implement review assignment automation"; "Provide code review training"]
  else [].

(** [list(set(strategies))]: the order of the result is not determined, so
    the result is kept as the set. *)
Definition _suggest_mitigation_strategies (risks : list string) : gset string :=
  list_to_set (fold_left (fun strategies risk => strategies ++ strategies_for risk) risks []).

Definition _assess_risk_factors (data : pyval) : result risk_assessment :=
  dora <- get data "dora_metrics" empty_dict ;;
  code_quality <- get data "code_quality" empty_dict ;;
  review <- get data "review_metrics" empty_dict ;;
  let risks := [] in
  let risk_level := LOW in
  change_failure_rate <- get dora "change_failure_rate" (PInt 0) ;;
  failing <- gt change_failure_rate 15 ;;
  let risks := if failing then risks ++ [risk_failure_rate] else risks in
  let risk_level := if failing then HIGH else risk_level in
  lead_time_days <- get dora "lead_time_days" (PInt 0) ;;
  slow <- gt lead_time_days 7 ;;
  let risks := if slow then risks ++ [risk_lead_time] else risks in
  let risk_level :=
    if slow then (if level_eqb risk_level LOW then MODERATE else risk_level)
    else risk_level in
  churn_score <- get code_quality "risk_score" (PInt 0) ;;
  churning <- gt churn_score 60 ;;
  let risks := if churning then risks ++ [risk_churn] else risks in
  let risk_level := if churning then HIGH else risk_level in
  participation <- get review "review_participation_rate" (PInt 100) ;;
  unreviewed <- lt participation 70 ;;
  let risks := if unreviewed then risks ++ [risk_review] else risks in
  let risk_level :=
    if unreviewed then (if level_eqb risk_level LOW then MODERATE else risk_level)
    else risk_level in
  let risks := match risks with [] => risks ++ [risk_none] | _ :: _ => risks end in
  composite <- _calculate_composite_risk_score data ;;
  Ok {| overall_risk_level := risk_level;
        identified_risks := risks;
        risk_score := composite;
        mitigation_strategies := _suggest_mitigation_strategies risks |}.

Definition _score_to_grade (score : pyval) : result grade :=
  a <- ge score 90 ;;
  if a then Ok A else
  b <- ge score 80 ;;
  if b then Ok B else
  c <- ge score 70 ;;
  if c then Ok C else
  d <- ge score 60 ;;
  if d then Ok D else Ok F.

Definition _calculate_quality_indicators (data : pyval) : result quality_indicators :=
  basic <- get data "basic_stats" empty_dict ;;
  dora <- get data "dora_metrics" empty_dict ;;
  review <- get data "review_metrics" empty_dict ;;
  total_commits <- get basic "total_commits" (PInt 0) ;;
  period_days <- get data "period_days" (PInt 7) ;;
  per_day <- div total_commits period_days ;;
  scaled <- mul_int per_day 10 ;;
  velocity <- min_int 100 scaled ;;
  change_failure_rate <- get dora "change_failure_rate" (PInt 0) ;;
  penalty <- mul_int change_failure_rate 5 ;;
  remaining <- rsub_int 100 penalty ;;
  quality <- max_int 0 remaining ;;
  collaboration <- get review "review_participation_rate" (PInt 0) ;;
  partial <- add velocity quality ;;
  total <- add partial collaboration ;;
  overall <- div total (PInt 3) ;;
  velocity1 <- round velocity 1 ;;
  quality1 <- round quality 1 ;;
  collaboration1 <- round collaboration 1 ;;
  overall1 <- round overall 1 ;;
  letter <- _score_to_grade overall ;;
  Ok {| velocity_score := velocity1;
        quality_score := quality1;
        collaboration_score := collaboration1;
        overall_score := overall1;
        qi_grade := letter |}.

Definition _analyze_trends (data : pyval) : trend_analysis :=
  {| velocity_trend := "stable";
     quality_trend := "improving";
     collaboration_trend := "stable";
     trend_recommendations :=
       ["Maintain current development pace";
        "Continue focus on quality practices";
        "Consider expanding collaboration metrics"] |}.

(** The body of the [try] block of [DiffAnalystAgent.execute]. *)
Definition analyze (data : pyval) : result analysis :=
  churn <- _analyze_churn_patterns data ;;
  risk <- _assess_risk_factors data ;;
  quality <- _calculate_quality_indicators data ;;
  Ok {| an_churn_analysis := churn;
        an_risk_assessment := risk;
        an_quality_indicators := quality;
        an_trend_analysis := _analyze_trends data |}.

(** ** The raw summary (the dict built by [generate_performance_summary]) *)

Module RawSummary.

Record basic_stats : Type := {
  total_commits : Z;
  total_pull_requests : Z;
  lines_added : Z;
  lines_deleted : Z;
  files_changed : Z
}.

Record dora_metrics : Type := {
  lead_time_days : Q;
  deployment_frequency : Q;
  change_failure_rate : Q;
  mttr_hours : Q
}.

Record code_quality : Type := {
  total_churn : Z;
  churn_rate : Q;
  risk_score : Q;
  high_risk_files : Z
}.

Record review_metrics : Type := {
  avg_review_time_hours : Q;
  review_participation_rate : Q;
  pr_cycle_time_hours : Q;
  approval_rate : Q
}.

Record t : Type := {
  period_days : Z;
  basic : basic_stats;
  dora : dora_metrics;
  quality : code_quality;
  review : review_metrics
}.

Definition basic_dict (b : basic_stats) : pyval :=
  PDict (<["total_commits" := PInt (total_commits b)]>
        (<["total_pull_requests" := PInt (total_pull_requests b)]>
        (<["lines_added" := PInt (lines_added b)]>
        (<["lines_deleted" := PInt (lines_deleted b)]>
        (<["files_changed" := PInt (files_changed b)]> ∅))))).

Definition dora_dict (d : dora_metrics) : pyval :=
  PDict (<["lead_time_days" := PFloat (lead_time_days d)]>
        (<["deployment_frequency" := PFloat (deployment_frequency d)]>
        (<["change_failure_rate" := PFloat (change_failure_rate d)]>
        (<["mttr_hours" := PFloat (mttr_hours d)]> ∅)))).

Definition quality_dict (c : code_quality) : pyval :=
  PDict (<["total_churn" := PInt (total_churn c)]>
        (<["churn_rate" := PFloat (churn_rate c)]>
        (<["risk_score" := PFloat (risk_score c)]>
        (<["high_risk_files" := PInt (high_risk_files c)]> ∅)))).

Definition review_dict (v : review_metrics) : pyval :=
  PDict (<["avg_review_time_hours" := PFloat (avg_review_time_hours v)]>
        (<["review_participation_rate" := PFloat (review_participation_rate v)]>
        (<["pr_cycle_time_hours" := PFloat (pr_cycle_time_hours v)]>
        (<["approval_rate" := PFloat (approval_rate v)]> ∅)))).

(** The dict literal returned by [generate_performance_summary]. *)
Definition to_dict (s : t) : gmap string pyval :=
  <["period_days" := PInt (period_days s)]>
  (<["basic_stats" := basic_dict (basic s)]>
  (<["dora_metrics" := dora_dict (dora s)]>
  (<["code_quality" := quality_dict (quality s)]>
  (<["review_metrics" := review_dict (review s)]> ∅)))).

Definition to_py (s : t) : pyval := PDict (to_dict s).

End RawSummary.

(** [data.get(group, {}).get(key, dflt)], the way every consumer reads a
    field of the raw summary. *)
Definition field (data : pyval) (group key : string) (dflt : pyval) : result pyval :=
  g <- get data group empty_dict ;; get g key dflt.

(** [has_value v q]: [v] is a Python number whose value is [q]. *)
Definition has_value (v : pyval) (q : Q) : Prop :=
  exists q', num v = Some q' /\ (q' == q)%Q.

(** [reads data group key dflt q]: the field is read without error and is a
    number of value [q]. *)
Definition reads (data : pyval) (group key : string) (dflt : pyval) (q : Q) : Prop :=
  exists v, field data group key dflt = Ok v /\ has_value v q.

(** [reads_top data key dflt q]: the top-level entry is a number of value [q]. *)
Definition reads_top (data : pyval) (key : string) (dflt : pyval) (q : Q) : Prop :=
  exists v, get data key dflt = Ok v /\ has_value v q.

(** [analyzable data]: every field the analysis consumes is read without
    error as a number, and the period is not zero.  A sub-group or field
    that is missing is read as its default. *)
Definition analyzable (data : pyval) : Prop :=
  (exists q, reads data "code_quality" "total_churn" (PInt 0) q) /\
  (exists q, reads data "code_quality" "churn_rate" (PInt 0) q) /\
  (exists q, reads data "code_quality" "risk_score" (PInt 0) q) /\
  (exists q, reads data "dora_metrics" "change_failure_rate" (PInt 0) q) /\
  (exists q, reads data "dora_metrics" "lead_time_days" (PInt 0) q) /\
  (exists q, reads data "review_metrics" "review_participation_rate" (PInt 100) q) /\
  (exists q, reads data "review_metrics" "review_participation_rate" (PInt 0) q) /\
  (exists q, reads data "basic_stats" "total_commits" (PInt 0) q) /\
  (exists q, reads_top data "period_days" (PInt 7) q /\ ~ (q == 0)%Q).

(** The integers of a payload, at the top level or in a sub-group, that
    the interpreter can turn into floats, with room for the products by 2,
    5 and 10 that the analysis forms. *)
Definition int_in_range (v : pyval) : bool :=
  match v with
  | PInt z => (Z.abs z <=? 10 ^ 300)%Z
  | _ => true
  end.

Definition within_float_range (data : pyval) : bool :=
  match data with
  | PDict d =>
      forallb
        (fun entry =>
           match entry.2 with
           | PDict g => forallb (fun inner => int_in_range inner.2) (map_to_list g)
           | v => int_in_range v
           end) (map_to_list d)
  | _ => true
  end.

(** The fixed recommendation list of a churn level. *)
Definition recommendations_of (l : level) : list string :=
  match l with
  | HIGH => recommendations_high
  | MODERATE => recommendations_moderate
  | LOW => recommendations_low
  end.

(** Truth value of an [Optional[int]]: [None] and 0 are false. *)
Definition id_given (id : option Z) : bool :=
  match id with
  | None => false
  | Some z => negb (z =? 0)%Z
  end.

(** ** The metrics engine ([src/core/metrics.py], [src/core/database.py])

    A [datetime] is its number of microseconds since the epoch.  The
    storage is the list of rows of each table; a query without ORDER BY
    returns the rows that match in the order of the table. *)

Module Metrics.

Record Engineer : Type := {
  engineer_pk : Z;
  engineer_team : option Z
}.

Record Commit : Type := {
  author_id : option Z;
  commit_repository : option Z;
  committed_at : Z;
  additions : Z;
  deletions : Z;
  changed_files : Z
}.

Record Deployment : Type := {
  deployment_pk : Z;
  deployment_repository : option Z;
  status : string;
  deployed_at : Z
}.

Record storage : Type := {
  engineers : list Engineer;
  commits : list Commit;
  deployments : list Deployment
}.

Record CodeChurnMetrics : Type := {
  total_churn : Z;
  churn_rate : Q;
  high_churn_files : list string;
  risk_score : Q
}.

Definition microseconds_per_day : Z := 86400 * 1000000.

(** [datetime.utcnow() - timedelta(days=days)] *)
Definition cutoff (now days : Z) : Z := (now - days * microseconds_per_day)%Z.

(** The instants that a [datetime] holds: from the first day of the year 1
    to the last microsecond of the year 9999. *)
Definition datetime_min : Z := (- 719162 * microseconds_per_day)%Z.
Definition datetime_max : Z := (2932897 * microseconds_per_day - 1)%Z.

(** The subtraction above is defined: [timedelta] takes at most 999999999
    days and the result is a [datetime]; otherwise the interpreter raises
    OverflowError, in the query where the subtraction is. *)
Definition window_exists (now days : Z) : bool :=
  (Z.abs days <=? 999999999)%Z
  && (datetime_min <=? cutoff now days)%Z && (cutoff now days <=? datetime_max)%Z.

(** [a == b] on two nullable integers; [None == None] holds. *)
Definition same_id (a b : option Z) : bool :=
  match a, b with
  | Some x, Some y => (x =? y)%Z
  | None, None => true
  | _, _ => false
  end.

(** [Column == value] in a SQL filter: a NULL column matches nothing. *)
Definition column_is (column : option Z) (value : Z) : bool :=
  match column with
  | Some x => (x =? value)%Z
  | None => false
  end.

(** [get_engineer_commits] and the first query of [_calculate_lead_time]. *)
Definition get_engineer_commits (db : storage) (now engineer days : Z) : list Commit :=
  List.filter (fun c => column_is (author_id c) engineer
                        && (cutoff now days <=? committed_at c)%Z) (commits db).

(** [get_team_commits]: commits joined with their author's row. *)
Definition get_team_commits (db : storage) (now team days : Z) : list Commit :=
  List.filter
    (fun c => existsb (fun e => column_is (author_id c) (engineer_pk e)
                                && column_is (engineer_team e) team) (engineers db)
              && (cutoff now days <=? committed_at c)%Z) (commits db).

Definition get_all_commits (db : storage) (now days : Z) : list Commit :=
  List.filter (fun c => (cutoff now days <=? committed_at c)%Z) (commits db).

(** [get_deployments(days=days)]: no repository filter, no ordering. *)
Definition get_deployments (db : storage) (now days : Z) : list Deployment :=
  List.filter (fun d => (cutoff now days <=? deployed_at d)%Z) (deployments db).

(** The commits in scope, as every calculation selects them. *)
Definition commits_in_scope (db : storage) (now : Z) (team_id engineer_id : option Z)
    (days : Z) : list Commit :=
  if id_given engineer_id then get_engineer_commits db now (default 0%Z engineer_id) days
  else if id_given team_id then get_team_commits db now (default 0%Z team_id) days
  else get_all_commits db now days.

(** [sum(xs)] *)
Definition sum_Q (xs : list Q) : Q := fold_left Qplus xs 0%Q.
Definition sum_Z (xs : list Z) : Z := fold_left Z.add xs 0%Z.

(** [(deployment.deployed_at - commit.committed_at).total_seconds() / 86400] *)
Definition days_between (c : Commit) (d : Deployment) : Q :=
  (inject_Z (deployed_at d - committed_at c) / 1000000 / 86400)%Q.

Definition deployed_after (c : Commit) (d : Deployment) : bool :=
  (committed_at c <? deployed_at d)%Z
  && same_id (deployment_repository d) (commit_repository c).

(** The inner loop: the first deployment of the list that passes the
    test ends the loop. *)
Fixpoint first_deployment_after (c : Commit) (ds : list Deployment) : option Deployment :=
  match ds with
  | [] => None
  | d :: ds' => if deployed_after c d then Some d else first_deployment_after c ds'
  end.

(** The outer loop. *)
Definition lead_times (cs : list Commit) (ds : list Deployment) : list Q :=
  fold_left
    (fun found c =>
       match first_deployment_after c ds with
       | Some d => found ++ [days_between c d]
       | None => found
       end) cs [].

(** [sum(xs) / len(xs) if xs else 0.0] *)
Definition mean (xs : list Q) : Q :=
  match xs with
  | [] => 0%Q
  | _ :: _ => (sum_Q xs / inject_Z (Z.of_nat (length xs)))%Q
  end.

Definition _calculate_lead_time (db : storage) (now : Z) (team_id engineer_id : option Z)
    (days : Z) : Q :=
  mean (lead_times (commits_in_scope db now team_id engineer_id days)
          (get_deployments db now days)).

Definition churn_of (c : Commit) : Z := (additions c + deletions c)%Z.

Definition _calculate_churn_risk_score (cs : list Commit) : Q :=
  match cs with
  | [] => 0%Q
  | _ :: _ =>
      let total_churn := sum_Z (map churn_of cs) in
      let avg_churn_per_commit :=
        (inject_Z total_churn / inject_Z (Z.of_nat (length cs)))%Q in
      let large_commits :=
        fold_left (fun n c => if (300 <? churn_of c)%Z then (n + 1)%Z else n) cs 0%Z in
      let large_commit_ratio :=
        (inject_Z large_commits / inject_Z (Z.of_nat (length cs)))%Q in
      let score := (avg_churn_per_commit / 10 + large_commit_ratio * 50)%Q in
      if Qltb score 100 then score else 100%Q
  end.

Definition churn_metrics_of (cs : list Commit) : CodeChurnMetrics :=
  let total := sum_Z (map churn_of cs) in
  {| total_churn := total;
     churn_rate := match cs with
                   | [] => 0%Q
                   | _ :: _ => (inject_Z total / inject_Z (Z.of_nat (length cs)))%Q
                   end;
     high_churn_files := [];
     risk_score := _calculate_churn_risk_score cs |}.

Definition calculate_code_churn_metrics (db : storage) (now : Z)
    (engineer_id team_id : option Z) (days : Z) : CodeChurnMetrics :=
  churn_metrics_of (commits_in_scope db now team_id engineer_id days).

(** *** The metrics in the words of the specification *)

(** "the earliest deployment to the same repository with deployed_at
    strictly after committed_at" *)
Definition spec_earliest_deployment (c : Commit) (ds : list Deployment)
  : option Deployment :=
  fold_left
    (fun best d =>
       if deployed_after c d then
         match best with
         | Some b => if (deployed_at d <? deployed_at b)%Z then Some d else best
         | None => Some d
         end
       else best) ds None.

(** "arithmetic mean over matched commits; commits with no matching
    deployment are excluded; if none match, lead time = 0" *)
Definition spec_lead_time (cs : list Commit) (ds : list Deployment) : Q :=
  mean (omap (fun c => option_map (days_between c) (spec_earliest_deployment c ds)) cs).

(** "fraction of commits whose own churn exceeds 300 lines" *)
Definition spec_large_commit_ratio (cs : list Commit) : Q :=
  (inject_Z (Z.of_nat (length (List.filter (fun c => (300 <? churn_of c)%Z) cs)))
   / inject_Z (Z.of_nat (length cs)))%Q.

End Metrics.

(** ** DataHarvesterAgent: the organization-wide harvest without teams

    What the source-control client answers for one repository:
    [sync_repository_data] returns the two counts, [get_repository_commits]
    the commits with their line counts; either call may raise.  The random
    generator of the interpreter is a state threaded through the draws. *)

Record sync_result : Type := {
  commits_stored : Z;
  pull_requests_stored : Z
}.

Record commit_info : Type := {
  info_additions : Z;
  info_deletions : Z;
  info_changed_files : Z
}.

Record repository_reply : Type := {
  synced : result sync_result;
  fetched : result (list commit_info)
}.

Record totals : Type := {
  sum_commits : Z;
  sum_prs : Z;
  sum_lines_added : Z;
  sum_lines_deleted : Z;
  sum_files_changed : Z
}.

Definition no_totals : totals :=
  {| sum_commits := 0; sum_prs := 0; sum_lines_added := 0;
     sum_lines_deleted := 0; sum_files_changed := 0 |}.

(** The body of [for commit in commits]. *)
Definition count_commit (t : totals) (c : commit_info) : totals :=
  {| sum_commits := sum_commits t; sum_prs := sum_prs t;
     sum_lines_added := sum_lines_added t + info_additions c;
     sum_lines_deleted := sum_lines_deleted t + info_deletions c;
     sum_files_changed := sum_files_changed t + info_changed_files c |}.

(** The body of [for repo in repos]: an exception ends the work on this
    repository and keeps what was added before it. *)
Definition count_repository (t : totals) (reply : repository_reply) : totals :=
  match synced reply with
  | Raise _ => t
  | Ok repo_data =>
      let t := {| sum_commits := sum_commits t + commits_stored repo_data;
                  sum_prs := sum_prs t + pull_requests_stored repo_data;
                  sum_lines_added := sum_lines_added t;
                  sum_lines_deleted := sum_lines_deleted t;
                  sum_files_changed := sum_files_changed t |} in
      match fetched reply with
      | Raise _ => t
      | Ok commits => fold_left count_commit commits t
      end
  end.

Section harvesting.
Variable rng : Type.

(** [random.uniform(a, b)] and [random.randint(a, b)] *)
Variable uniform : Q -> Q -> rng -> Q * rng.
Variable randint : Z -> Z -> rng -> Z * rng.

(** [round(random.uniform(a, b), 1)] *)
Definition rounded_draw (a b : Q) (g : rng) : pyval * rng :=
  let '(u, g) := uniform a b g in (PFloat (round_digits u 1), g).

(** The branch [if not teams] of [_get_overall_stats], after the list of
    repositories was obtained. *)
Definition bootstrap_summary (days : Z) (replies : list repository_reply) (g : rng)
  : pyval * rng :=
  let t := fold_left count_repository replies no_totals in
  let '(lead_time, g) :=
    if (0 <? sum_commits t)%Z then rounded_draw (3 # 2) (7 # 2) g else (PInt 0, g) in
  let deploy_freq :=
    if (0 <? days)%Z
    then PFloat (round_digits (inject_Z (sum_commits t) / inject_Z days) 2)
    else PInt 0 in
  let '(change_failure_rate, g) := rounded_draw 3 8 g in
  let '(mttr_hours, g) := rounded_draw (7 # 2) 6 g in
  let '(risk, g) := rounded_draw 15 35 g in
  let '(high_risk_files, g) := randint 0 5 g in
  let '(avg_review_time_hours, g) := rounded_draw 6 12 g in
  let '(review_participation_rate, g) := rounded_draw 70 95 g in
  let '(pr_cycle_time_hours, g) := rounded_draw 12 24 g in
  let '(approval_rate, g) := rounded_draw 85 98 g in
  (PDict
     (<["period_days" := PInt days]>
     (<["basic_stats" :=
          PDict (<["total_commits" := PInt (sum_commits t)]>
                (<["total_pull_requests" := PInt (sum_prs t)]>
                (<["lines_added" := PInt (sum_lines_added t)]>
                (<["lines_deleted" := PInt (sum_lines_deleted t)]>
                (<["files_changed" := PInt (sum_files_changed t)]> ∅)))))]>
     (<["dora_metrics" :=
          PDict (<["lead_time_days" := lead_time]>
                (<["deployment_frequency" := deploy_freq]>
                (<["change_failure_rate" := change_failure_rate]>
                (<["mttr_hours" := mttr_hours]> ∅))))]>
     (<["code_quality" :=
          PDict (<["total_churn" := PInt (sum_lines_added t + sum_lines_deleted t)]>
                (<["churn_rate" :=
                     PFloat (round_digits
                               (inject_Z (sum_lines_added t + sum_lines_deleted t)
                                / inject_Z (Z.max (sum_commits t) 1)) 1)]>
                (<["risk_score" := risk]>
                (<["high_risk_files" := PInt high_risk_files]> ∅))))]>
     (<["review_metrics" :=
          PDict (<["avg_review_time_hours" := avg_review_time_hours]>
                (<["review_participation_rate" := review_participation_rate]>
                (<["pr_cycle_time_hours" := pr_cycle_time_hours]>
                (<["approval_rate" := approval_rate]> ∅))))]> ∅))))),
   g).

(** [_get_overall_stats]: [teams] is the result of [get_all_teams],
    [listing] the result of listing the repositories of the account, and
    [aggregate] the aggregation over the teams, used when there are
    teams. *)
Definition _get_overall_stats {team : Type} (days : Z) (teams : list team)
    (listing : result (list repository_reply))
    (aggregate : list team -> Z -> result pyval) (g : rng) : result pyval * rng :=
  match teams with
  | [] =>
      match listing with
      | Raise e => (Raise e, g)
      | Ok replies =>
          let '(summary, g) := bootstrap_summary days replies g in (Ok summary, g)
      end
  | _ :: _ => (aggregate teams days, g)
  end.
End harvesting.

(** A random generator given by the list of its next draws in [0, 1). *)
Definition listed_uniform (a b : Q) (g : list Q) : Q * list Q :=
  match g with
  | [] => (a, [])
  | u :: g' => ((a + (b - a) * u)%Q, g')
  end.

Definition listed_randint (a b : Z) (g : list Q) : Z * list Q :=
  match g with
  | [] => (a, [])
  | u :: g' => ((a + Qfloor (u * inject_Z (b - a + 1)))%Z, g')
  end.

Definition one_repository : list repository_reply :=
  [{| synced := Ok {| commits_stored := 3; pull_requests_stored := 1 |};
      fetched := Ok [{| info_additions := 10; info_deletions := 5;
                        info_changed_files := 2 |}] |}].

(** ** InsightNarratorAgent: parsing the generated text

    The response of the text generator is arbitrary Unicode text, and the
    parser counts and classifies characters: a text is the list of its code
    points.  [str.isspace], [str.isdigit] and [str.lower] are the
    interpreter's; they are arguments of the embedding. *)

Definition text : Type := list N.

Definition text_of_string (s : string) : text :=
  map (fun c => N_of_ascii c) (list_ascii_of_string s).

Definition newline : N := 10.
Definition full_stop : N := 46.
Definition hyphen : N := 45.
Definition bullet : N := 8226.
Definition asterisk : N := 42.

(** [s.split(sep)] for a one-character separator. *)
Fixpoint split_on (sep : N) (s : text) : list text :=
  match s with
  | [] => [[]]
  | c :: s' =>
      if (c =? sep)%N then [] :: split_on sep s'
      else match split_on sep s' with
           | [] => [[c]]
           | w :: ws => (c :: w) :: ws
           end
  end.

(** [s.lstrip(...)]: drop the leading characters that satisfy [p]. *)
Fixpoint lstrip_by (p : N -> bool) (s : text) : text :=
  match s with
  | [] => []
  | c :: s' => if p c then lstrip_by p s' else s
  end.

Definition rstrip_by (p : N -> bool) (s : text) : text :=
  rev (lstrip_by p (rev s)).

(** [s.startswith(c)] for a one-character prefix. *)
Definition startswith (c : N) (s : text) : bool :=
  match s with
  | [] => false
  | x :: _ => (x =? c)%N
  end.

Fixpoint is_prefix (needle hay : text) : bool :=
  match needle, hay with
  | [], _ => true
  | _ :: _, [] => false
  | a :: needle', b :: hay' => (a =? b)%N && is_prefix needle' hay'
  end.

(** [needle in hay] *)
Fixpoint contains_text (needle hay : text) : bool :=
  is_prefix needle hay ||
  match hay with
  | [] => false
  | _ :: hay' => contains_text needle hay'
  end.

(** [s[0]] *)
Definition first_char (s : text) : result N :=
  match s with
  | [] => Raise IndexError
  | c :: _ => Ok c
  end.

(** The characters of ['0123456789.-•* ']. *)
Definition marker_chars : text :=
  text_of_string "0123456789.-" ++ [bullet] ++ text_of_string "* ".

Definition is_marker (c : N) : bool := existsb (N.eqb c) marker_chars.

(** A [for] loop whose body may raise. *)
Fixpoint for_each {X S} (body : S -> X -> result S) (xs : list X) (acc : S) : result S :=
  match xs with
  | [] => Ok acc
  | x :: xs' => acc' <- body acc x ;; for_each body xs' acc'
  end.

Section parsing.
Variable isspace : N -> bool.
Variable isdigit : N -> bool.
Variable lower_text : text -> text.

(** [s.strip()] *)
Definition strip (s : text) : text := rstrip_by isspace (lstrip_by isspace s).

(** The test of the first loop, with Python's short-circuit [and]/[or]. *)
Definition looks_structured (line : text) : result bool :=
  match line with
  | [] => Ok false
  | _ :: _ =>
      c <- first_char line ;;
      if isdigit c || startswith hyphen line || startswith bullet line
         || startswith asterisk line
      then Ok (10 <? length line)%nat
      else Ok false
  end.

(** The body of the first loop. *)
Definition structured_step (insights : list text) (line : text) : result (list text) :=
  let line := strip line in
  qualifies <- looks_structured line ;;
  if qualifies then
    let cleaned := strip (lstrip_by is_marker line) in
    match cleaned with
    | [] => Ok insights
    | _ :: _ => if (20 <? length cleaned)%nat then Ok (insights ++ [cleaned]) else Ok insights
    end
  else Ok insights.

Definition mentions_team (sentence : text) : bool :=
  contains_text (text_of_string "team") (lower_text sentence)
  || contains_text (text_of_string "performance") (lower_text sentence).

(** The body of the second loop. *)
Definition sentence_step (insights : list text) (sentence : text) : result (list text) :=
  let sentence := strip sentence in
  if (30 <? length sentence)%nat && mentions_team sentence
  then Ok (insights ++ [sentence ++ [full_stop]])
  else Ok insights.

Definition _parse_insights_from_response (response_content : text) : result (list text) :=
  let lines := split_on newline response_content in
  insights <- for_each structured_step lines [] ;;
  insights <-
    match insights with
    | [] => for_each sentence_step (split_on full_stop response_content) insights
    | _ :: _ => Ok insights
    end ;;
  Ok (firstn 5 insights).

(** *** The two loops as list functions

    What the loops of the parser compute, written with the parser's own
    helpers; the properties below go through these. *)

(** The test of the first loop. *)
Definition line_qualifies (line : text) : bool :=
  match line with
  | [] => false
  | c :: _ =>
      (isdigit c || (c =? hyphen)%N || (c =? bullet)%N || (c =? asterisk)%N)
      && (10 <? length line)%nat
  end.

(** The items of the first loop. *)
Definition kept_lines (lines : list text) : list text :=
  filter (fun cleaned => 20 < length cleaned)%nat
    (map (fun line => strip (lstrip_by is_marker line))
       (filter (fun line => line_qualifies line = true)
          (map strip lines))).

Definition structured_items (response : text) : list text :=
  kept_lines (split_on newline response).

(** The items of the second loop. *)
Definition kept_sentences (sentences : list text) : list text :=
  map (fun sentence => sentence ++ [full_stop])
    (filter (fun sentence => (30 < length sentence)%nat /\ mentions_team sentence = true)
       (map strip sentences)).

Definition fallback_items (response : text) : list text :=
  kept_sentences (split_on full_stop response).

Definition collected_items (response : text) : list text :=
  firstn 5 (match structured_items response with
            | [] => fallback_items response
            | _ :: _ => structured_items response
            end).

(** *** The parsing rule in the words of the specification

    These definitions use none of the functions above: whitespace is what
    [isspace] accepts, a digit what [isdigit] accepts, characters are
    given by their code points. *)

(** [pieces] are the parts of [s] between the occurrences of [sep]. *)
Fixpoint spec_joined (sep : N) (pieces : list text) : text :=
  match pieces with
  | [] => []
  | piece :: rest =>
      match rest with
      | [] => piece
      | _ :: _ => piece ++ sep :: spec_joined sep rest
      end
  end.

Definition spec_pieces (sep : N) (s : text) (pieces : list text) : Prop :=
  pieces <> [] /\ s = spec_joined sep pieces /\
  Forall (fun piece => ~ In sep piece) pieces.

(** "after trimming whitespace": [trimmed] is [raw] without the whitespace
    at its two ends. *)
Definition spec_trimmed (raw trimmed : text) : Prop :=
  exists before after,
    raw = before ++ trimmed ++ after /\
    Forall (fun c => isspace c = true) before /\
    Forall (fun c => isspace c = true) after /\
    (forall c rest, trimmed = c :: rest -> isspace c = false) /\
    (forall kept c, trimmed = kept ++ [c] -> isspace c = false).

(** "it is non-empty, its first character is a digit OR it starts with -,
    • or *, and its length exceeds 10" *)
Definition spec_candidate (line : text) : Prop :=
  exists c rest,
    line = c :: rest /\
    (isdigit c = true \/ c = 45%N \/ c = 8226%N \/ c = 42%N) /\
    (10 < length line)%nat.

(** "leading digits/punctuation/bullet characters": the digits 0 to 9, the
    full stop, the hyphen, the bullet, the asterisk and the space. *)
Definition spec_marker (c : N) : Prop :=
  (48 <= c <= 57)%N \/ c = 46%N \/ c = 45%N \/ c = 8226%N \/ c = 42%N \/ c = 32%N.

(** "strip leading digits/punctuation/bullet characters and surrounding
    whitespace" *)
Definition spec_cleaned (line cleaned : text) : Prop :=
  exists markers rest,
    line = markers ++ rest /\ Forall spec_marker markers /\
    (forall c rest', rest = c :: rest' -> ~ spec_marker c) /\
    spec_trimmed rest cleaned.

(** What a line gives: "keep it only if the cleaned text exceeds 20
    characters". *)
Definition spec_line_item (line : text) (item : option text) : Prop :=
  exists trimmed,
    spec_trimmed line trimmed /\
    ((spec_candidate trimmed /\
      exists cleaned,
        spec_cleaned trimmed cleaned /\
        (((20 < length cleaned)%nat /\ item = Some cleaned) \/
         ((length cleaned <= 20)%nat /\ item = None))) \/
     (~ spec_candidate trimmed /\ item = None)).

(** "contain team or performance (case-insensitive)" *)
Definition spec_contains (word : string) (sentence : text) : Prop :=
  exists before after, lower_text sentence = before ++ text_of_string word ++ after.

Definition spec_sentence_qualifies (sentence : text) : Prop :=
  (30 < length sentence)%nat /\
  (spec_contains "team" sentence \/ spec_contains "performance" sentence).

(** What a sentence gives: "keep sentences longer than 30 characters that
    contain team or performance, each re-suffixed with a period". *)
Definition spec_sentence_item (sentence : text) (item : option text) : Prop :=
  exists trimmed,
    spec_trimmed sentence trimmed /\
    ((spec_sentence_qualifies trimmed /\ item = Some (trimmed ++ [46%N])) \/
     (~ spec_sentence_qualifies trimmed /\ item = None)).

(** "If zero lines qualify, fall back to sentence-splitting"; "return at
    most the first 5 qualifying items in encountered order". *)
Definition spec_result (line_items sentence_items : list (option text)) : list text :=
  firstn 5 (match omap id line_items with
            | [] => omap id sentence_items
            | _ :: _ => omap id line_items
            end).
End parsing.

(** ** The pipeline state and the three agents *)

Record AgentState : Type := {
  request_type : string;
  team_id : option Z;
  engineer_id : option Z;
  time_period : Z;
  raw_data : pyval;
  analysis_results : option analysis;
  insights : option (list text);
  narrative : text;
  charts : option (list pyval);
  error : option string
}.

Definition set_raw_data (data : pyval) (st : AgentState) : AgentState :=
  {| request_type := request_type st; team_id := team_id st;
     engineer_id := engineer_id st; time_period := time_period st;
     raw_data := data; analysis_results := analysis_results st;
     insights := insights st; narrative := narrative st;
     charts := charts st; error := error st |}.

Definition set_analysis_results (a : analysis) (st : AgentState) : AgentState :=
  {| request_type := request_type st; team_id := team_id st;
     engineer_id := engineer_id st; time_period := time_period st;
     raw_data := raw_data st; analysis_results := Some a;
     insights := insights st; narrative := narrative st;
     charts := charts st; error := error st |}.

Definition set_insights_narrative (i : list text) (n : text) (st : AgentState) : AgentState :=
  {| request_type := request_type st; team_id := team_id st;
     engineer_id := engineer_id st; time_period := time_period st;
     raw_data := raw_data st; analysis_results := analysis_results st;
     insights := Some i; narrative := n;
     charts := charts st; error := error st |}.

Definition set_error (message : string) (st : AgentState) : AgentState :=
  {| request_type := request_type st; team_id := team_id st;
     engineer_id := engineer_id st; time_period := time_period st;
     raw_data := raw_data st; analysis_results := analysis_results st;
     insights := insights st; narrative := narrative st;
     charts := charts st; error := Some message |}.

(** Truth value of an [Optional[str]]: [None] and the empty string are false. *)
Definition error_set (st : AgentState) : bool :=
  match error st with
  | None => false
  | Some message => negb (String.eqb message "")
  end.

Section agents.
(** The state of everything outside the pipeline: storage, source
    control, text generator, clock, random generator. *)
Variable world : Type.

(** [str(e)] *)
Variable str : exn -> string.

(** [metrics_calculator.generate_performance_summary(engineer_id, team_id, days)] *)
Variable generate_performance_summary :
  option Z -> option Z -> Z -> world -> result pyval * world.

(** [self._get_overall_stats(days)], run against the collaborators. *)
Variable overall_stats : Z -> world -> result pyval * world.

(** [PromptTemplates.INSIGHT_GENERATION.format(...)] on the raw data. *)
Variable insight_prompt : pyval -> result text.

(** [llm_client.generate_text(prompt).content] *)
Variable generate_text : text -> world -> result text * world.

(** [InsightNarratorAgent._create_narrative]; it reads the clock. *)
Variable _create_narrative :
  pyval -> analysis -> list text -> world -> result text * world.

Variable isspace : N -> bool.
Variable isdigit : N -> bool.
Variable lower_text : text -> text.

Definition DataHarvesterAgent_execute (state : AgentState) (w : world)
  : AgentState * world :=
  let '(outcome, w') :=
    if id_given (engineer_id state) then
      generate_performance_summary (engineer_id state) None (time_period state) w
    else if id_given (team_id state) then
      generate_performance_summary None (team_id state) (time_period state) w
    else overall_stats (time_period state) w in
  match outcome with
  | Ok data => (set_raw_data data state, w')
  | Raise e => (set_error ("Data harvesting failed: " ++ str e) state, w')
  end.

Definition DiffAnalystAgent_execute (state : AgentState) (w : world)
  : AgentState * world :=
  if error_set state || negb (truthy (raw_data state)) then (state, w)
  else
    match analyze (raw_data state) with
    | Ok a => (set_analysis_results a state, w)
    | Raise e => (set_error ("Diff analysis failed: " ++ str e) state, w)
    end.

Definition _generate_insights (raw : pyval) (a : analysis) (w : world)
  : result (list text) * world :=
  match insight_prompt raw with
  | Raise e => (Raise e, w)
  | Ok prompt =>
      let '(response, w') := generate_text prompt w in
      (content <- response ;;
       _parse_insights_from_response isspace isdigit lower_text content, w')
  end.

Definition InsightNarratorAgent_execute (state : AgentState) (w : world)
  : AgentState * world :=
  if error_set state then (state, w)
  else
    match analysis_results state with
    | None => (state, w)
    | Some a =>
        let '(found, w1) := _generate_insights (raw_data state) a w in
        match found with
        | Raise e => (set_error ("Insight generation failed: " ++ str e) state, w1)
        | Ok found =>
            let '(written, w2) := _create_narrative (raw_data state) a found w1 in
            match written with
            | Raise e => (set_error ("Insight generation failed: " ++ str e) state, w2)
            | Ok written => (set_insights_narrative found written state, w2)
            end
        end
    end.

(** [AgentState(request_type=..., insights=[], narrative="", charts=[])] *)
Definition initial_state (request : string) (team engineer : option Z) (period : Z)
  : AgentState :=
  {| request_type := request; team_id := team; engineer_id := engineer;
     time_period := period; raw_data := PNone; analysis_results := None;
     insights := Some []; narrative := []; charts := Some []; error := None |}.

(** [AgentOrchestrator.process_request].  The agents catch every
    exception themselves, so the handler around the three steps has
    nothing to catch. *)
Definition process_request (request : string) (team engineer : option Z) (period : Z)
    (w : world) : AgentState * world :=
  let state := initial_state request team engineer period in
  let '(state, w) := DataHarvesterAgent_execute state w in
  if error_set state then (state, w) else
  let '(state, w) := DiffAnalystAgent_execute state w in
  if error_set state then (state, w) else
  let '(state, w) := InsightNarratorAgent_execute state w in
  if error_set state then (state, w) else
  (state, w).
End agents.

(** ** The analysis policy in the words of the specification

    These definitions follow the specification, not the code; the
    properties below compare them with the code. *)

(** "Starts at LOW.  Escalate to HIGH if change_failure_rate > 15, or if
    code-quality risk_score > 60.  Escalate to MODERATE (only if still LOW)
    if lead_time_days > 7, or if review_participation_rate < 70." *)
Definition spec_risk_level (cfr lead churn participation : Q) : level :=
  if Qltb 15 cfr || Qltb 60 churn then HIGH
  else if Qltb 7 lead || Qltb participation 70 then MODERATE
  else LOW.

(** "Each triggered condition appends one fixed message, in check order:
    failure-rate, lead-time, churn-risk, review-participation." *)
Definition spec_triggered_risks (cfr lead churn participation : Q) : list string :=
  (if Qltb 15 cfr then [risk_failure_rate] else []) ++
  (if Qltb 7 lead then [risk_lead_time] else []) ++
  (if Qltb 60 churn then [risk_churn] else []) ++
  (if Qltb participation 70 then [risk_review] else []).

(** "If none trigger, identified_risks = [No significant risk factors identified]." *)
Definition spec_identified_risks (cfr lead churn participation : Q) : list string :=
  let triggered := spec_triggered_risks cfr lead churn participation in
  match triggered with
  | [] => [risk_none]
  | _ :: _ => triggered
  end.

(** "min(100, change_failure_rate×2 + code_quality.risk_score×0.5 +
    min(50, lead_time_days×5))" *)
Definition spec_composite_risk_score (cfr churn lead : Q) : Q :=
  Qmin 100 (cfr * 2 + churn * (1 # 2) + Qmin 50 (lead * 5)).

(** "churn_rate > 200 → HIGH; > 100 → MODERATE; else LOW." *)
Definition spec_churn_level (rate : Q) : level :=
  if Qltb 200 rate then HIGH else if Qltb 100 rate then MODERATE else LOW.

(** "velocity_score = min(100, (total_commits / period_days) × 10);
    quality_score = max(0, 100 − change_failure_rate × 5)" *)
Definition spec_velocity_score (commits days : Q) : Q := Qmin 100 (commits / days * 10).
Definition spec_quality_score (cfr : Q) : Q := Qmax 0 (100 - cfr * 5).

(** "Grade mapping: ≥90→A, ≥80→B, ≥70→C, ≥60→D, else F." *)
Definition spec_grade (score : Q) : grade :=
  if Qle_bool 90 score then A
  else if Qle_bool 80 score then B
  else if Qle_bool 70 score then C
  else if Qle_bool 60 score then D
  else F.

(** ** Sample inputs *)

(** The scenario of the specification: change_failure_rate = 20,
    code-quality risk_score = 50, lead_time_days = 2,
    review_participation_rate = 80. *)
Definition scenario_summary : RawSummary.t :=
  {| RawSummary.period_days := 7;
     RawSummary.basic :=
       {| RawSummary.total_commits := 14; RawSummary.total_pull_requests := 3;
          RawSummary.lines_added := 900; RawSummary.lines_deleted := 300;
          RawSummary.files_changed := 40 |};
     RawSummary.dora :=
       {| RawSummary.lead_time_days := 2; RawSummary.deployment_frequency := 1 # 2;
          RawSummary.change_failure_rate := 20; RawSummary.mttr_hours := 4 |};
     RawSummary.quality :=
       {| RawSummary.total_churn := 1200; RawSummary.churn_rate := 200;
          RawSummary.risk_score := 50; RawSummary.high_risk_files := 0 |};
     RawSummary.review :=
       {| RawSummary.avg_review_time_hours := 17 # 2;
          RawSummary.review_participation_rate := 80;
          RawSummary.pr_cycle_time_hours := 24; RawSummary.approval_rate := 92 |} |}.

(** ASCII character classes, enough for the sample texts. *)
Definition ascii_isspace (c : N) : bool :=
  ((9 <=? c) && (c <=? 13) || (c =? 32))%N.
Definition ascii_isdigit (c : N) : bool := ((48 <=? c) && (c <=? 57))%N.
Definition ascii_lower_text (s : text) : text :=
  map (fun c => if ((65 <=? c) && (c <=? 90))%N then (c + 32)%N else c) s.

(** Sample collaborators; the world counts the calls made to them. *)
Definition sample_str (e : exn) : string :=
  match e with
  | AttributeError => "object has no attribute 'get'"
  | TypeError => "unsupported operand type(s)"
  | ZeroDivisionError => "division by zero"
  | IndexError => "string index out of range"
  | External what => what
  end.

Definition failing_summary (engineer team : option Z) (days : Z) (calls : nat)
  : result pyval * nat :=
  (Raise (External "storage unavailable"), S calls).

Definition failing_overall_stats (days : Z) (calls : nat) : result pyval * nat :=
  (Raise (External "storage unavailable"), S calls).

Definition sample_prompt (raw : pyval) : result text :=
  Ok (text_of_string "Analyze the performance data and give insights").

Definition sample_generate_text (prompt : text) (calls : nat) : result text * nat :=
  (Ok (text_of_string "1. The team keeps a steady delivery pace"), S calls).

Definition sample_narrative (raw : pyval) (a : analysis) (found : list text) (calls : nat)
  : result text * nat :=
  (Ok (text_of_string "## Engineering Performance Report"), S calls).

(** A harvested state whose raw data lacks one sub-group. *)
Definition harvested_without (group : string) : AgentState :=
  set_raw_data (PDict (delete group (RawSummary.to_dict scenario_summary)))
    (initial_state "weekly" None None 7).

(** A harvested state in which one sub-group is not a dict. *)
Definition harvested_with (group : string) (v : pyval) : AgentState :=
  set_raw_data (PDict (<[group := v]> (RawSummary.to_dict scenario_summary)))
    (initial_state "weekly" None None 7).

(** A storage in which the deployment table lists a later deployment
    before an earlier one: one commit at time 0 and two deployments of the
    same repository, 10 days and 5 days after the commit. *)
Definition day : Z := Metrics.microseconds_per_day.

Definition commit_at_0 : Metrics.Commit :=
  {| Metrics.author_id := Some 1%Z; Metrics.commit_repository := Some 1%Z;
     Metrics.committed_at := 0; Metrics.additions := 10; Metrics.deletions := 5;
     Metrics.changed_files := 2 |}.

Definition deployment_day_10 : Metrics.Deployment :=
  {| Metrics.deployment_pk := 1; Metrics.deployment_repository := Some 1%Z;
     Metrics.status := "success"; Metrics.deployed_at := 10 * day |}.

Definition deployment_day_5 : Metrics.Deployment :=
  {| Metrics.deployment_pk := 2; Metrics.deployment_repository := Some 1%Z;
     Metrics.status := "success"; Metrics.deployed_at := 5 * day |}.

Definition unordered_storage : Metrics.storage :=
  {| Metrics.engineers := [{| Metrics.engineer_pk := 1; Metrics.engineer_team := Some 1%Z |}];
     Metrics.commits := [commit_at_0];
     Metrics.deployments := [deployment_day_10; deployment_day_5] |}.

(** A summary with no commit at all. *)
Definition idle_summary : RawSummary.t :=
  {| RawSummary.period_days := 7;
     RawSummary.basic :=
       {| RawSummary.total_commits := 0; RawSummary.total_pull_requests := 0;
          RawSummary.lines_added := 0; RawSummary.lines_deleted := 0;
          RawSummary.files_changed := 0 |};
     RawSummary.dora :=
       {| RawSummary.lead_time_days := 0; RawSummary.deployment_frequency := 0;
          RawSummary.change_failure_rate := 0; RawSummary.mttr_hours := 0 |};
     RawSummary.quality :=
       {| RawSummary.total_churn := 0; RawSummary.churn_rate := 0;
          RawSummary.risk_score := 0; RawSummary.high_risk_files := 0 |};
     RawSummary.review :=
       {| RawSummary.avg_review_time_hours := 0;
          RawSummary.review_participation_rate := 0;
          RawSummary.pr_cycle_time_hours := 0; RawSummary.approval_rate := 0 |} |}.

(** A storage that answers every request with the scenario summary. *)
Definition scenario_storage (engineer team : option Z) (days : Z) (calls : nat)
  : result pyval * nat :=
  (Ok (RawSummary.to_py scenario_summary), S calls).

(** ** More of the analysis engine *)

(** The order of the grades, from the worst to the best. *)
Definition grade_rank (g : grade) : nat :=
  match g with
  | F => 0
  | D => 1
  | C => 2
  | B => 3
  | A => 4
  end.

(** A summary whose churn risk score is above 70. *)
Definition risky_summary : RawSummary.t :=
  {| RawSummary.period_days := 7;
     RawSummary.basic := RawSummary.basic scenario_summary;
     RawSummary.dora :=
       {| RawSummary.lead_time_days := 12; RawSummary.deployment_frequency := 1;
          RawSummary.change_failure_rate := 5; RawSummary.mttr_hours := 4 |};
     RawSummary.quality :=
       {| RawSummary.total_churn := 9000; RawSummary.churn_rate := 120;
          RawSummary.risk_score := 80; RawSummary.high_risk_files := 0 |};
     RawSummary.review := RawSummary.review scenario_summary |}.

(** ** The rest of the metrics engine ([src/core/metrics.py])

    Incidents, pull requests and teams join the tables of [Metrics.storage].
    As there, one reading of the clock serves a whole calculation. *)

Module MetricsEngine.
Import Metrics.

Record Team : Type := {
  team_pk : Z;
  team_name : string
}.

Record PullRequest : Type := {
  pr_author_id : option Z;
  pr_created_at : Z
}.

Record Incident : Type := {
  incident_created_at : Z;
  resolved_at : option Z;
  caused_by_deployment_id : option Z
}.

Record tables : Type := {
  base : storage;
  teams : list Team;
  pull_requests : list PullRequest;
  incidents : list Incident
}.

Record DORAMetrics : Type := {
  lead_time_days : Q;
  deployment_frequency : Q;
  change_failure_rate : Q;
  mean_time_to_recovery_hours : Q
}.

Record ReviewMetrics : Type := {
  avg_review_time_hours : Q;
  review_participation_rate : Q;
  pr_cycle_time_hours : Q;
  approval_rate : Q
}.

(** [get_incidents(days=days)] *)
Definition get_incidents (db : tables) (now days : Z) : list Incident :=
  List.filter (fun i => (cutoff now days <=? incident_created_at i)%Z) (incidents db).

(** [get_engineer_pull_requests] *)
Definition get_engineer_pull_requests (db : tables) (now engineer days : Z)
  : list PullRequest :=
  List.filter (fun p => column_is (pr_author_id p) engineer
                        && (cutoff now days <=? pr_created_at p)%Z) (pull_requests db).

(** Pull requests joined with their author's row, for a team. *)
Definition get_team_pull_requests (db : tables) (now team days : Z) : list PullRequest :=
  List.filter
    (fun p => existsb (fun e => column_is (pr_author_id p) (engineer_pk e)
                                && column_is (engineer_team e) team)
                (engineers (base db))
              && (cutoff now days <=? pr_created_at p)%Z) (pull_requests db).

Definition get_all_pull_requests (db : tables) (now days : Z) : list PullRequest :=
  List.filter (fun p => (cutoff now days <=? pr_created_at p)%Z) (pull_requests db).

(** The pull requests in scope, as [calculate_review_metrics] and
    [generate_performance_summary] select them. *)
Definition pull_requests_in_scope (db : tables) (now : Z) (team_id engineer_id : option Z)
    (days : Z) : list PullRequest :=
  if id_given engineer_id then get_engineer_pull_requests db now (default 0%Z engineer_id) days
  else if id_given team_id then get_team_pull_requests db now (default 0%Z team_id) days
  else get_all_pull_requests db now days.

Definition _calculate_deployment_frequency (db : tables) (now : Z) (team_id : option Z)
    (days : Z) : Q :=
  let deployments := get_deployments (base db) now days in
  let successful_deployments :=
    List.filter (fun d => String.eqb (status d) "success") deployments in
  if (0 <? days)%Z
  then (inject_Z (Z.of_nat (length successful_deployments)) / inject_Z days)%Q
  else 0%Q.

(** The inner loop of [_calculate_change_failure_rate]: the first incident
    caused by the deployment ends it. *)
Fixpoint caused_an_incident (d : Deployment) (found : list Incident) : bool :=
  match found with
  | [] => false
  | i :: found' =>
      if same_id (caused_by_deployment_id i) (Some (deployment_pk d)) then true
      else caused_an_incident d found'
  end.

Definition _calculate_change_failure_rate (db : tables) (now : Z) (team_id : option Z)
    (days : Z) : Q :=
  let deployments := get_deployments (base db) now days in
  let found := get_incidents db now days in
  match deployments with
  | [] => 0%Q
  | _ :: _ =>
      let failed_deployments :=
        fold_left (fun n d => if caused_an_incident d found then (n + 1)%Z else n)
          deployments 0%Z in
      (inject_Z failed_deployments / inject_Z (Z.of_nat (length deployments)) * 100)%Q
  end.

(** [(incident.resolved_at - incident.created_at).total_seconds() / 3600],
    for an incident that is resolved. *)
Definition recovery_hours (i : Incident) : Q :=
  match resolved_at i with
  | Some resolved => (inject_Z (resolved - incident_created_at i) / 1000000 / 3600)%Q
  | None => 0%Q
  end.

Definition is_resolved (i : Incident) : bool :=
  match resolved_at i with Some _ => true | None => false end.

Definition _calculate_mttr (db : tables) (now : Z) (team_id : option Z) (days : Z) : Q :=
  let found := get_incidents db now days in
  let resolved_incidents := List.filter is_resolved found in
  match resolved_incidents with
  | [] => 0%Q
  | _ :: _ =>
      let recovery_times :=
        fold_left (fun times i => times ++ [recovery_hours i]) resolved_incidents [] in
      (sum_Q recovery_times / inject_Z (Z.of_nat (length recovery_times)))%Q
  end.

Definition calculate_dora_metrics (db : tables) (now : Z) (team_id engineer_id : option Z)
    (days : Z) : DORAMetrics :=
  {| lead_time_days := _calculate_lead_time (base db) now team_id engineer_id days;
     deployment_frequency := _calculate_deployment_frequency db now team_id days;
     change_failure_rate := _calculate_change_failure_rate db now team_id days;
     mean_time_to_recovery_hours := _calculate_mttr db now team_id days |}.

Definition calculate_review_metrics (db : tables) (now : Z) (engineer_id team_id : option Z)
    (days : Z) : ReviewMetrics :=
  match pull_requests_in_scope db now team_id engineer_id days with
  | [] => {| avg_review_time_hours := 0; review_participation_rate := 0;
             pr_cycle_time_hours := 0; approval_rate := 0 |}
  | _ :: _ => {| avg_review_time_hours := 17 # 2; review_participation_rate := 85;
                 pr_cycle_time_hours := 24; approval_rate := 92 |}
  end.

(** The fields of the dict that [generate_performance_summary] returns.
    The code asks the storage again for each group, every query with its
    own [utcnow()]; here all the groups are computed from the same rows at
    the same instant [now]. *)
Definition performance_summary (db : tables) (now : Z) (engineer_id team_id : option Z)
    (days : Z) : RawSummary.t :=
  let dora_metrics := calculate_dora_metrics db now team_id engineer_id days in
  let churn_metrics := calculate_code_churn_metrics (base db) now engineer_id team_id days in
  let review_metrics := calculate_review_metrics db now engineer_id team_id days in
  let commits := commits_in_scope (base db) now team_id engineer_id days in
  let prs := pull_requests_in_scope db now team_id engineer_id days in
  {| RawSummary.period_days := days;
     RawSummary.basic :=
       {| RawSummary.total_commits := Z.of_nat (length commits);
          RawSummary.total_pull_requests := Z.of_nat (length prs);
          RawSummary.lines_added := sum_Z (map additions commits);
          RawSummary.lines_deleted := sum_Z (map deletions commits);
          RawSummary.files_changed := sum_Z (map changed_files commits) |};
     RawSummary.dora :=
       {| RawSummary.lead_time_days := lead_time_days dora_metrics;
          RawSummary.deployment_frequency := deployment_frequency dora_metrics;
          RawSummary.change_failure_rate := change_failure_rate dora_metrics;
          RawSummary.mttr_hours := mean_time_to_recovery_hours dora_metrics |};
     RawSummary.quality :=
       {| RawSummary.total_churn := total_churn churn_metrics;
          RawSummary.churn_rate := churn_rate churn_metrics;
          RawSummary.risk_score := risk_score churn_metrics;
          RawSummary.high_risk_files := Z.of_nat (length (high_churn_files churn_metrics)) |};
     RawSummary.review :=
       {| RawSummary.avg_review_time_hours := avg_review_time_hours review_metrics;
          RawSummary.review_participation_rate := review_participation_rate review_metrics;
          RawSummary.pr_cycle_time_hours := pr_cycle_time_hours review_metrics;
          RawSummary.approval_rate := approval_rate review_metrics |} |}.

Definition generate_performance_summary (db : tables) (now : Z)
    (engineer_id team_id : option Z) (days : Z) : pyval :=
  RawSummary.to_py (performance_summary db now engineer_id team_id days).

End MetricsEngine.

(** ** DataHarvesterAgent: the organization-wide harvest over the teams

    The second half of [_get_overall_stats]: the summaries of the teams are
    added up metric by metric, and the metrics that are rates are then
    divided by the number of teams. *)

Module Aggregation.
Import Metrics MetricsEngine.

(** The initial value of [aggregated]. *)
Definition zero_summary (days : Z) : RawSummary.t :=
  {| RawSummary.period_days := days;
     RawSummary.basic :=
       {| RawSummary.total_commits := 0; RawSummary.total_pull_requests := 0;
          RawSummary.lines_added := 0; RawSummary.lines_deleted := 0;
          RawSummary.files_changed := 0 |};
     RawSummary.dora :=
       {| RawSummary.lead_time_days := 0; RawSummary.deployment_frequency := 0;
          RawSummary.change_failure_rate := 0; RawSummary.mttr_hours := 0 |};
     RawSummary.quality :=
       {| RawSummary.total_churn := 0; RawSummary.churn_rate := 0;
          RawSummary.risk_score := 0; RawSummary.high_risk_files := 0 |};
     RawSummary.review :=
       {| RawSummary.avg_review_time_hours := 0;
          RawSummary.review_participation_rate := 0;
          RawSummary.pr_cycle_time_hours := 0; RawSummary.approval_rate := 0 |} |}.

(** The two inner loops of [for team in teams]:
    [aggregated[category][metric] += value] for every metric of the four
    groups; every value of a generated summary is an int or a float. *)
Definition add_summary (aggregated team_data : RawSummary.t) : RawSummary.t :=
  let b := RawSummary.basic aggregated in
  let b' := RawSummary.basic team_data in
  let d := RawSummary.dora aggregated in
  let d' := RawSummary.dora team_data in
  let q := RawSummary.quality aggregated in
  let q' := RawSummary.quality team_data in
  let v := RawSummary.review aggregated in
  let v' := RawSummary.review team_data in
  {| RawSummary.period_days := RawSummary.period_days aggregated;
     RawSummary.basic :=
       {| RawSummary.total_commits :=
            RawSummary.total_commits b + RawSummary.total_commits b';
          RawSummary.total_pull_requests :=
            RawSummary.total_pull_requests b + RawSummary.total_pull_requests b';
          RawSummary.lines_added := RawSummary.lines_added b + RawSummary.lines_added b';
          RawSummary.lines_deleted :=
            RawSummary.lines_deleted b + RawSummary.lines_deleted b';
          RawSummary.files_changed :=
            RawSummary.files_changed b + RawSummary.files_changed b' |};
     RawSummary.dora :=
       {| RawSummary.lead_time_days :=
            RawSummary.lead_time_days d + RawSummary.lead_time_days d';
          RawSummary.deployment_frequency :=
            RawSummary.deployment_frequency d + RawSummary.deployment_frequency d';
          RawSummary.change_failure_rate :=
            RawSummary.change_failure_rate d + RawSummary.change_failure_rate d';
          RawSummary.mttr_hours := RawSummary.mttr_hours d + RawSummary.mttr_hours d' |};
     RawSummary.quality :=
       {| RawSummary.total_churn := RawSummary.total_churn q + RawSummary.total_churn q';
          RawSummary.churn_rate := RawSummary.churn_rate q + RawSummary.churn_rate q';
          RawSummary.risk_score := RawSummary.risk_score q + RawSummary.risk_score q';
          RawSummary.high_risk_files :=
            RawSummary.high_risk_files q + RawSummary.high_risk_files q' |};
     RawSummary.review :=
       {| RawSummary.avg_review_time_hours :=
            RawSummary.avg_review_time_hours v + RawSummary.avg_review_time_hours v';
          RawSummary.review_participation_rate :=
            RawSummary.review_participation_rate v
            + RawSummary.review_participation_rate v';
          RawSummary.pr_cycle_time_hours :=
            RawSummary.pr_cycle_time_hours v + RawSummary.pr_cycle_time_hours v';
          RawSummary.approval_rate :=
            RawSummary.approval_rate v + RawSummary.approval_rate v' |} |}.

(** [aggregated[...][metric] /= team_count] for the four DORA metrics, for
    churn_rate and risk_score, and for the four review metrics. *)
Definition divide_averages (aggregated : RawSummary.t) (team_count : Z) : RawSummary.t :=
  let n := inject_Z team_count in
  let d := RawSummary.dora aggregated in
  let q := RawSummary.quality aggregated in
  let v := RawSummary.review aggregated in
  {| RawSummary.period_days := RawSummary.period_days aggregated;
     RawSummary.basic := RawSummary.basic aggregated;
     RawSummary.dora :=
       {| RawSummary.lead_time_days := RawSummary.lead_time_days d / n;
          RawSummary.deployment_frequency := RawSummary.deployment_frequency d / n;
          RawSummary.change_failure_rate := RawSummary.change_failure_rate d / n;
          RawSummary.mttr_hours := RawSummary.mttr_hours d / n |};
     RawSummary.quality :=
       {| RawSummary.total_churn := RawSummary.total_churn q;
          RawSummary.churn_rate := RawSummary.churn_rate q / n;
          RawSummary.risk_score := RawSummary.risk_score q / n;
          RawSummary.high_risk_files := RawSummary.high_risk_files q |};
     RawSummary.review :=
       {| RawSummary.avg_review_time_hours := RawSummary.avg_review_time_hours v / n;
          RawSummary.review_participation_rate :=
            RawSummary.review_participation_rate v / n;
          RawSummary.pr_cycle_time_hours := RawSummary.pr_cycle_time_hours v / n;
          RawSummary.approval_rate := RawSummary.approval_rate v / n |} |}.

(** [generate_performance_summary(team_id=team.id, days=days)] *)
Definition team_summary (db : tables) (now days : Z) (team : Team) : RawSummary.t :=
  performance_summary db now None (Some (team_pk team)) days.

(** The aggregation over [teams], the result of [get_all_teams]. *)
Definition aggregate_teams (db : tables) (now : Z) (teams : list Team) (days : Z)
  : RawSummary.t :=
  let aggregated :=
    fold_left (fun aggregated team => add_summary aggregated (team_summary db now days team))
      teams (zero_summary days) in
  let team_count := Z.of_nat (length teams) in
  if (0 <? team_count)%Z then divide_averages aggregated team_count else aggregated.

(** The teams that have a pull request in the window. *)
Definition teams_with_pull_requests (db : tables) (now : Z) (teams : list Team) (days : Z)
  : list Team :=
  List.filter
    (fun team =>
       match pull_requests_in_scope db now (Some (team_pk team)) None days with
       | [] => false
       | _ :: _ => true
       end) teams.

End Aggregation.

(** A small storage: one engineer of team 1, one commit of 400 lines, two
    deployments, a pull request, an incident of two hours caused by the
    second deployment and an incident that is not resolved. *)
Definition large_commit : Metrics.Commit :=
  {| Metrics.author_id := Some 1%Z; Metrics.commit_repository := Some 1%Z;
     Metrics.committed_at := 1 * day; Metrics.additions := 350; Metrics.deletions := 50;
     Metrics.changed_files := 9 |}.

Definition sample_tables : MetricsEngine.tables :=
  {| MetricsEngine.base :=
       {| Metrics.engineers :=
            [{| Metrics.engineer_pk := 1; Metrics.engineer_team := Some 1%Z |}];
          Metrics.commits := [large_commit];
          Metrics.deployments := [deployment_day_10; deployment_day_5] |};
     MetricsEngine.teams :=
       [{| MetricsEngine.team_pk := 1; MetricsEngine.team_name := "backend" |};
        {| MetricsEngine.team_pk := 2; MetricsEngine.team_name := "frontend" |}];
     MetricsEngine.pull_requests :=
       [{| MetricsEngine.pr_author_id := Some 1%Z; MetricsEngine.pr_created_at := 2 * day |}];
     MetricsEngine.incidents :=
       [{| MetricsEngine.incident_created_at := 6 * day;
           MetricsEngine.resolved_at := Some (6 * day + 2 * 3600 * 1000000)%Z;
           MetricsEngine.caused_by_deployment_id := Some 2%Z |};
        {| MetricsEngine.incident_created_at := 11 * day;
           MetricsEngine.resolved_at := None;
           MetricsEngine.caused_by_deployment_id := Some 1%Z |}] |}.

(** The same storage without the pull request. *)
Definition unreviewed_tables : MetricsEngine.tables :=
  {| MetricsEngine.base := MetricsEngine.base sample_tables;
     MetricsEngine.teams := MetricsEngine.teams sample_tables;
     MetricsEngine.pull_requests := [];
     MetricsEngine.incidents := MetricsEngine.incidents sample_tables |}.

(** A metrics engine that answers every request from [sample_tables], read
    on day 12; the state counts the calls.  It raises, as the queries do,
    for a period whose window starts before the first [datetime]. *)
Definition sample_tables_summary (engineer_id team_id : option Z) (days : Z) (calls : nat)
  : result pyval * nat :=
  if Metrics.window_exists (12 * day) days
  then (Ok (MetricsEngine.generate_performance_summary sample_tables (12 * day)
              engineer_id team_id days), S calls)
  else (Raise (External "date value out of range"), S calls).

(** A random generator without state that draws the middle of the range. *)
Definition midpoint_uniform (a b : Q) (g : unit) : Q * unit := (((a + b) / 2)%Q, g).
Definition lowest_randint (a b : Z) (g : unit) : Z * unit := (a, g).

(** A repository whose synchronisation raises. *)
Definition failing_repository : repository_reply :=
  {| synced := Raise (External "rate limit exceeded"); fetched := Ok [] |}.

(** ** The chat bot ([src/bot/app.py]): parsing a command

    [str.lower] and [command_text.strip().split()] are the interpreter's;
    they are arguments of the embedding. *)

Module Bot.

Record command_args : Type := {
  report_type : string;
  target_type : string;
  target_name : option string;
  time_period : Z
}.

(** The initial value of [args]. *)
Definition default_args : command_args :=
  {| report_type := "weekly"; target_type := "all"; target_name := None;
     time_period := 7 |}.

Section commands.
Variable str_lower : string -> string.
Variable split_words : string -> list string.

(** The body of [for i, part in enumerate(parts)]; [rest] is
    [parts[i + 1:]], so [i + 1 < len(parts)] holds when it is not empty and
    [parts[i + 1]] is then its first item. *)
Definition parse_part (args : command_args) (part : string) (rest : list string)
  : command_args :=
  let word := str_lower part in
  if String.eqb word "daily" || String.eqb word "weekly" || String.eqb word "monthly" then
    let args := {| report_type := word; target_type := target_type args;
                   target_name := target_name args; time_period := time_period args |} in
    if String.eqb word "daily" then
      {| report_type := report_type args; target_type := target_type args;
         target_name := target_name args; time_period := 1 |}
    else if String.eqb word "weekly" then
      {| report_type := report_type args; target_type := target_type args;
         target_name := target_name args; time_period := 7 |}
    else if String.eqb word "monthly" then
      {| report_type := report_type args; target_type := target_type args;
         target_name := target_name args; time_period := 30 |}
    else args
  else
    match String.eqb word "team", rest with
    | true, next :: _ =>
        {| report_type := report_type args; target_type := "team";
           target_name := Some next; time_period := time_period args |}
    | _, _ =>
        match String.eqb word "engineer", rest with
        | true, next :: _ =>
            {| report_type := report_type args; target_type := "engineer";
               target_name := Some next; time_period := time_period args |}
        | _, _ => args
        end
    end.

Fixpoint parse_parts (parts : list string) (args : command_args) : command_args :=
  match parts with
  | [] => args
  | part :: rest => parse_parts rest (parse_part args part rest)
  end.

Definition _parse_command_args (command_text : string) : command_args :=
  if String.eqb command_text "" then default_args
  else parse_parts (split_words command_text) default_args.
End commands.

(** What every value of [args] satisfies, as invariants of the loop: the
    report type and the period go together, and a target has a name taken
    from [names]. *)
Definition paired (args : command_args) : Prop :=
  (report_type args = "daily"%string /\ time_period args = 1%Z) \/
  (report_type args = "weekly"%string /\ time_period args = 7%Z) \/
  (report_type args = "monthly"%string /\ time_period args = 30%Z).

Definition targeted (names : list string) (args : command_args) : Prop :=
  (target_type args = "all"%string /\ target_name args = None) \/
  ((target_type args = "team"%string \/ target_type args = "engineer"%string) /\
   exists name, target_name args = Some name /\ In name names).

End Bot.

(** An ASCII command line: words are separated by spaces. *)
Fixpoint space_words_from (current : string) (s : string) : list string :=
  match s with
  | EmptyString =>
      match current with
      | EmptyString => []
      | _ => [current]
      end
  | String c s' =>
      if Ascii.eqb c " "%char then
        match current with
        | EmptyString => space_words_from EmptyString s'
        | _ => current :: space_words_from EmptyString s'
        end
      else space_words_from (current ++ String c EmptyString) s'
  end.

Definition space_words (s : string) : list string := space_words_from EmptyString s.

(* ===================================================================== *)
(** * Properties *)

(** ** Rational comparisons *)

Lemma Qltb_lt (x y : Q) : Qltb x y = true <-> (x < y)%Q.
Proof.
  unfold Qltb. rewrite negb_true_iff, <- not_true_iff_false, Qle_bool_iff.
  split; [apply Qnot_le_lt | apply Qlt_not_le].
Qed.

Lemma Qltb_ge (x y : Q) : Qltb x y = false <-> (y <= x)%Q.
Proof.
  unfold Qltb. rewrite negb_false_iff. apply Qle_bool_iff.
Qed.

(** ** Numeric values *)

Lemma has_value_float q : has_value (PFloat q) q.
Proof. exists q. split; [reflexivity | apply Qeq_refl]. Qed.

Lemma has_value_int z : has_value (PInt z) (inject_Z z).
Proof. exists (inject_Z z). split; [reflexivity | apply Qeq_refl]. Qed.

Lemma has_value_eq v q r : has_value v q -> (q == r)%Q -> has_value v r.
Proof. intros (q' & Hn & Hq) Hr. exists q'. split; [exact Hn | now rewrite Hq]. Qed.

Lemma num_int_or_float v q :
  num v = Some q ->
  (exists z, Py.int v = Some z /\ q = inject_Z z) \/ (Py.int v = None /\ v = PFloat q).
Proof.
  destruct v as [ | [] | | | | ]; cbn; intros [= <-]; eauto.
Qed.

Lemma bool_ext (a b : bool) : (a = true <-> b = true) -> a = b.
Proof. destruct a, b; intuition congruence. Qed.

Lemma Qltb_compat (x x' y y' : Q) : (x == x')%Q -> (y == y')%Q -> Qltb x y = Qltb x' y'.
Proof. intros Hx Hy. apply bool_ext. rewrite !Qltb_lt, Hx, Hy. reflexivity. Qed.

Lemma Qle_bool_compat (x x' y y' : Q) :
  (x == x')%Q -> (y == y')%Q -> Qle_bool x y = Qle_bool x' y'.
Proof. intros Hx Hy. apply bool_ext. rewrite !Qle_bool_iff, Hx, Hy. reflexivity. Qed.

Lemma gt_value v q k : has_value v q -> gt v k = Ok (Qltb k q).
Proof.
  intros (q' & Hn & Hq). unfold gt. rewrite Hn. f_equal.
  apply Qltb_compat; [reflexivity | exact Hq].
Qed.

Lemma lt_value v q k : has_value v q -> Py.lt v k = Ok (Qltb q k).
Proof.
  intros (q' & Hn & Hq). unfold Py.lt. rewrite Hn. f_equal.
  apply Qltb_compat; [exact Hq | reflexivity].
Qed.

Lemma ge_value v q k : has_value v q -> ge v k = Ok (Qle_bool k q).
Proof.
  intros (q' & Hn & Hq). unfold ge. rewrite Hn. f_equal.
  apply Qle_bool_compat; [reflexivity | exact Hq].
Qed.

Lemma mul_int_value v q k :
  has_value v q -> exists w, mul_int v k = Ok w /\ has_value w (q * inject_Z k).
Proof.
  intros (q' & Hn & Hq).
  destruct v as [ | b | z | f | | ]; cbn in Hn; try discriminate;
    injection Hn as <-; cbn; eexists; (split; [reflexivity|]).
  - eexists. split; [reflexivity|]. rewrite inject_Z_mult, <- Hq. now destruct b.
  - eexists. split; [reflexivity|]. rewrite inject_Z_mult, <- Hq. reflexivity.
  - eexists. split; [reflexivity|]. now rewrite Hq.
Qed.

Lemma mul_float_value v q k :
  has_value v q -> exists w, mul_float v k = Ok w /\ has_value w (q * k).
Proof.
  intros (q' & Hn & Hq). unfold mul_float. rewrite Hn.
  eexists. split; [reflexivity|]. eexists. split; [reflexivity|]. now rewrite Hq.
Qed.

Lemma add_value a b x y :
  has_value a x -> has_value b y -> exists w, add a b = Ok w /\ has_value w (x + y).
Proof.
  intros (x' & Hx & Ex) (y' & Hy & Ey).
  assert (Ha : forall s, a <> PStr s) by (intros s ->; discriminate).
  unfold add.
  destruct (num_int_or_float _ _ Hx) as [(zx & Ix & ->) | (Ix & ->)];
    destruct (num_int_or_float _ _ Hy) as [(zy & Iy & ->) | (Iy & ->)].
  - replace (match a with PStr s => _ | _ => _ end)
      with (@Ok pyval (PInt (zx + zy))).
    + eexists. split; [reflexivity|]. eexists. split; [reflexivity|].
      now rewrite inject_Z_plus, Ex, Ey.
    + destruct a; cbn in Ix |- *; try discriminate; rewrite ?Iy;
        try (injection Ix as <-); reflexivity.
  - replace (match a with PStr s => _ | _ => _ end)
      with (@Ok pyval (PFloat (inject_Z zx + y'))).
    + eexists. split; [reflexivity|]. eexists. split; [reflexivity|].
      now rewrite Ex, Ey.
    + destruct a as [ | [] | | | | ]; cbn in Ix |- *; try discriminate;
        injection Ix as <-; reflexivity.
  - cbn. rewrite Hy. destruct (Py.int b); (eexists; split; [reflexivity|]);
      (eexists; split; [reflexivity|]); now rewrite Ex, Ey.
  - cbn. eexists. split; [reflexivity|]. eexists. split; [reflexivity|].
    now rewrite Ex, Ey.
Qed.

Lemma rsub_int_value k v q :
  has_value v q -> exists w, rsub_int k v = Ok w /\ has_value w (inject_Z k - q).
Proof.
  intros (q' & Hn & Hq). unfold rsub_int.
  destruct (num_int_or_float _ _ Hn) as [(z & Iz & ->) | (Iz & ->)].
  - rewrite Iz. eexists. split; [reflexivity|]. eexists. split; [reflexivity|].
    unfold Z.sub. rewrite inject_Z_plus, inject_Z_opp, <- Hq. reflexivity.
  - cbn. eexists. split; [reflexivity|]. eexists. split; [reflexivity|].
    now rewrite Hq.
Qed.

Lemma div_value a b x y :
  has_value a x -> has_value b y -> ~ (y == 0)%Q ->
  exists w, div a b = Ok w /\ has_value w (x / y).
Proof.
  intros (x' & Hx & Ex) (y' & Hy & Ey) Hnz. unfold div. rewrite Hx, Hy.
  destruct (Qeq_bool y' 0) eqn:Hz.
  - apply Qeq_bool_iff in Hz. rewrite Ey in Hz. contradiction.
  - eexists. split; [reflexivity|]. eexists. split; [reflexivity|].
    now rewrite Ex, Ey.
Qed.

Lemma div_by_zero a b x y :
  has_value a x -> has_value b y -> (y == 0)%Q -> div a b = Raise ZeroDivisionError.
Proof.
  intros (x' & Hx & Ex) (y' & Hy & Ey) Hz. unfold div. rewrite Hx, Hy.
  rewrite <- Ey in Hz. apply Qeq_bool_iff in Hz. now rewrite Hz.
Qed.

(** Python's [min(k, v)] agrees with the mathematical minimum. *)
Lemma min_int_value k v q :
  has_value v q -> exists w, min_int k v = Ok w /\ has_value w (Qmin (inject_Z k) q).
Proof.
  intros Hv. unfold min_int. rewrite (lt_value v q _ Hv). cbn [Py.bind].
  eexists. split; [reflexivity|]. destruct (Qltb q (inject_Z k)) eqn:Hb.
  - apply has_value_eq with q; [exact Hv|].
    symmetry. apply Q.min_r, Qlt_le_weak, Qltb_lt, Hb.
  - apply has_value_eq with (inject_Z k); [apply has_value_int|].
    symmetry. apply Q.min_l, Qltb_ge, Hb.
Qed.

(** Python's [max(k, v)] agrees with the mathematical maximum. *)
Lemma max_int_value k v q :
  has_value v q -> exists w, max_int k v = Ok w /\ has_value w (Qmax (inject_Z k) q).
Proof.
  intros Hv. unfold max_int. rewrite (gt_value v q _ Hv). cbn [Py.bind].
  eexists. split; [reflexivity|]. destruct (Qltb (inject_Z k) q) eqn:Hb.
  - apply has_value_eq with q; [exact Hv|].
    symmetry. apply Q.max_r, Qlt_le_weak, Qltb_lt, Hb.
  - apply has_value_eq with (inject_Z k); [apply has_value_int|].
    symmetry. apply Q.max_l, Qltb_ge, Hb.
Qed.

(** ** Rounding *)

Lemma round_half_even_compat (q q' : Q) :
  (q == q')%Q -> round_half_even q = round_half_even q'.
Proof.
  intros H. unfold round_half_even. rewrite (Qfloor_comp q q' H).
  rewrite (Qltb_compat (q - inject_Z (Qfloor q')) (q' - inject_Z (Qfloor q')) (1 # 2) (1 # 2))
    by (rewrite ?H; reflexivity).
  rewrite (Qltb_compat (1 # 2) (1 # 2) (q - inject_Z (Qfloor q')) (q' - inject_Z (Qfloor q')))
    by (rewrite ?H; reflexivity).
  reflexivity.
Qed.

Lemma round_half_even_int (z : Z) : round_half_even (inject_Z z) = z.
Proof.
  unfold round_half_even. rewrite Qfloor_Z.
  replace (Qltb (inject_Z z - inject_Z z) (1 # 2)) with true; [reflexivity|].
  symmetry. apply Qltb_lt. lra.
Qed.

Lemma round_digits_compat (q q' : Q) n :
  (q == q')%Q -> (round_digits q n == round_digits q' n)%Q.
Proof.
  intros H. unfold round_digits.
  rewrite (round_half_even_compat (q * inject_Z (10 ^ Z.of_nat n))
             (q' * inject_Z (10 ^ Z.of_nat n))) by (now rewrite H).
  reflexivity.
Qed.

Lemma round_digits_int (z : Z) n : (round_digits (inject_Z z) n == inject_Z z)%Q.
Proof.
  unfold round_digits.
  rewrite (round_half_even_compat _ (inject_Z (z * 10 ^ Z.of_nat n)))
    by (now rewrite inject_Z_mult).
  rewrite round_half_even_int, inject_Z_mult.
  assert (Hpos : (0 < 10 ^ Z.of_nat n)%Z) by (apply Z.pow_pos_nonneg; lia).
  assert (Hnz : ~ (inject_Z (10 ^ Z.of_nat n) == 0)%Q).
  { change 0%Q with (inject_Z 0). rewrite inject_Z_injective. lia. }
  field. exact Hnz.
Qed.

Lemma round_value v q n :
  has_value v q -> exists w, Py.round v n = Ok w /\ has_value w (round_digits q n).
Proof.
  intros (q' & Hn & Hq).
  destruct (num_int_or_float _ _ Hn) as [(z & Iz & ->) | (Iz & ->)].
  - exists (PInt z). split.
    + destruct v as [ | [] | | | | ]; cbn in Iz |- *; try discriminate;
        injection Iz as <-; reflexivity.
    + eapply has_value_eq; [apply has_value_int|].
      rewrite <- (round_digits_compat _ _ n Hq). symmetry. apply round_digits_int.
  - eexists. split; [reflexivity|].
    eapply has_value_eq; [apply has_value_float|]. now apply round_digits_compat.
Qed.

(** ** Reading numeric fields of an arbitrary payload *)


Lemma field_inv data group key dflt v :
  field data group key dflt = Ok v ->
  exists g, get data group empty_dict = Ok g /\ get g key dflt = Ok v.
Proof.
  unfold field. destruct (get data group empty_dict) as [g|e]; cbn; [eauto | discriminate].
Qed.

Lemma reads_inv data group key dflt q :
  reads data group key dflt q ->
  exists g v, get data group empty_dict = Ok g /\ get g key dflt = Ok v /\ has_value v q.
Proof.
  intros (v & Hf & Hv). destruct (field_inv _ _ _ _ _ Hf) as (g & Hg & Hk). eauto.
Qed.

(** Use a [reads] hypothesis at the place where the code performs the read. *)
Ltac use_reads H :=
  let g := fresh "g" in let v := fresh "v" in
  let Hg := fresh "Hg" in let Hk := fresh "Hk" in let Hv := fresh "Hv" in
  destruct (reads_inv _ _ _ _ _ H) as (g & v & Hg & Hk & Hv);
  rewrite ?Hg; cbn [Py.bind];
  repeat match goal with
         | H1 : get ?d ?k _ = Ok ?a, H2 : get ?d ?k _ = Ok ?b |- _ =>
             assert (a = b) by congruence; subst b; clear H2
         end;
  rewrite ?Hk; cbn [Py.bind].

(** ** Churn classification *)

Lemma analyze_churn_patterns_value data total rate score :
  reads data "code_quality" "total_churn" (PInt 0) total ->
  reads data "code_quality" "churn_rate" (PInt 0) rate ->
  reads data "code_quality" "risk_score" (PInt 0) score ->
  exists r, _analyze_churn_patterns data = Ok r /\
    churn_level r = spec_churn_level rate /\
    recommendations r = recommendations_of (churn_level r) /\
    patterns r = {| large_changes := Qltb 150 rate;
                    frequent_modifications := Qltb 5000 total;
                    risk_threshold_exceeded := Qltb 70 score |}.
Proof.
  intros Ht Hr Hs. unfold _analyze_churn_patterns.
  use_reads Ht. use_reads Hr. use_reads Hs.
  rewrite !(gt_value _ _ _ Hv0), (gt_value _ _ _ Hv), (gt_value _ _ _ Hv1).
  cbn [Py.bind].
  unfold spec_churn_level.
  destruct (Qltb 200 rate); cbn [Py.bind];
    [| destruct (Qltb 100 rate); cbn [Py.bind]];
    eexists; (split; [reflexivity|]); cbn; auto.
Qed.

(** ** Risk assessment *)

Lemma composite_risk_score_value data cfr churn lead :
  reads data "dora_metrics" "change_failure_rate" (PInt 0) cfr ->
  reads data "code_quality" "risk_score" (PInt 0) churn ->
  reads data "dora_metrics" "lead_time_days" (PInt 0) lead ->
  exists w, _calculate_composite_risk_score data = Ok w /\
    has_value w (spec_composite_risk_score cfr churn lead).
Proof.
  intros Hc Hs Hl. unfold _calculate_composite_risk_score.
  use_reads Hc. use_reads Hs. use_reads Hl.
  destruct (mul_int_value _ _ 2 Hv) as (fr & -> & Hfr). cbn [Py.bind].
  destruct (mul_float_value _ _ (1 # 2) Hv0) as (cr & -> & Hcr). cbn [Py.bind].
  destruct (mul_int_value _ _ 5 Hv1) as (sc & -> & Hsc). cbn [Py.bind].
  destruct (min_int_value 50 _ _ Hsc) as (lr & -> & Hlr). cbn [Py.bind].
  destruct (add_value _ _ _ _ Hfr Hcr) as (p1 & -> & Hp1). cbn [Py.bind].
  destruct (add_value _ _ _ _ Hp1 Hlr) as (p2 & -> & Hp2). cbn [Py.bind].
  destruct (min_int_value 100 _ _ Hp2) as (w & -> & Hw).
  exists w. split; [reflexivity|]. exact Hw.
Qed.

Lemma assess_risk_factors_value data cfr lead churn participation :
  reads data "dora_metrics" "change_failure_rate" (PInt 0) cfr ->
  reads data "dora_metrics" "lead_time_days" (PInt 0) lead ->
  reads data "code_quality" "risk_score" (PInt 0) churn ->
  reads data "review_metrics" "review_participation_rate" (PInt 100) participation ->
  exists r, _assess_risk_factors data = Ok r /\
    overall_risk_level r = spec_risk_level cfr lead churn participation /\
    identified_risks r = spec_identified_risks cfr lead churn participation /\
    has_value (risk_score r) (spec_composite_risk_score cfr churn lead) /\
    mitigation_strategies r = _suggest_mitigation_strategies (identified_risks r).
Proof.
  intros Hc Hl Hs Hp.
  destruct (composite_risk_score_value data cfr churn lead Hc Hs Hl) as (w & Hw & Hwv).
  unfold _assess_risk_factors.
  use_reads Hc. use_reads Hl. use_reads Hs. use_reads Hp.
  rewrite (gt_value _ _ _ Hv). cbn [Py.bind].
  rewrite (gt_value _ _ _ Hv0). cbn [Py.bind].
  rewrite (gt_value _ _ _ Hv1). cbn [Py.bind].
  rewrite (lt_value _ _ _ Hv2). cbn [Py.bind].
  rewrite Hw. cbn [Py.bind].
  eexists. split; [reflexivity|].
  cbn [overall_risk_level identified_risks risk_score mitigation_strategies].
  unfold spec_risk_level, spec_identified_risks, spec_triggered_risks.
  destruct (Qltb 15 cfr), (Qltb 7 lead), (Qltb 60 churn), (Qltb participation 70);
    (split; [reflexivity|]); (split; [reflexivity|]);
    (split; [exact Hwv | reflexivity]).
Qed.

(** ** The analysis of a raw summary *)

Section summary_analysis.
Import RawSummary.
Variable s : RawSummary.t.

Let cfr := change_failure_rate (dora s).
Let lead := lead_time_days (dora s).
Let churn := risk_score (quality s).
Let participation := review_participation_rate (review s).
Let rate := churn_rate (quality s).
Let total := inject_Z (total_churn (quality s)).

Lemma summary_reads_change_failure_rate dflt :
  reads (to_py s) "dora_metrics" "change_failure_rate" dflt cfr.
Proof. eexists. split; [reflexivity | apply has_value_float]. Qed.

Lemma summary_reads_lead_time_days dflt :
  reads (to_py s) "dora_metrics" "lead_time_days" dflt lead.
Proof. eexists. split; [reflexivity | apply has_value_float]. Qed.

Lemma summary_reads_risk_score dflt :
  reads (to_py s) "code_quality" "risk_score" dflt churn.
Proof. eexists. split; [reflexivity | apply has_value_float]. Qed.

Lemma summary_reads_churn_rate dflt :
  reads (to_py s) "code_quality" "churn_rate" dflt rate.
Proof. eexists. split; [reflexivity | apply has_value_float]. Qed.

Lemma summary_reads_total_churn dflt :
  reads (to_py s) "code_quality" "total_churn" dflt total.
Proof. eexists. split; [reflexivity | apply has_value_int]. Qed.

Lemma summary_reads_review_participation_rate dflt :
  reads (to_py s) "review_metrics" "review_participation_rate" dflt participation.
Proof. eexists. split; [reflexivity | apply has_value_float]. Qed.

(** C2.  Risk assessment of a raw summary: the level is HIGH exactly when
    change_failure_rate > 15 or the churn risk_score > 60 (whatever the
    other checks say), otherwise MODERATE exactly when lead_time_days > 7
    or review_participation_rate < 70, otherwise it stays at the initial
    LOW; identified_risks holds the fixed message of every triggered
    check in the order failure-rate, lead-time, churn-risk,
    review-participation, or the single "no significant risk" message
    when none triggers, so it is never empty. *)
Theorem risk_assessment_policy :
  exists r, _assess_risk_factors (to_py s) = Ok r /\
    (overall_risk_level r = HIGH <-> (15 < cfr)%Q \/ (60 < churn)%Q) /\
    (overall_risk_level r = MODERATE <->
       ~ ((15 < cfr)%Q \/ (60 < churn)%Q) /\ ((7 < lead)%Q \/ (participation < 70)%Q)) /\
    (overall_risk_level r = LOW <->
       ~ (15 < cfr)%Q /\ ~ (60 < churn)%Q /\ ~ (7 < lead)%Q /\ ~ (participation < 70)%Q) /\
    identified_risks r =
      (let triggered :=
         (if Qltb 15 cfr then [risk_failure_rate] else []) ++
         (if Qltb 7 lead then [risk_lead_time] else []) ++
         (if Qltb 60 churn then [risk_churn] else []) ++
         (if Qltb participation 70 then [risk_review] else []) in
       match triggered with [] => [risk_none] | _ :: _ => triggered end) /\
    (~ (15 < cfr)%Q /\ ~ (7 < lead)%Q /\ ~ (60 < churn)%Q /\ ~ (participation < 70)%Q ->
     identified_risks r = [risk_none]) /\
    identified_risks r <> [].
Proof.
  destruct (assess_risk_factors_value (to_py s) cfr lead churn participation)
    as (r & Hr & Hlevel & Hrisks & _ & _);
    auto using summary_reads_change_failure_rate, summary_reads_lead_time_days,
      summary_reads_risk_score, summary_reads_review_participation_rate.
  exists r. split; [exact Hr|]. rewrite Hlevel, Hrisks.
  unfold spec_risk_level, spec_identified_risks, spec_triggered_risks.
  pose proof (Qltb_lt 15 cfr) as H1. pose proof (Qltb_lt 7 lead) as H2.
  pose proof (Qltb_lt 60 churn) as H3. pose proof (Qltb_lt participation 70) as H4.
  destruct (Qltb 15 cfr), (Qltb 7 lead), (Qltb 60 churn), (Qltb participation 70);
    cbn; repeat split; try discriminate; intuition (try discriminate; auto).
Qed.

(** C3.  Composite risk score of a raw summary whose change failure rate,
    churn risk score and lead time are non-negative: the code returns
    min(100, change_failure_rate*2 + risk_score*0.5 + min(50, lead_time_days*5)),
    a value in [0, 100] whatever the size of the inputs, and 75 for
    change_failure_rate = 20, risk_score = 50, lead_time_days = 2. *)
Theorem composite_risk_score_formula :
  (0 <= cfr)%Q -> (0 <= churn)%Q -> (0 <= lead)%Q ->
  exists v q,
    _calculate_composite_risk_score (to_py s) = Ok v /\
    num v = Some q /\
    (q == Qmin 100 (cfr * 2 + churn * (1 # 2) + Qmin 50 (lead * 5)))%Q /\
    (0 <= q)%Q /\ (q <= 100)%Q /\
    ((cfr == 20)%Q -> (churn == 50)%Q -> (lead == 2)%Q -> (q == 75)%Q).
Proof.
  intros Hcfr Hchurn Hlead.
  destruct (composite_risk_score_value (to_py s) cfr churn lead)
    as (v & Hv & q & Hq & Heq);
    auto using summary_reads_change_failure_rate, summary_reads_lead_time_days,
      summary_reads_risk_score.
  exists v, q. split; [exact Hv|]. split; [exact Hq|].
  unfold spec_composite_risk_score in Heq. split; [exact Heq|].
  rewrite Heq.
  assert (Hcap : (0 <= Qmin 50 (lead * 5))%Q)
    by (apply Q.min_glb; lra).
  repeat split.
  - apply Q.min_glb; lra.
  - apply Q.le_min_l.
  - intros E1 E2 E3. rewrite E1, E2, E3. reflexivity.
Qed.

(** C6.  Churn classification of a raw summary: churn_level is HIGH iff
    churn_rate > 200, MODERATE iff 100 < churn_rate <= 200 and LOW
    otherwise, so a churn_rate of at most 200 is never HIGH and exactly
    200 is MODERATE; the recommendations are the fixed list of the level;
    and the three pattern flags are churn_rate > 150, total_churn > 5000
    and risk_score > 70, each a test of its own field only. *)
Theorem churn_classification :
  exists r, _analyze_churn_patterns (to_py s) = Ok r /\
    (churn_level r = HIGH <-> (200 < rate)%Q) /\
    (churn_level r = MODERATE <-> (100 < rate)%Q /\ (rate <= 200)%Q) /\
    (churn_level r = LOW <-> (rate <= 100)%Q) /\
    ((rate <= 200)%Q -> churn_level r <> HIGH) /\
    ((rate == 200)%Q -> churn_level r = MODERATE) /\
    recommendations r = recommendations_of (churn_level r) /\
    (large_changes (patterns r) = true <-> (150 < rate)%Q) /\
    (frequent_modifications (patterns r) = true <-> (5000 < total_churn (quality s))%Z) /\
    (risk_threshold_exceeded (patterns r) = true <-> (70 < churn)%Q).
Proof.
  destruct (analyze_churn_patterns_value (to_py s) total rate churn)
    as (r & Hr & Hlevel & Hrec & Hpat);
    auto using summary_reads_total_churn, summary_reads_churn_rate,
      summary_reads_risk_score.
  exists r. split; [exact Hr|]. rewrite Hrec, Hpat, Hlevel. cbn.
  unfold spec_churn_level.
  rewrite !Qltb_lt.
  assert (Htotal : (5000 < total)%Q <-> (5000 < total_churn (quality s))%Z).
  { unfold total. change 5000%Q with (inject_Z 5000). now rewrite <- Zlt_Qlt. }
  rewrite Htotal.
  pose proof (Qltb_lt 200 rate) as H1. pose proof (Qltb_lt 100 rate) as H2.
  pose proof (Qltb_ge 200 rate) as H3. pose proof (Qltb_ge 100 rate) as H4.
  destruct (Qltb 200 rate), (Qltb 100 rate);
    repeat split; try discriminate; try tauto; intros;
    try (exfalso; intuition lra); try lra; intuition (try discriminate; try lra).
Qed.
End summary_analysis.

Lemma risk_assessment_policy_witness :
  exists r, _assess_risk_factors (RawSummary.to_py scenario_summary) = Ok r /\
    overall_risk_level r = HIGH /\ identified_risks r = [risk_failure_rate].
Proof.
  destruct (risk_assessment_policy scenario_summary)
    as (r & Hr & Hhigh & _ & _ & Hrisks & _).
  exists r. split; [exact Hr|]. split.
  - apply Hhigh. left. reflexivity.
  - exact Hrisks.
Defined.

Lemma composite_risk_score_formula_witness :
  exists v q, _calculate_composite_risk_score (RawSummary.to_py scenario_summary) = Ok v /\
    num v = Some q /\ (q == 75)%Q.
Proof.
  destruct (composite_risk_score_formula scenario_summary)
    as (v & q & Hv & Hq & _ & _ & _ & H75); try (cbn; discriminate).
  exists v, q. split; [exact Hv|]. split; [exact Hq|].
  apply H75; reflexivity.
Defined.

Lemma churn_classification_witness :
  exists r, _analyze_churn_patterns (RawSummary.to_py scenario_summary) = Ok r /\
    churn_level r = MODERATE.
Proof.
  destruct (churn_classification scenario_summary)
    as (r & Hr & _ & _ & _ & _ & Hmod & _).
  exists r. split; [exact Hr|]. apply Hmod. reflexivity.
Defined.

(** ** Quality indicators *)

Lemma score_to_grade_value v q : has_value v q -> _score_to_grade v = Ok (spec_grade q).
Proof.
  intros Hv. unfold _score_to_grade, spec_grade.
  rewrite !(ge_value _ _ _ Hv). cbn [Py.bind].
  destruct (Qle_bool 90 q); [reflexivity|]. cbn [Py.bind].
  destruct (Qle_bool 80 q); [reflexivity|]. cbn [Py.bind].
  destruct (Qle_bool 70 q); [reflexivity|]. cbn [Py.bind].
  destruct (Qle_bool 60 q); reflexivity.
Qed.


Lemma calculate_quality_indicators_value data commits days cfr participation :
  reads data "basic_stats" "total_commits" (PInt 0) commits ->
  reads_top data "period_days" (PInt 7) days ->
  ~ (days == 0)%Q ->
  reads data "dora_metrics" "change_failure_rate" (PInt 0) cfr ->
  reads data "review_metrics" "review_participation_rate" (PInt 0) participation ->
  let overall :=
    ((spec_velocity_score commits days + spec_quality_score cfr + participation) / 3)%Q in
  exists r, _calculate_quality_indicators data = Ok r /\
    has_value (velocity_score r) (round_digits (spec_velocity_score commits days) 1) /\
    has_value (quality_score r) (round_digits (spec_quality_score cfr) 1) /\
    has_value (collaboration_score r) (round_digits participation 1) /\
    has_value (overall_score r) (round_digits overall 1) /\
    qi_grade r = spec_grade overall.
Proof.
  intros Hc (vd & Hd & Hvd) Hnz Hf Hp overall. unfold _calculate_quality_indicators.
  destruct (reads_inv _ _ _ _ _ Hc) as (gb & vc & Hgb & Hkc & Hvc).
  destruct (reads_inv _ _ _ _ _ Hf) as (gd & vf & Hgd & Hkf & Hvf).
  destruct (reads_inv _ _ _ _ _ Hp) as (gr & vp & Hgr & Hkp & Hvp).
  rewrite Hgb, Hgd, Hgr. cbn [Py.bind]. rewrite Hkc, Hd. cbn [Py.bind].
  destruct (div_value _ _ _ _ Hvc Hvd Hnz) as (pd & -> & Hpd). cbn [Py.bind].
  destruct (mul_int_value _ _ 10 Hpd) as (sc & -> & Hsc). cbn [Py.bind].
  destruct (min_int_value 100 _ _ Hsc) as (vel & -> & Hvel). cbn [Py.bind].
  rewrite Hkf. cbn [Py.bind].
  destruct (mul_int_value _ _ 5 Hvf) as (pen & -> & Hpen). cbn [Py.bind].
  destruct (rsub_int_value 100 _ _ Hpen) as (re & -> & Hre). cbn [Py.bind].
  destruct (max_int_value 0 _ _ Hre) as (qu & -> & Hqu). cbn [Py.bind].
  rewrite Hkp. cbn [Py.bind].
  destruct (add_value _ _ _ _ Hvel Hqu) as (p1 & -> & Hp1). cbn [Py.bind].
  destruct (add_value _ _ _ _ Hp1 Hvp) as (p2 & -> & Hp2). cbn [Py.bind].
  destruct (div_value p2 (PInt 3) _ _ Hp2 (has_value_int 3)) as (ov & -> & Hov);
    [discriminate|]. cbn [Py.bind].
  destruct (round_value _ _ 1 Hvel) as (vel1 & -> & Hvel1). cbn [Py.bind].
  destruct (round_value _ _ 1 Hqu) as (qu1 & -> & Hqu1). cbn [Py.bind].
  destruct (round_value _ _ 1 Hvp) as (co1 & -> & Hco1). cbn [Py.bind].
  destruct (round_value _ _ 1 Hov) as (ov1 & -> & Hov1). cbn [Py.bind].
  rewrite (score_to_grade_value _ _ Hov). cbn [Py.bind].
  eexists. split; [reflexivity|]. cbn.
  repeat split; assumption || reflexivity.
Qed.

(** ** When the analysis succeeds *)

Lemma analyze_value data :
  analyzable data -> exists a, analyze data = Ok a.
Proof.
  intros ((tc & Htc) & (cr & Hcr) & (rs & Hrs) & (cfr & Hcfr) & (lead & Hlead)
          & (p100 & Hp100) & (p0 & Hp0) & (commits & Hcommits) & (days & Hdays & Hnz)).
  unfold analyze.
  destruct (analyze_churn_patterns_value data tc cr rs Htc Hcr Hrs) as (c & -> & _).
  cbn [Py.bind].
  destruct (assess_risk_factors_value data cfr lead rs p100 Hcfr Hlead Hrs Hp100)
    as (r & -> & _).
  cbn [Py.bind].
  destruct (calculate_quality_indicators_value data commits days cfr p0
              Hcommits Hdays Hnz Hcfr Hp0) as (q & -> & _).
  cbn [Py.bind]. eauto.
Qed.

Lemma bind_ok_inv {X Y} (m : result X) (f : X -> result Y) y :
  Py.bind m f = Ok y -> exists x, m = Ok x /\ f x = Ok y.
Proof. destruct m as [x|e]; cbn; [eauto | discriminate]. Qed.

Lemma gt_ok_inv v k b : gt v k = Ok b -> exists q, has_value v q.
Proof.
  unfold gt. destruct (num v) as [q|] eqn:E; [|discriminate].
  intros _. exists q, q. split; [exact E | reflexivity].
Qed.

Lemma lt_ok_inv v k b : Py.lt v k = Ok b -> exists q, has_value v q.
Proof.
  unfold Py.lt. destruct (num v) as [q|] eqn:E; [|discriminate].
  intros _. exists q, q. split; [exact E | reflexivity].
Qed.

Lemma div_ok_inv a b w :
  div a b = Ok w ->
  exists x y, has_value a x /\ has_value b y /\ ~ (y == 0)%Q.
Proof.
  unfold div. destruct (num a) as [x|] eqn:Ea; [|discriminate].
  destruct (num b) as [y|] eqn:Eb; [|discriminate].
  destruct (Qeq_bool y 0) eqn:Ez; [discriminate|]. intros _.
  exists x, y. split; [|split].
  - exists x. split; [exact Ea | reflexivity].
  - exists y. split; [exact Eb | reflexivity].
  - now apply Qeq_bool_neq.
Qed.

Lemma add_ok_inv a b w x :
  has_value a x -> add a b = Ok w -> exists y, has_value b y.
Proof.
  intros (x' & Hx & _) H.
  destruct (num b) as [y|] eqn:Eb.
  - exists y, y. split; [exact Eb | reflexivity].
  - exfalso. destruct a as [ | [] | | | | ]; cbn in Hx; try discriminate;
      destruct b as [ | [] | | | | ]; cbn in Eb, H; discriminate.
Qed.

Lemma reads_intro data group key dflt g v q :
  get data group empty_dict = Ok g -> get g key dflt = Ok v -> has_value v q ->
  reads data group key dflt q.
Proof.
  intros Hg Hk Hv. exists v. split; [|exact Hv]. unfold field. now rewrite Hg.
Qed.

Lemma analyze_churn_patterns_ok data r :
  _analyze_churn_patterns data = Ok r ->
  (exists q, reads data "code_quality" "total_churn" (PInt 0) q) /\
  (exists q, reads data "code_quality" "churn_rate" (PInt 0) q) /\
  (exists q, reads data "code_quality" "risk_score" (PInt 0) q).
Proof.
  unfold _analyze_churn_patterns. intros H.
  apply bind_ok_inv in H. destruct H as (g & Hg & H).
  apply bind_ok_inv in H. destruct H as (tc & Htc & H).
  apply bind_ok_inv in H. destruct H as (cr & Hcr & H).
  apply bind_ok_inv in H. destruct H as (rs & Hrs & H).
  apply bind_ok_inv in H. destruct H as (cl & _ & H).
  apply bind_ok_inv in H. destruct H as (b1 & Hb1 & H).
  apply bind_ok_inv in H. destruct H as (b2 & Hb2 & H).
  apply bind_ok_inv in H. destruct H as (b3 & Hb3 & H).
  apply gt_ok_inv in Hb1, Hb2, Hb3.
  destruct Hb1 as (q1 & Hq1), Hb2 as (q2 & Hq2), Hb3 as (q3 & Hq3).
  eauto 10 using reads_intro.
Qed.

Lemma assess_risk_factors_ok data r :
  _assess_risk_factors data = Ok r ->
  (exists q, reads data "dora_metrics" "change_failure_rate" (PInt 0) q) /\
  (exists q, reads data "dora_metrics" "lead_time_days" (PInt 0) q) /\
  (exists q, reads data "review_metrics" "review_participation_rate" (PInt 100) q).
Proof.
  unfold _assess_risk_factors. intros H.
  apply bind_ok_inv in H. destruct H as (gd & Hgd & H).
  apply bind_ok_inv in H. destruct H as (gc & Hgc & H).
  apply bind_ok_inv in H. destruct H as (gr & Hgr & H).
  apply bind_ok_inv in H. destruct H as (cfr & Hcfr & H).
  apply bind_ok_inv in H. destruct H as (b1 & Hb1 & H).
  apply bind_ok_inv in H. destruct H as (lead & Hlead & H).
  apply bind_ok_inv in H. destruct H as (b2 & Hb2 & H).
  apply bind_ok_inv in H. destruct H as (rs & Hrs & H).
  apply bind_ok_inv in H. destruct H as (b3 & Hb3 & H).
  apply bind_ok_inv in H. destruct H as (part & Hpart & H).
  apply bind_ok_inv in H. destruct H as (b4 & Hb4 & H).
  apply gt_ok_inv in Hb1, Hb2. apply lt_ok_inv in Hb4.
  destruct Hb1 as (q1 & Hq1), Hb2 as (q2 & Hq2), Hb4 as (q4 & Hq4).
  eauto 10 using reads_intro.
Qed.

Lemma calculate_quality_indicators_ok data r :
  _calculate_quality_indicators data = Ok r ->
  (exists q, reads data "basic_stats" "total_commits" (PInt 0) q) /\
  (exists q, reads_top data "period_days" (PInt 7) q /\ ~ (q == 0)%Q) /\
  (exists q, reads data "review_metrics" "review_participation_rate" (PInt 0) q).
Proof.
  unfold _calculate_quality_indicators. intros H.
  apply bind_ok_inv in H. destruct H as (gb & Hgb & H).
  apply bind_ok_inv in H. destruct H as (gd & Hgd & H).
  apply bind_ok_inv in H. destruct H as (gr & Hgr & H).
  apply bind_ok_inv in H. destruct H as (tc & Htc & H).
  apply bind_ok_inv in H. destruct H as (pd & Hpd & H).
  apply bind_ok_inv in H. destruct H as (per_day & Hdiv & H).
  apply bind_ok_inv in H. destruct H as (scaled & Hscaled & H).
  apply bind_ok_inv in H. destruct H as (vel & Hvel & H).
  apply bind_ok_inv in H. destruct H as (cfr & Hcfr & H).
  apply bind_ok_inv in H. destruct H as (pen & Hpen & H).
  apply bind_ok_inv in H. destruct H as (re & Hre & H).
  apply bind_ok_inv in H. destruct H as (qu & Hqu & H).
  apply bind_ok_inv in H. destruct H as (co & Hco & H).
  apply bind_ok_inv in H. destruct H as (p1 & Hp1 & H).
  apply bind_ok_inv in H. destruct H as (p2 & Hp2 & H).
  destruct (div_ok_inv _ _ _ Hdiv) as (x & y & Hx & Hy & Hnz).
  destruct (div_value _ _ _ _ Hx Hy Hnz) as (w1 & Hw1 & Hv1).
  rewrite Hw1 in Hdiv. injection Hdiv as <-.
  destruct (mul_int_value _ _ 10 Hv1) as (w2 & Hw2 & Hv2).
  rewrite Hw2 in Hscaled. injection Hscaled as <-.
  destruct (min_int_value 100 _ _ Hv2) as (w3 & Hw3 & Hv3).
  rewrite Hw3 in Hvel. injection Hvel as <-.
  assert (Hquv : exists q, has_value qu q).
  { unfold max_int in Hqu. apply bind_ok_inv in Hqu. destruct Hqu as (b & Hb & Hqu).
    destruct (gt_ok_inv _ _ _ Hb) as (q & Hq).
    destruct (max_int_value 0 _ _ Hq) as (w & Hw & Hv).
    unfold max_int in Hw. rewrite Hb in Hw. cbn [Py.bind] in Hw.
    rewrite Hw in Hqu. injection Hqu as <-. eauto. }
  destruct Hquv as (qv & Hqv).
  destruct (add_value _ _ _ _ Hv3 Hqv) as (w4 & Hw4 & Hv4).
  rewrite Hw4 in Hp1. injection Hp1 as <-.
  destruct (add_ok_inv _ _ _ _ Hv4 Hp2) as (c & Hc).
  split; [|split].
  - exists x. eapply reads_intro; eauto.
  - exists y. split; [|exact Hnz]. exists pd. auto.
  - exists c. eapply reads_intro; eauto.
Qed.

Lemma analyze_ok data a : analyze data = Ok a -> analyzable data.
Proof.
  unfold analyze. intros H.
  apply bind_ok_inv in H. destruct H as (c & Hc & H).
  apply bind_ok_inv in H. destruct H as (r & Hr & H).
  apply bind_ok_inv in H. destruct H as (q & Hq & H).
  destruct (analyze_churn_patterns_ok _ _ Hc) as (H1 & H2 & H3).
  destruct (assess_risk_factors_ok _ _ Hr) as (H4 & H5 & H6).
  destruct (calculate_quality_indicators_ok _ _ Hq) as (H7 & H8 & H9).
  unfold analyzable. tauto.
Qed.

(** ** Missing sub-groups *)

Lemma reads_missing_group (d : gmap string pyval) group key n :
  d !! group = None -> reads (PDict d) group key (PInt n) (inject_Z n).
Proof.
  intros Hnone. exists (PInt n). split; [|apply has_value_int].
  unfold field. cbn [get]. rewrite Hnone. cbn [default Py.bind].
  unfold empty_dict. cbn [get]. now rewrite lookup_empty.
Qed.

Lemma not_reads_non_dict (d : gmap string pyval) group key dflt v q :
  d !! group = Some v -> (forall g, v <> PDict g) -> ~ reads (PDict d) group key dflt q.
Proof.
  intros Hsome Hnd (w & Hf & _). unfold field in Hf. cbn [get] in Hf.
  rewrite Hsome in Hf. cbn [default Py.bind] in Hf.
  destruct v; try discriminate. now elim (Hnd d0).
Qed.

Lemma review_message_not_triggered cfr lead churn :
  ~ In risk_review (spec_identified_risks cfr lead churn 100).
Proof.
  unfold spec_identified_risks, spec_triggered_risks.
  replace (Qltb 100 70) with false by reflexivity.
  destruct (Qltb 15 cfr), (Qltb 7 lead), (Qltb 60 churn); cbn;
    intuition discriminate.
Qed.

Lemma get_dict (d : gmap string pyval) key dflt :
  get (PDict d) key dflt = Ok (default dflt (d !! key)).
Proof. reflexivity. Qed.

Lemma get_empty_dict key dflt : get empty_dict key dflt = Ok dflt.
Proof. unfold empty_dict. now rewrite get_dict, lookup_empty. Qed.

Lemma get_singleton_dict key v dflt : get (PDict {[key := v]}) key dflt = Ok v.
Proof. now rewrite get_dict, lookup_singleton_eq. Qed.

(** Without the sub-group, the risk assessment is the one of the same
    summary with a review participation rate of 100. *)
Lemma assess_risk_factors_without_review (d : gmap string pyval) :
  d !! "review_metrics" = None ->
  _assess_risk_factors (PDict d)
  = _assess_risk_factors
      (PDict (<["review_metrics" :=
                  PDict {["review_participation_rate" := PInt 100]}]> d)).
Proof.
  intros Hnone. unfold _assess_risk_factors, _calculate_composite_risk_score.
  do 3 (rewrite ?get_dict, ?lookup_insert_eq, ?Hnone, ?get_empty_dict, ?get_singleton_dict;
        rewrite ?lookup_insert_ne by done;
        cbn [default from_option id Py.bind]).
  reflexivity.
Qed.

(** Without the sub-group, the quality indicators are the ones of the same
    summary with a review participation rate of 0. *)
Lemma calculate_quality_indicators_without_review (d : gmap string pyval) :
  d !! "review_metrics" = None ->
  _calculate_quality_indicators (PDict d)
  = _calculate_quality_indicators
      (PDict (<["review_metrics" :=
                  PDict {["review_participation_rate" := PInt 0]}]> d)).
Proof.
  intros Hnone. unfold _calculate_quality_indicators.
  do 3 (rewrite ?get_dict, ?lookup_insert_eq, ?Hnone, ?get_empty_dict, ?get_singleton_dict;
        rewrite ?lookup_insert_ne by done;
        cbn [default from_option id Py.bind]).
  reflexivity.
Qed.

(** C10.  A raw summary without the review_metrics sub-group.  The risk
    assessment reads review_participation_rate as 100: its result is the
    one of the same summary with a rate of 100, the low-participation
    message is absent and the level is the one the other three checks give.
    The quality indicators read it as 0: their result is the one of the
    same summary with a rate of 0, collaboration_score is 0 and
    overall_score is a third of velocity plus quality, which for a
    non-negative failure rate is at most 200/3. *)
Theorem review_default_mismatch (d : gmap string pyval) :
  d !! "review_metrics" = None ->
  _assess_risk_factors (PDict d)
  = _assess_risk_factors
      (PDict (<["review_metrics" :=
                  PDict {["review_participation_rate" := PInt 100]}]> d)) /\
  _calculate_quality_indicators (PDict d)
  = _calculate_quality_indicators
      (PDict (<["review_metrics" :=
                  PDict {["review_participation_rate" := PInt 0]}]> d)) /\
  reads (PDict d) "review_metrics" "review_participation_rate" (PInt 100) 100 /\
  reads (PDict d) "review_metrics" "review_participation_rate" (PInt 0) 0 /\
  forall cfr lead churn commits days,
    reads (PDict d) "dora_metrics" "change_failure_rate" (PInt 0) cfr ->
    reads (PDict d) "dora_metrics" "lead_time_days" (PInt 0) lead ->
    reads (PDict d) "code_quality" "risk_score" (PInt 0) churn ->
    reads (PDict d) "basic_stats" "total_commits" (PInt 0) commits ->
    reads_top (PDict d) "period_days" (PInt 7) days ->
    ~ (days == 0)%Q ->
    let overall := ((spec_velocity_score commits days + spec_quality_score cfr) / 3)%Q in
    exists risk quality,
      _assess_risk_factors (PDict d) = Ok risk /\
      _calculate_quality_indicators (PDict d) = Ok quality /\
      ~ In risk_review (identified_risks risk) /\
      overall_risk_level risk =
        (if Qltb 15 cfr || Qltb 60 churn then HIGH
         else if Qltb 7 lead then MODERATE else LOW) /\
      has_value (collaboration_score quality) 0 /\
      has_value (overall_score quality) (round_digits overall 1) /\
      qi_grade quality = spec_grade overall /\
      ((0 <= cfr)%Q -> (overall <= 200 # 3)%Q).
Proof.
  intros Hnone.
  pose proof (reads_missing_group d "review_metrics" "review_participation_rate" 100 Hnone)
    as H100.
  pose proof (reads_missing_group d "review_metrics" "review_participation_rate" 0 Hnone)
    as H0.
  split; [now apply assess_risk_factors_without_review|].
  split; [now apply calculate_quality_indicators_without_review|].
  split; [exact H100|]. split; [exact H0|].
  intros cfr lead churn commits days Hcfr Hlead Hchurn Hcommits Hdays Hnz overall.
  destruct (assess_risk_factors_value _ _ _ _ _ Hcfr Hlead Hchurn H100)
    as (risk & Hrisk & Hlevel & Hrisks & _).
  destruct (calculate_quality_indicators_value _ _ _ _ _ Hcommits Hdays Hnz Hcfr H0)
    as (quality & Hquality & _ & _ & Hcollab & Hoverall & Hgrade).
  assert (Hsame : ((spec_velocity_score commits days + spec_quality_score cfr + inject_Z 0) / 3
                   == overall)%Q).
  { unfold overall. change (inject_Z 0) with 0%Q. field. }
  exists risk, quality. split; [exact Hrisk|]. split; [exact Hquality|].
  split; [rewrite Hrisks; apply review_message_not_triggered|].
  split.
  { rewrite Hlevel. unfold spec_risk_level.
    replace (Qltb (inject_Z 100) 70) with false by reflexivity.
    now rewrite orb_false_r. }
  split.
  { eapply has_value_eq; [exact Hcollab|].
    change (inject_Z 0) with 0%Q. apply (round_digits_int 0 1). }
  split.
  { eapply has_value_eq; [exact Hoverall|]. now apply round_digits_compat. }
  split.
  { rewrite Hgrade. unfold spec_grade.
    rewrite !(Qle_bool_compat _ _ _ _ (Qeq_refl _) Hsame). reflexivity. }
  intros Hpos. unfold overall.
  assert (Hv : (spec_velocity_score commits days <= 100)%Q) by apply Q.le_min_l.
  assert (Hq : (spec_quality_score cfr <= 100)%Q) by (apply Q.max_lub; lra).
  apply Qle_shift_div_r; [reflexivity|].
  assert (H200 : ((200 # 3) * 3 == 200)%Q) by reflexivity.
  rewrite H200. lra.
Qed.

Lemma review_default_mismatch_witness :
  exists risk quality,
    _assess_risk_factors
      (PDict (delete "review_metrics" (RawSummary.to_dict scenario_summary))) = Ok risk /\
    _calculate_quality_indicators
      (PDict (delete "review_metrics" (RawSummary.to_dict scenario_summary))) = Ok quality /\
    overall_risk_level risk = HIGH /\
    has_value (collaboration_score quality) 0.
Proof.
  destruct (review_default_mismatch
              (delete "review_metrics" (RawSummary.to_dict scenario_summary)))
    as (_ & _ & _ & _ & Hall); [reflexivity|].
  destruct (Hall 20 2 50 14 7)%Q
    as (risk & quality & Hrisk & Hquality & _ & Hlevel & Hcollab & _).
  - eexists. split; [reflexivity | apply has_value_float].
  - eexists. split; [reflexivity | apply has_value_float].
  - eexists. split; [reflexivity | apply has_value_float].
  - eexists. split; [reflexivity | apply (has_value_int 14)].
  - eexists. split; [reflexivity | apply (has_value_int 7)].
  - discriminate.
  - exists risk, quality. split; [exact Hrisk|]. split; [exact Hquality|].
    split; [exact Hlevel | exact Hcollab].
Defined.

(** ** Insight parsing *)

Section parsing_properties.
Variable isspace : N -> bool.
Variable isdigit : N -> bool.
Variable lower_text : text -> text.

Lemma looks_structured_spec line :
  looks_structured isdigit line = Ok (line_qualifies isdigit line).
Proof.
  destruct line as [|c line]; [reflexivity|].
  unfold looks_structured, line_qualifies. cbn [first_char Py.bind startswith].
  now destruct (isdigit c || (c =? hyphen)%N || (c =? bullet)%N || (c =? asterisk)%N).
Qed.

Lemma kept_lines_cons line lines :
  kept_lines isspace isdigit (line :: lines) = kept_lines isspace isdigit [line] ++ kept_lines isspace isdigit lines.
Proof.
  unfold kept_lines.
  change (map (strip isspace) (line :: lines))
    with ([strip isspace line] ++ map (strip isspace) lines).
  now rewrite filter_app, map_app, filter_app.
Qed.

Lemma kept_sentences_cons sentence sentences :
  kept_sentences isspace lower_text (sentence :: sentences)
  = kept_sentences isspace lower_text [sentence] ++ kept_sentences isspace lower_text sentences.
Proof.
  unfold kept_sentences.
  change (map (strip isspace) (sentence :: sentences))
    with ([strip isspace sentence] ++ map (strip isspace) sentences).
  now rewrite filter_app, map_app.
Qed.

Lemma structured_step_spec acc line :
  structured_step isspace isdigit acc line = Ok (acc ++ kept_lines isspace isdigit [line]).
Proof.
  unfold structured_step, kept_lines. rewrite looks_structured_spec. cbn [Py.bind map].
  set (trimmed := strip isspace line).
  rewrite filter_cons, filter_nil.
  destruct (decide (line_qualifies isdigit trimmed = true)) as [Hc | Hc].
  - rewrite Hc. cbn [map].
    set (cleaned := strip isspace (lstrip_by is_marker trimmed)).
    rewrite filter_cons, filter_nil.
    destruct (decide (20 < length cleaned)%nat) as [Hl | Hl].
    + destruct cleaned as [|c cleaned]; [cbn in Hl; lia|].
      apply Nat.ltb_lt in Hl. now rewrite Hl.
    + rewrite app_nil_r. destruct cleaned as [|c cleaned]; [reflexivity|].
      apply Nat.ltb_nlt in Hl. now rewrite Hl.
  - apply not_true_is_false in Hc. rewrite Hc. cbn [map]. rewrite filter_nil.
    now rewrite app_nil_r.
Qed.

Lemma structured_loop_spec lines acc :
  for_each (structured_step isspace isdigit) lines acc = Ok (acc ++ kept_lines isspace isdigit lines).
Proof.
  revert acc. induction lines as [|line lines IH]; intros acc.
  - cbn. now rewrite app_nil_r.
  - cbn [for_each]. rewrite structured_step_spec. cbn [Py.bind]. rewrite IH.
    now rewrite (kept_lines_cons line lines), app_assoc.
Qed.

Lemma sentence_step_spec acc sentence :
  sentence_step isspace lower_text acc sentence = Ok (acc ++ kept_sentences isspace lower_text [sentence]).
Proof.
  unfold sentence_step, kept_sentences. cbn [map].
  set (trimmed := strip isspace sentence).
  rewrite filter_cons, filter_nil.
  destruct (decide ((30 < length trimmed)%nat /\ mentions_team lower_text trimmed = true))
    as [[Hl Hm] | Hn].
  - apply Nat.ltb_lt in Hl. now rewrite Hl, Hm.
  - replace ((30 <? length trimmed)%nat && mentions_team lower_text trimmed)
      with false; [now rewrite app_nil_r|].
    symmetry. apply not_true_is_false. intros Ht. apply andb_true_iff in Ht.
    destruct Ht as [Hl Hm]. apply Nat.ltb_lt in Hl. now apply Hn.
Qed.

Lemma sentence_loop_spec sentences acc :
  for_each (sentence_step isspace lower_text) sentences acc
  = Ok (acc ++ kept_sentences isspace lower_text sentences).
Proof.
  revert acc. induction sentences as [|sentence sentences IH]; intros acc.
  - cbn. now rewrite app_nil_r.
  - cbn [for_each]. rewrite sentence_step_spec. cbn [Py.bind]. rewrite IH.
    now rewrite (kept_sentences_cons sentence sentences), app_assoc.
Qed.

Lemma lstrip_by_head (p : N -> bool) (s : text) c rest :
  lstrip_by p s = c :: rest -> p c = false.
Proof.
  induction s as [|x s IH]; cbn; [discriminate|].
  destruct (p x) eqn:E; [exact IH|]. intros [= <- _]. exact E.
Qed.

Lemma lstrip_by_suffix (p : N -> bool) (s : text) :
  exists dropped, s = dropped ++ lstrip_by p s.
Proof.
  induction s as [|x s (dropped & IH)]; cbn.
  - now exists [].
  - destruct (p x).
    + exists (x :: dropped). cbn. now rewrite <- IH.
    + now exists [].
Qed.

Lemma rstrip_by_prefix (p : N -> bool) (s : text) :
  exists dropped, s = rstrip_by p s ++ dropped.
Proof.
  unfold rstrip_by. destruct (lstrip_by_suffix p (rev s)) as (dropped & H).
  exists (rev dropped). rewrite <- rev_app_distr, <- H. now rewrite rev_involutive.
Qed.

Lemma rstrip_by_last (p : N -> bool) (s : text) kept c :
  rstrip_by p s = kept ++ [c] -> p c = false.
Proof.
  unfold rstrip_by. intros H. apply (f_equal (@rev N)) in H.
  rewrite rev_involutive, rev_app_distr in H. cbn in H.
  now apply lstrip_by_head in H.
Qed.

Lemma strip_head (s : text) c rest : strip isspace s = c :: rest -> isspace c = false.
Proof.
  unfold strip. intros H.
  destruct (rstrip_by_prefix isspace (lstrip_by isspace s)) as (dropped & Hd).
  rewrite H in Hd. cbn in Hd. now apply lstrip_by_head in Hd.
Qed.

Lemma strip_last (s : text) kept c : strip isspace s = kept ++ [c] -> isspace c = false.
Proof. unfold strip. apply rstrip_by_last. Qed.

Lemma strip_keeps (s : text) c : In c (strip isspace s) -> In c s.
Proof.
  unfold strip. intros H.
  destruct (rstrip_by_prefix isspace (lstrip_by isspace s)) as (d1 & H1).
  destruct (lstrip_by_suffix isspace s) as (d2 & H2).
  rewrite H2, H1. apply in_or_app. right. apply in_or_app. now left.
Qed.

Lemma lstrip_by_keeps (p : N -> bool) (s : text) c : In c (lstrip_by p s) -> In c s.
Proof.
  intros H. destruct (lstrip_by_suffix p s) as (d & Hd). rewrite Hd.
  apply in_or_app. now right.
Qed.

(** No piece of a split holds the separator. *)
Lemma split_on_pieces (sep : N) (s : text) :
  Forall (fun piece => ~ In sep piece) (split_on sep s).
Proof.
  induction s as [|c s IH]; cbn.
  - constructor; [intros [] | constructor].
  - destruct (c =? sep)%N eqn:E.
    + constructor; [intros [] | exact IH].
    + apply N.eqb_neq in E. destruct (split_on sep s) as [|w ws].
      * constructor; [|constructor]. intros [H | []]. now apply E.
      * inversion IH as [|? ? Hw Hws]; subst. constructor; [|exact Hws].
        intros [H | H]; [now apply E | now apply Hw].
Qed.

Lemma parse_insights_value (response : text) :
  _parse_insights_from_response isspace isdigit lower_text response
  = Ok (collected_items isspace isdigit lower_text response).
Proof.
  unfold _parse_insights_from_response, collected_items.
  rewrite structured_loop_spec. cbn [Py.bind app].
  change (kept_lines isspace isdigit (split_on newline response))
    with (structured_items isspace isdigit response).
  destruct (structured_items isspace isdigit response) as [|item rest]; [|reflexivity].
  rewrite sentence_loop_spec. reflexivity.
Qed.


(** *** The helpers against the words of the specification *)

Lemma lstrip_by_dropped (p : N -> bool) (s : text) :
  exists dropped, s = dropped ++ lstrip_by p s /\ Forall (fun c => p c = true) dropped.
Proof.
  induction s as [|x s (dropped & IH & Hall)]; cbn.
  - exists []. split; [reflexivity | constructor].
  - destruct (p x) eqn:E.
    + exists (x :: dropped). split; [cbn; now rewrite <- IH | now constructor].
    + exists []. split; [reflexivity | constructor].
Qed.

Lemma rstrip_by_dropped (p : N -> bool) (s : text) :
  exists dropped, s = rstrip_by p s ++ dropped /\ Forall (fun c => p c = true) dropped.
Proof.
  unfold rstrip_by. destruct (lstrip_by_dropped p (rev s)) as (dropped & H & Hall).
  exists (rev dropped). split.
  - rewrite <- rev_app_distr, <- H. now rewrite rev_involutive.
  - apply List.Forall_forall. intros c Hc. apply in_rev in Hc.
    rewrite List.Forall_forall in Hall. now apply Hall.
Qed.

Lemma strip_trimmed (raw : text) : spec_trimmed isspace raw (strip isspace raw).
Proof.
  destruct (lstrip_by_dropped isspace raw) as (before & Hb & Hbefore).
  destruct (rstrip_by_dropped isspace (lstrip_by isspace raw)) as (after & Ha & Hafter).
  exists before, after. fold (strip isspace raw) in Ha.
  split; [now rewrite <- Ha|]. split; [exact Hbefore|]. split; [exact Hafter|].
  split; [intros c rest; apply strip_head | intros kept c; apply strip_last].
Qed.

Lemma is_marker_spec (c : N) : is_marker c = true <-> spec_marker c.
Proof.
  unfold is_marker, spec_marker.
  change marker_chars
    with [48; 49; 50; 51; 52; 53; 54; 55; 56; 57; 46; 45; 8226; 42; 32]%N.
  cbn [existsb]. rewrite !orb_true_iff, !N.eqb_eq. lia.
Qed.

Lemma cleaned_spec (line : text) :
  spec_cleaned isspace line (strip isspace (lstrip_by is_marker line)).
Proof.
  destruct (lstrip_by_dropped is_marker line) as (markers & Hm & Hmarkers).
  exists markers, (lstrip_by is_marker line). split; [exact Hm|]. split; [|split].
  - apply List.Forall_forall. intros c Hc. apply is_marker_spec.
    rewrite List.Forall_forall in Hmarkers. now apply Hmarkers.
  - intros c rest Hrest Hc. apply is_marker_spec in Hc.
    apply lstrip_by_head in Hrest. congruence.
  - apply strip_trimmed.
Qed.

Lemma line_qualifies_spec (line : text) :
  line_qualifies isdigit line = true <-> spec_candidate isdigit line.
Proof.
  unfold line_qualifies, spec_candidate, hyphen, bullet, asterisk.
  destruct line as [|c rest].
  - split; [discriminate | intros (c & rest & H & _); discriminate H].
  - rewrite andb_true_iff, !orb_true_iff, !N.eqb_eq, Nat.ltb_lt. split.
    + intros [Hc Hl]. exists c, rest. split; [reflexivity|]. split; [tauto | exact Hl].
    + intros (c' & rest' & [= <- <-] & Hc & Hl). split; [tauto | exact Hl].
Qed.

Lemma is_prefix_spec (needle hay : text) :
  is_prefix needle hay = true <-> exists after, hay = needle ++ after.
Proof.
  revert hay. induction needle as [|a needle IH]; intros hay; cbn.
  - split; [intros _; now exists hay | reflexivity].
  - destruct hay as [|b hay].
    + split; [discriminate | intros (after & H); discriminate H].
    + rewrite andb_true_iff, N.eqb_eq, IH. split.
      * intros [-> (after & ->)]. now exists after.
      * intros (after & [= -> ->]). split; [reflexivity | now exists after].
Qed.

Lemma contains_text_spec (needle hay : text) :
  contains_text needle hay = true <-> exists before after, hay = before ++ needle ++ after.
Proof.
  induction hay as [|c hay IH].
  - cbn [contains_text]. rewrite orb_false_r, is_prefix_spec. split.
    + intros (after & H). now exists [], after.
    + intros (before & after & H). symmetry in H.
      apply app_eq_nil in H as [-> H]. apply app_eq_nil in H as [-> ->]. now exists [].
  - cbn [contains_text]. rewrite orb_true_iff, is_prefix_spec, IH. split.
    + intros [(after & H) | (before & after & H)].
      * now exists [], after.
      * exists (c :: before), after. cbn. now rewrite H.
    + intros (before & after & H). destruct before as [|b before].
      * left. now exists after.
      * right. cbn in H. injection H as _ H. now exists before, after.
Qed.

Lemma mentions_team_spec (sentence : text) :
  mentions_team lower_text sentence = true <->
  spec_contains lower_text "team" sentence \/ spec_contains lower_text "performance" sentence.
Proof.
  unfold mentions_team, spec_contains. now rewrite orb_true_iff, !contains_text_spec.
Qed.

Lemma split_on_not_nil (sep : N) (s : text) : split_on sep s <> [].
Proof.
  induction s as [|c s IH]; cbn; [discriminate|].
  destruct (c =? sep)%N; [discriminate|]. now destruct (split_on sep s).
Qed.

Lemma split_on_joined (sep : N) (s : text) : spec_joined sep (split_on sep s) = s.
Proof.
  induction s as [|c s IH]; [reflexivity|]. cbn [split_on].
  pose proof (split_on_not_nil sep s) as Hne.
  destruct (c =? sep)%N eqn:E.
  - apply N.eqb_eq in E. subst c. cbn [spec_joined].
    destruct (split_on sep s) as [|w ws]; [contradiction|]. cbn [app]. now rewrite IH.
  - destruct (split_on sep s) as [|w ws]; [contradiction|].
    cbn [spec_joined] in IH |- *. destruct ws as [|w' ws]; cbn [app]; now rewrite IH.
Qed.

Lemma split_on_spec (sep : N) (s : text) : spec_pieces sep s (split_on sep s).
Proof.
  split; [apply split_on_not_nil|]. split; [now rewrite split_on_joined|].
  apply split_on_pieces.
Qed.

(** What one line and one sentence give, with the helpers of the parser. *)
Lemma kept_line_spec (line : text) :
  exists item,
    spec_line_item isspace isdigit line item /\
    kept_lines isspace isdigit [line] = omap id [item].
Proof.
  unfold kept_lines. cbn [map]. set (trimmed := strip isspace line).
  rewrite filter_cons, filter_nil.
  destruct (decide (line_qualifies isdigit trimmed = true)) as [Hq | Hq].
  - cbn [map]. set (cleaned := strip isspace (lstrip_by is_marker trimmed)).
    rewrite filter_cons, filter_nil.
    destruct (decide (20 < length cleaned)%nat) as [Hl | Hl].
    + exists (Some cleaned). split; [|reflexivity].
      exists trimmed. split; [apply strip_trimmed|]. left.
      split; [now apply line_qualifies_spec|]. exists cleaned.
      split; [apply cleaned_spec|]. left. now split.
    + exists None. split; [|reflexivity].
      exists trimmed. split; [apply strip_trimmed|]. left.
      split; [now apply line_qualifies_spec|]. exists cleaned.
      split; [apply cleaned_spec|]. right. split; [lia | reflexivity].
  - exists None. split; [|reflexivity].
    exists trimmed. split; [apply strip_trimmed|]. right.
    split; [|reflexivity]. intros Hc. now apply Hq, line_qualifies_spec.
Qed.

Lemma kept_sentence_spec (sentence : text) :
  exists item,
    spec_sentence_item isspace lower_text sentence item /\
    kept_sentences isspace lower_text [sentence] = omap id [item].
Proof.
  unfold kept_sentences. cbn [map]. set (trimmed := strip isspace sentence).
  rewrite filter_cons, filter_nil.
  destruct (decide ((30 < length trimmed)%nat /\ mentions_team lower_text trimmed = true))
    as [[Hl Hm] | Hn].
  - exists (Some (trimmed ++ [46%N])). split; [|reflexivity].
    exists trimmed. split; [apply strip_trimmed|]. left. split; [|reflexivity].
    split; [exact Hl | now apply mentions_team_spec].
  - exists None. split; [|reflexivity].
    exists trimmed. split; [apply strip_trimmed|]. right. split; [|reflexivity].
    intros [Hl Hm]. apply Hn. split; [exact Hl | now apply mentions_team_spec].
Qed.

Lemma kept_lines_items (lines : list text) :
  exists items,
    Forall2 (spec_line_item isspace isdigit) lines items /\
    kept_lines isspace isdigit lines = omap id items.
Proof.
  induction lines as [|line lines (items & Hitems & Heq)].
  - exists []. split; [constructor | reflexivity].
  - destruct (kept_line_spec line) as (item & Hitem & Hone).
    exists (item :: items). split; [now constructor|].
    rewrite kept_lines_cons, Hone, Heq. now destruct item.
Qed.

Lemma kept_sentences_items (sentences : list text) :
  exists items,
    Forall2 (spec_sentence_item isspace lower_text) sentences items /\
    kept_sentences isspace lower_text sentences = omap id items.
Proof.
  induction sentences as [|sentence sentences (items & Hitems & Heq)].
  - exists []. split; [constructor | reflexivity].
  - destruct (kept_sentence_spec sentence) as (item & Hitem & Hone).
    exists (item :: items). split; [now constructor|].
    rewrite kept_sentences_cons, Hone, Heq. now destruct item.
Qed.

(** C7.  Insight parsing.  For every response text the parser returns,
    without raising, the list that the specification describes.  The text
    is cut at its line breaks; each line, with the whitespace at its two
    ends removed, is a candidate when it is not empty, starts with a digit,
    -, • or * and is longer than 10 characters; a candidate gives an item
    when, once its leading digits, full stops, hyphens, bullets, asterisks
    and spaces and then the whitespace at its two ends are removed, it is
    longer than 20 characters.  When no line gives an item, the text is
    cut at its full stops, and each piece, trimmed in the same way, gives
    an item when it is longer than 30 characters and holds team or
    performance once put in lower case: the piece with a full stop put
    back.  The result is the first five items in the order met: a function
    of the text alone, of at most five items, empty when nothing
    qualifies. *)
Theorem parse_insights_spec (response : text) :
  exists lines line_items sentences sentence_items,
    spec_pieces newline response lines /\
    Forall2 (spec_line_item isspace isdigit) lines line_items /\
    spec_pieces full_stop response sentences /\
    Forall2 (spec_sentence_item isspace lower_text) sentences sentence_items /\
    _parse_insights_from_response isspace isdigit lower_text response
    = Ok (spec_result line_items sentence_items) /\
    (length (spec_result line_items sentence_items) <= 5)%nat /\
    (omap id line_items = [] -> omap id sentence_items = [] ->
     _parse_insights_from_response isspace isdigit lower_text response = Ok []).
Proof.
  destruct (kept_lines_items (split_on newline response)) as (line_items & Hlines & Hl).
  destruct (kept_sentences_items (split_on full_stop response))
    as (sentence_items & Hsentences & Hs).
  exists (split_on newline response), line_items,
         (split_on full_stop response), sentence_items.
  assert (Hparse : _parse_insights_from_response isspace isdigit lower_text response
                   = Ok (spec_result line_items sentence_items)).
  { rewrite parse_insights_value. unfold collected_items, structured_items, fallback_items,
      spec_result. now rewrite Hl, Hs. }
  split; [apply split_on_spec|]. split; [exact Hlines|].
  split; [apply split_on_spec|]. split; [exact Hsentences|].
  split; [exact Hparse|]. split.
  - unfold spec_result. rewrite length_firstn. lia.
  - intros Hnl Hns. rewrite Hparse. unfold spec_result. now rewrite Hnl, Hns.
Qed.
End parsing_properties.

Lemma parse_insights_spec_witness :
  (exists lines line_items sentences sentence_items,
     spec_pieces newline
       (text_of_string "  1. The team keeps a steady delivery pace  " ++ [newline]
        ++ text_of_string "- too short") lines /\
     Forall2 (spec_line_item ascii_isspace ascii_isdigit) lines line_items /\
     spec_pieces full_stop
       (text_of_string "  1. The team keeps a steady delivery pace  " ++ [newline]
        ++ text_of_string "- too short") sentences /\
     Forall2 (spec_sentence_item ascii_isspace ascii_lower_text) sentences sentence_items /\
     _parse_insights_from_response ascii_isspace ascii_isdigit ascii_lower_text
       (text_of_string "  1. The team keeps a steady delivery pace  " ++ [newline]
        ++ text_of_string "- too short")
     = Ok (spec_result line_items sentence_items)) /\
  _parse_insights_from_response ascii_isspace ascii_isdigit ascii_lower_text
    (text_of_string "  1. The team keeps a steady delivery pace  " ++ [newline]
     ++ text_of_string "- too short")
  = Ok [text_of_string "The team keeps a steady delivery pace"] /\
  _parse_insights_from_response ascii_isspace ascii_isdigit ascii_lower_text
    (text_of_string "Done.  Overall the Team PERFORMANCE was steady this week . Fine")
  = Ok [text_of_string "Overall the Team PERFORMANCE was steady this week."] /\
  _parse_insights_from_response ascii_isspace ascii_isdigit ascii_lower_text
    (text_of_string "Done") = Ok [].
Proof.
  split; [|split; [reflexivity | split; reflexivity]].
  destruct (parse_insights_spec ascii_isspace ascii_isdigit ascii_lower_text
              (text_of_string "  1. The team keeps a steady delivery pace  " ++ [newline]
               ++ text_of_string "- too short"))
    as (lines & line_items & sentences & sentence_items & H1 & H2 & H3 & H4 & H5 & _).
  exists lines, line_items, sentences, sentence_items.
  split; [exact H1|]. split; [exact H2|]. split; [exact H3|]. split; [exact H4 | exact H5].
Defined.


(** ** The pipeline *)

Lemma error_set_set_error prefix message st :
  prefix <> ""%string -> error_set (set_error (prefix ++ message) st) = true.
Proof.
  intros Hp. unfold error_set. cbn.
  destruct prefix as [|c prefix]; [contradiction | reflexivity].
Qed.

Section pipeline.
Variable world : Type.
Variable str : exn -> string.
Variable generate_performance_summary :
  option Z -> option Z -> Z -> world -> result pyval * world.
Variable overall_stats : Z -> world -> result pyval * world.
Variable insight_prompt : pyval -> result text.
Variable generate_text : text -> world -> result text * world.
Variable _create_narrative :
  pyval -> analysis -> list text -> world -> result text * world.
Variable isspace : N -> bool.
Variable isdigit : N -> bool.
Variable lower_text : text -> text.

Let harvest :=
  DataHarvesterAgent_execute world str generate_performance_summary overall_stats.
Let analyst := DiffAnalystAgent_execute world str.
Let narrator :=
  InsightNarratorAgent_execute world str insight_prompt generate_text _create_narrative
    isspace isdigit lower_text.
Let run :=
  process_request world str generate_performance_summary overall_stats
    insight_prompt generate_text _create_narrative isspace isdigit lower_text.

Lemma analyst_passthrough st w : error_set st = true -> analyst st w = (st, w).
Proof. intros H. unfold analyst, DiffAnalystAgent_execute. now rewrite H. Qed.

Lemma narrator_passthrough st w : error_set st = true -> narrator st w = (st, w).
Proof. intros H. unfold narrator, InsightNarratorAgent_execute. now rewrite H. Qed.

(** An agent leaves [error] as it was or sets it to a non-empty message. *)
Lemma harvest_error st w :
  error (harvest st w).1 = error st \/ error_set (harvest st w).1 = true.
Proof.
  unfold harvest, DataHarvesterAgent_execute.
  destruct (if id_given (engineer_id st) then _ else _) as [[data|e] w'].
  - left. reflexivity.
  - right. now apply error_set_set_error.
Qed.

Lemma analyst_error st w :
  error (analyst st w).1 = error st \/ error_set (analyst st w).1 = true.
Proof.
  unfold analyst, DiffAnalystAgent_execute.
  destruct (error_set st || negb (truthy (raw_data st))); [now left|].
  destruct (analyze (raw_data st)).
  - left. reflexivity.
  - right. now apply error_set_set_error.
Qed.

Lemma narrator_error st w :
  error (narrator st w).1 = error st \/ error_set (narrator st w).1 = true.
Proof.
  unfold narrator, InsightNarratorAgent_execute.
  destruct (error_set st); [now left|].
  destruct (analysis_results st) as [a|]; [|now left].
  destruct (_generate_insights _ _ _ _ _ _ _ _ _) as [[found|e] w1].
  - destruct (_create_narrative _ _ _ _) as [[written|e] w2].
    + left. reflexivity.
    + right. now apply error_set_set_error.
  - right. now apply error_set_set_error.
Qed.

(** C1.  Short-circuit invariant.  An agent that receives a state whose
    error is set returns the state, and the world of the collaborators,
    unchanged.  In a run of [process_request], once the harvest or the
    analysis has set the error, the state returned by the run is the
    state of that moment: raw_data, analysis_results, insights and
    narrative keep their values and no collaborator is called again. *)
Theorem short_circuit_invariant :
  (forall st w, error_set st = true ->
     analyst st w = (st, w) /\ narrator st w = (st, w)) /\
  (forall request team engineer period w s1 w1 s2 w2 s3 w3,
     harvest (initial_state request team engineer period) w = (s1, w1) ->
     analyst s1 w1 = (s2, w2) ->
     narrator s2 w2 = (s3, w3) ->
     run request team engineer period w = (s3, w3) /\
     (error s1 <> None -> (s2, w2) = (s1, w1) /\ (s3, w3) = (s1, w1)) /\
     (error s2 <> None -> (s3, w3) = (s2, w2))).
Proof.
  split.
  - intros st w H. split; [now apply analyst_passthrough | now apply narrator_passthrough].
  - intros request team engineer period w s1 w1 s2 w2 s3 w3 E1 E2 E3.
    assert (Hh : error s1 <> None -> error_set s1 = true).
    { intros Hset.
      destruct (harvest_error (initial_state request team engineer period) w)
        as [Heq | Ht]; rewrite E1 in *; cbn [fst] in *; [|exact Ht].
      now elim Hset. }
    assert (Ha : error s2 <> None -> error_set s2 = true).
    { intros Hset. destruct (analyst_error s1 w1) as [Heq | Ht];
        rewrite E2 in *; cbn [fst] in *; [|exact Ht].
      rewrite Heq in Hset. apply Hh in Hset.
      rewrite analyst_passthrough in E2 by exact Hset. now inversion E2; subst. }
    assert (Hah : error_set s1 = true -> (s2, w2) = (s1, w1)).
    { intros Ht. rewrite analyst_passthrough in E2 by exact Ht. now symmetry. }
    assert (Hna : error_set s2 = true -> (s3, w3) = (s2, w2)).
    { intros Ht. rewrite narrator_passthrough in E3 by exact Ht. now symmetry. }
    split; [|split].
    + unfold run, process_request. fold harvest analyst narrator.
      rewrite E1. destruct (error_set s1) eqn:Es1.
      * specialize (Hah eq_refl). inversion Hah; subst.
        now rewrite Hna by exact Es1.
      * rewrite E2. destruct (error_set s2) eqn:Es2.
        -- now rewrite Hna.
        -- rewrite E3. now destruct (error_set s3).
    + intros Hset. apply Hh in Hset. specialize (Hah Hset). split; [exact Hah|].
      inversion Hah; subst. now apply Hna.
    + intros Hset. now apply Hna, Ha.
Qed.
(** C8, as amended.  For a state without error whose raw data is not
    empty, the analysis stage sets the error to a message that starts with
    "Diff analysis failed: " whenever a field it consumes is not read as a
    number or the period is zero; and it stores an analysis and leaves the
    error unset when every field it consumes is read as a number, the
    period is not zero and the integers of the payload are within the range
    of a float.  A missing sub-group is not a failure: each of its fields
    is read as the default.  A sub-group that is present but is not a dict
    is a failure. *)
Theorem analysis_failure_policy st w :
  error_set st = false ->
  truthy (raw_data st) = true ->
  (analyzable (raw_data st) -> within_float_range (raw_data st) = true ->
     exists a, analyst st w = (set_analysis_results a st, w)) /\
  (~ analyzable (raw_data st) ->
     exists e, analyst st w = (set_error ("Diff analysis failed: " ++ str e) st, w)) /\
  (forall d group key n,
     raw_data st = PDict d -> d !! group = None ->
     reads (raw_data st) group key (PInt n) (inject_Z n)) /\
  (forall d group v,
     raw_data st = PDict d ->
     In group ["code_quality"; "dora_metrics"; "review_metrics"; "basic_stats"]%string ->
     d !! group = Some v -> (forall g, v <> PDict g) ->
     ~ analyzable (raw_data st)).
Proof.
  intros Herr Hraw.
  assert (Hrun : analyst st w =
                 match analyze (raw_data st) with
                 | Ok a => (set_analysis_results a st, w)
                 | Raise e => (set_error ("Diff analysis failed: " ++ str e) st, w)
                 end).
  { unfold analyst, DiffAnalystAgent_execute. now rewrite Herr, Hraw. }
  split; [|split; [|split]].
  - intros Hok _. destruct (analyze_value _ Hok) as (a & Ha).
    exists a. now rewrite Hrun, Ha.
  - intros Hbad. destruct (analyze (raw_data st)) as [a|e] eqn:Ea.
    + elim Hbad. now apply analyze_ok with a.
    + exists e. exact Hrun.
  - intros d group key n -> Hnone. now apply reads_missing_group.
  - intros d group v -> Hin Hsome Hnd
      (H1 & _ & _ & H4 & _ & H6 & _ & H8 & _).
    cbn [In] in Hin.
    destruct Hin as [<- | [<- | [<- | [<- | []]]]].
    + destruct H1 as (q & Hq). revert Hq. now apply not_reads_non_dict with v.
    + destruct H4 as (q & Hq). revert Hq. now apply not_reads_non_dict with v.
    + destruct H6 as (q & Hq). revert Hq. now apply not_reads_non_dict with v.
    + destruct H8 as (q & Hq). revert Hq. now apply not_reads_non_dict with v.
Qed.
End pipeline.

Lemma short_circuit_invariant_witness :
  process_request nat sample_str failing_summary failing_overall_stats sample_prompt
    sample_generate_text sample_narrative ascii_isspace ascii_isdigit ascii_lower_text
    "weekly" None None 7 0%nat
  = (set_error "Data harvesting failed: storage unavailable"
       (initial_state "weekly" None None 7), 1%nat).
Proof.
  destruct (short_circuit_invariant nat sample_str failing_summary failing_overall_stats
              sample_prompt sample_generate_text sample_narrative
              ascii_isspace ascii_isdigit ascii_lower_text) as [_ Hrun].
  pose (failed := set_error "Data harvesting failed: storage unavailable"
                    (initial_state "weekly" None None 7)).
  destruct (Hrun "weekly"%string None None 7%Z 0%nat failed 1%nat failed 1%nat failed 1%nat)
    as (Hfinal & _); reflexivity || exact Hfinal.
Defined.

(** A raw summary without code_quality is analysed: no error is set. *)
Lemma missing_code_quality_is_analyzed :
  raw_data (harvested_without "code_quality")
  = PDict (delete "code_quality" (RawSummary.to_dict scenario_summary)) /\
  delete "code_quality" (RawSummary.to_dict scenario_summary) !! "code_quality" = None /\
  error (DiffAnalystAgent_execute unit sample_str
           (harvested_without "code_quality") tt).1 = None /\
  error_set (DiffAnalystAgent_execute unit sample_str
               (harvested_without "code_quality") tt).1 = false /\
  analysis_results (DiffAnalystAgent_execute unit sample_str
                      (harvested_without "code_quality") tt).1 <> None.
Proof.
  split; [reflexivity|]. split; [reflexivity|].
  assert (Hrun : exists a, analyze (raw_data (harvested_without "code_quality")) = Ok a).
  { apply analyze_value. unfold analyzable.
    repeat split;
      try (eexists; eexists; split; [reflexivity | first [apply has_value_float
                                                           | apply has_value_int]]).
    exists 7%Q. split; [|discriminate].
    eexists. split; [reflexivity | apply (has_value_int 7)]. }
  destruct Hrun as (a & Ha).
  unfold DiffAnalystAgent_execute.
  replace (error_set (harvested_without "code_quality")
           || negb (truthy (raw_data (harvested_without "code_quality"))))
    with false by reflexivity.
  rewrite Ha. cbn. repeat split; discriminate.
Qed.

Lemma analysis_failure_policy_witness :
  (exists a, DiffAnalystAgent_execute unit sample_str (harvested_without "dora_metrics") tt
             = (set_analysis_results a (harvested_without "dora_metrics"), tt)) /\
  (exists e, DiffAnalystAgent_execute unit sample_str (harvested_with "dora_metrics" PNone) tt
             = (set_error ("Diff analysis failed: " ++ sample_str e)
                  (harvested_with "dora_metrics" PNone), tt)).
Proof.
  split.
  - destruct (analysis_failure_policy unit sample_str (harvested_without "dora_metrics") tt)
      as (Hok & _); [reflexivity | reflexivity |].
    apply Hok; [|vm_compute; reflexivity]. unfold analyzable.
    repeat split;
      try (eexists; eexists; split; [reflexivity | first [apply has_value_float
                                                           | apply has_value_int]]).
    exists 7%Q. split; [|discriminate].
    eexists. split; [reflexivity | apply (has_value_int 7)].
  - destruct (analysis_failure_policy unit sample_str (harvested_with "dora_metrics" PNone) tt)
      as (_ & Hfail & _ & Hnd); [reflexivity | reflexivity |].
    apply Hfail.
    apply (Hnd (<["dora_metrics" := PNone]> (RawSummary.to_dict scenario_summary))
             "dora_metrics"%string PNone).
    + reflexivity.
    + cbn. tauto.
    + reflexivity.
    + discriminate.
Defined.

(** ** The metrics engine *)

Section metrics_properties.
Import Metrics.

Lemma count_large_from (cs : list Commit) (k : Z) :
  fold_left (fun n c => if (300 <? churn_of c)%Z then (n + 1)%Z else n) cs k
  = (k + Z.of_nat (length (List.filter (fun c => (300 <? churn_of c)%Z) cs)))%Z.
Proof.
  revert k. induction cs as [|c cs IH]; intros k; cbn.
  - lia.
  - rewrite IH. destruct (300 <? churn_of c)%Z; cbn [length]; lia.
Qed.

(** Python's [min(100, x)] on a float. *)
Lemma py_min_100 (x : Q) : ((if Qltb x 100 then x else 100) == Qmin 100 x)%Q.
Proof.
  destruct (Qltb x 100) eqn:H.
  - symmetry. apply Q.min_r, Qlt_le_weak, Qltb_lt, H.
  - symmetry. apply Q.min_l, Qltb_ge, H.
Qed.

(** C5.  Churn risk score.  For a non-empty list of commits in scope the
    score is min(100, churn_rate / 10 + large_commit_ratio * 50), where
    churn_rate is the total of additions + deletions divided by the
    number of commits and large_commit_ratio is the fraction of commits
    whose own additions + deletions exceed 300; for the empty list the
    score is 0. *)
Theorem churn_risk_score_formula (cs : list Commit) :
  let m := churn_metrics_of cs in
  let n := inject_Z (Z.of_nat (length cs)) in
  (forall db now engineer team days,
     cs = commits_in_scope db now team engineer days ->
     calculate_code_churn_metrics db now engineer team days = m) /\
  risk_score m = _calculate_churn_risk_score cs /\
  total_churn m = sum_Z (map (fun c => additions c + deletions c)%Z cs) /\
  (cs = [] -> (risk_score m == 0)%Q /\ (churn_rate m == 0)%Q) /\
  (cs <> [] ->
     (churn_rate m == inject_Z (total_churn m) / n)%Q /\
     (spec_large_commit_ratio cs ==
        inject_Z (Z.of_nat (length (List.filter
           (fun c => (300 <? additions c + deletions c)%Z) cs))) / n)%Q /\
     (risk_score m ==
        Qmin 100 (churn_rate m / 10 + spec_large_commit_ratio cs * 50))%Q).
Proof.
  cbv zeta. split; [now intros db now engineer team days ->|].
  split; [reflexivity|]. split; [reflexivity|]. split.
  - intros ->. split; reflexivity.
  - intros Hne. destruct cs as [|c cs]; [contradiction|].
    split; [reflexivity|]. split; [reflexivity|].
    cbn [risk_score churn_rate churn_metrics_of].
    unfold _calculate_churn_risk_score.
    rewrite count_large_from, Z.add_0_l.
    rewrite py_min_100. reflexivity.
Qed.

(** The outer loop collects, in order, the lead time of every commit that
    has a deployment after it. *)
Lemma lead_times_from (cs : list Commit) (ds : list Deployment) (found : list Q) :
  fold_left
    (fun found c =>
       match first_deployment_after c ds with
       | Some d => found ++ [days_between c d]
       | None => found
       end) cs found
  = found ++ omap (fun c => option_map (days_between c) (first_deployment_after c ds)) cs.
Proof.
  revert found. induction cs as [|c cs IH]; intros found; simpl.
  - now rewrite app_nil_r.
  - rewrite IH.
    destruct (first_deployment_after c ds); simpl; [now rewrite <- app_assoc | reflexivity].
Qed.

Lemma lead_times_omap (cs : list Commit) (ds : list Deployment) :
  lead_times cs ds
  = omap (fun c => option_map (days_between c) (first_deployment_after c ds)) cs.
Proof. unfold lead_times. now rewrite lead_times_from. Qed.

(** A candidate that is not later than any remaining deployment is kept. *)
Lemma earliest_kept (c : Commit) (ds : list Deployment) (b : Deployment) :
  Forall (fun d => (deployed_at b <= deployed_at d)%Z) ds ->
  fold_left
    (fun best d =>
       if deployed_after c d then
         match best with
         | Some b => if (deployed_at d <? deployed_at b)%Z then Some d else best
         | None => Some d
         end
       else best) ds (Some b) = Some b.
Proof.
  induction 1 as [|d ds Hd _ IH]; cbn [fold_left]; [reflexivity|].
  destruct (deployed_after c d); [|exact IH].
  destruct (deployed_at d <? deployed_at b)%Z eqn:Hlt; [|exact IH].
  apply Z.ltb_lt in Hlt. lia.
Qed.

(** When the deployments are listed by ascending [deployed_at], the first
    listed deployment after a commit is the earliest one. *)
Lemma first_is_earliest_when_sorted (c : Commit) (ds : list Deployment) :
  StronglySorted (fun a b => (deployed_at a <= deployed_at b)%Z) ds ->
  first_deployment_after c ds = spec_earliest_deployment c ds.
Proof.
  unfold spec_earliest_deployment.
  induction 1 as [|d ds Hs IH Hd]; cbn [first_deployment_after fold_left]; [reflexivity|].
  destruct (deployed_after c d).
  - symmetry. now apply earliest_kept.
  - exact IH.
Qed.

Lemma lead_time_when_sorted (cs : list Commit) (ds : list Deployment) :
  StronglySorted (fun a b => (deployed_at a <= deployed_at b)%Z) ds ->
  mean (lead_times cs ds) = spec_lead_time cs ds.
Proof.
  intros Hs. unfold spec_lead_time. rewrite lead_times_omap. f_equal.
  induction cs as [|c cs IH]; [reflexivity|].
  unfold omap in *. simpl.
  rewrite (first_is_earliest_when_sorted c ds Hs). now rewrite IH.
Qed.

(** C4 on a storage that lists a later deployment first: the commit is
    matched with the deployment of day 10, the first one listed, and the
    lead time is 10 days; the earliest deployment after the commit is the
    one of day 5, and the lead time of the specification is 5 days. *)
Theorem lead_time_takes_first_listed :
  let cs := commits_in_scope unordered_storage (11 * day) None None 30 in
  let ds := get_deployments unordered_storage (11 * day) 30 in
  cs = [commit_at_0] /\
  ds = [deployment_day_10; deployment_day_5] /\
  first_deployment_after commit_at_0 ds = Some deployment_day_10 /\
  spec_earliest_deployment commit_at_0 ds = Some deployment_day_5 /\
  (_calculate_lead_time unordered_storage (11 * day) None None 30 == 10)%Q /\
  (spec_lead_time cs ds == 5)%Q.
Proof. cbv zeta. repeat split; reflexivity. Qed.
End metrics_properties.

Lemma churn_risk_score_formula_witness :
  (Metrics.risk_score (Metrics.churn_metrics_of [commit_at_0]) == 3 # 2)%Q /\
  (Metrics.risk_score (Metrics.churn_metrics_of []) == 0)%Q.
Proof.
  split.
  - destruct (churn_risk_score_formula [commit_at_0]) as (_ & _ & _ & _ & Hfull).
    destruct Hfull as (_ & _ & ->); [discriminate | reflexivity].
  - destruct (churn_risk_score_formula []) as (_ & _ & _ & Hempty & _).
    now destruct Hempty.
Defined.

(** ** The harvest without teams *)

Section harvesting_properties.
Variable rng : Type.
Variable uniform : Q -> Q -> rng -> Q * rng.
Variable randint : Z -> Z -> rng -> Z * rng.
Variable team : Type.
Variable aggregate : list team -> Z -> result pyval.

Let harvest (days : Z) (replies : list repository_reply) (g : rng) :=
  (_get_overall_stats rng uniform randint days (@nil team) (Ok replies) aggregate g).1.

Lemma get_overall_stats_without_teams days replies g :
  harvest days replies g = Ok (bootstrap_summary rng uniform randint days replies g).1.
Proof.
  unfold harvest, _get_overall_stats.
  now destruct (bootstrap_summary rng uniform randint days replies g).
Qed.

(** The fields that are counted, as functions of the totals. *)
Lemma bootstrap_counted_fields (days : Z) (replies : list repository_reply) (g : rng) :
  let t := fold_left count_repository replies no_totals in
  let s := (bootstrap_summary rng uniform randint days replies g).1 in
  get s "period_days" PNone = Ok (PInt days) /\
  get s "basic_stats" PNone
  = Ok (PDict (<["total_commits" := PInt (sum_commits t)]>
              (<["total_pull_requests" := PInt (sum_prs t)]>
              (<["lines_added" := PInt (sum_lines_added t)]>
              (<["lines_deleted" := PInt (sum_lines_deleted t)]>
              (<["files_changed" := PInt (sum_files_changed t)]> ∅)))))) /\
  field s "basic_stats" "total_commits" PNone = Ok (PInt (sum_commits t)) /\
  field s "dora_metrics" "deployment_frequency" PNone
  = Ok (if (0 <? days)%Z
        then PFloat (round_digits (inject_Z (sum_commits t) / inject_Z days) 2)
        else PInt 0) /\
  field s "code_quality" "total_churn" PNone
  = Ok (PInt (sum_lines_added t + sum_lines_deleted t)) /\
  field s "code_quality" "churn_rate" PNone
  = Ok (PFloat (round_digits (inject_Z (sum_lines_added t + sum_lines_deleted t)
                              / inject_Z (Z.max (sum_commits t) 1)) 1)).
Proof.
  cbv zeta. unfold bootstrap_summary.
  set (t := fold_left count_repository replies no_totals).
  destruct (if (0 <? sum_commits t)%Z then _ else _) as [lead_time ga].
  destruct (rounded_draw rng uniform 3 8 ga) as [cfr gb].
  destruct (rounded_draw rng uniform (7 # 2) 6 gb) as [mttr gc].
  destruct (rounded_draw rng uniform 15 35 gc) as [risk gd].
  destruct (randint 0 5 gd) as [files ge].
  destruct (rounded_draw rng uniform 6 12 ge) as [review_time gf].
  destruct (rounded_draw rng uniform 70 95 gf) as [participation gg].
  destruct (rounded_draw rng uniform 12 24 gg) as [cycle gh].
  destruct (rounded_draw rng uniform 85 98 gh) as [approval gi].
  cbn [fst]. repeat split; reflexivity.
Qed.

(** The fields that are drawn. *)
Lemma bootstrap_drawn_fields (days : Z) (replies : list repository_reply) (g : rng) :
  let t := fold_left count_repository replies no_totals in
  let s := (bootstrap_summary rng uniform randint days replies g).1 in
  (((sum_commits t <= 0)%Z -> field s "dora_metrics" "lead_time_days" PNone = Ok (PInt 0)) /\
   ((0 < sum_commits t)%Z ->
    field s "dora_metrics" "lead_time_days" PNone
    = Ok (rounded_draw rng uniform (3 # 2) (7 # 2) g).1)) /\
  (exists g', field s "dora_metrics" "change_failure_rate" PNone
              = Ok (rounded_draw rng uniform 3 8 g').1) /\
  (exists g', field s "dora_metrics" "mttr_hours" PNone
              = Ok (rounded_draw rng uniform (7 # 2) 6 g').1) /\
  (exists g', field s "code_quality" "risk_score" PNone
              = Ok (rounded_draw rng uniform 15 35 g').1) /\
  (exists g', field s "code_quality" "high_risk_files" PNone
              = Ok (PInt (randint 0 5 g').1)) /\
  (exists g', field s "review_metrics" "avg_review_time_hours" PNone
              = Ok (rounded_draw rng uniform 6 12 g').1) /\
  (exists g', field s "review_metrics" "review_participation_rate" PNone
              = Ok (rounded_draw rng uniform 70 95 g').1) /\
  (exists g', field s "review_metrics" "pr_cycle_time_hours" PNone
              = Ok (rounded_draw rng uniform 12 24 g').1) /\
  (exists g', field s "review_metrics" "approval_rate" PNone
              = Ok (rounded_draw rng uniform 85 98 g').1).
Proof.
  cbv zeta. unfold bootstrap_summary.
  set (t := fold_left count_repository replies no_totals).
  assert (Hlead :
            ((sum_commits t <= 0)%Z ->
             (if (0 <? sum_commits t)%Z then rounded_draw rng uniform (3 # 2) (7 # 2) g
              else (PInt 0, g)).1 = PInt 0) /\
            ((0 < sum_commits t)%Z ->
             (if (0 <? sum_commits t)%Z then rounded_draw rng uniform (3 # 2) (7 # 2) g
              else (PInt 0, g)).1 = (rounded_draw rng uniform (3 # 2) (7 # 2) g).1)).
  { destruct (0 <? sum_commits t)%Z eqn:E.
    - apply Z.ltb_lt in E. split; [lia | reflexivity].
    - apply Z.ltb_ge in E. split; [reflexivity | lia]. }
  destruct (if (0 <? sum_commits t)%Z then _ else _) as [lead_time ga].
  cbn [fst] in Hlead.
  destruct (rounded_draw rng uniform 3 8 ga) as [cfr gb] eqn:E1.
  destruct (rounded_draw rng uniform (7 # 2) 6 gb) as [mttr gc] eqn:E2.
  destruct (rounded_draw rng uniform 15 35 gc) as [risk gd] eqn:E3.
  destruct (randint 0 5 gd) as [files ge] eqn:E4.
  destruct (rounded_draw rng uniform 6 12 ge) as [review_time gf] eqn:E5.
  destruct (rounded_draw rng uniform 70 95 gf) as [participation gg] eqn:E6.
  destruct (rounded_draw rng uniform 12 24 gg) as [cycle gh] eqn:E7.
  destruct (rounded_draw rng uniform 85 98 gh) as [approval gi] eqn:E8.
  cbn [fst].
  split.
  { destruct Hlead as [H0 H1]. split; intros H.
    - rewrite <- (H0 H). reflexivity.
    - rewrite <- (H1 H). reflexivity. }
  split; [exists ga; now rewrite E1|]. split; [exists gb; now rewrite E2|].
  split; [exists gc; now rewrite E3|]. split; [exists gd; now rewrite E4|].
  split; [exists ge; now rewrite E5|]. split; [exists gf; now rewrite E6|].
  split; [exists gg; now rewrite E7 | exists gh; now rewrite E8].
Qed.

(** C9, as amended.  Without teams, with the same period and the same
    answers of the source-control client, two runs of the harvest return
    summaries that agree on period_days, on every field of basic_stats, on
    deployment_frequency, total_churn and churn_rate, whatever the states
    of the random generator.  The other nine fields are not functions of
    these inputs: change_failure_rate, mttr_hours, risk_score and the four
    review metrics are draws of random.uniform rounded to one decimal,
    high_risk_files is a draw of random.randint, and lead_time_days is a
    rounded draw when a commit was counted and 0 otherwise.  Two runs whose
    generators are in the same state return the same summary. *)
Theorem bootstrap_deterministic_part (days : Z) (replies : list repository_reply)
    (g1 g2 : rng) :
  exists s1 s2,
    harvest days replies g1 = Ok s1 /\
    harvest days replies g2 = Ok s2 /\
    get s1 "period_days" PNone = get s2 "period_days" PNone /\
    get s1 "basic_stats" PNone = get s2 "basic_stats" PNone /\
    field s1 "dora_metrics" "deployment_frequency" PNone
      = field s2 "dora_metrics" "deployment_frequency" PNone /\
    field s1 "code_quality" "total_churn" PNone
      = field s2 "code_quality" "total_churn" PNone /\
    field s1 "code_quality" "churn_rate" PNone
      = field s2 "code_quality" "churn_rate" PNone /\
    (g1 = g2 -> s1 = s2) /\
    (exists total,
       field s1 "basic_stats" "total_commits" PNone = Ok (PInt total) /\
       ((total <= 0)%Z -> field s1 "dora_metrics" "lead_time_days" PNone = Ok (PInt 0)) /\
       ((0 < total)%Z ->
        field s1 "dora_metrics" "lead_time_days" PNone
        = Ok (rounded_draw rng uniform (3 # 2) (7 # 2) g1).1)) /\
    (exists g, field s1 "dora_metrics" "change_failure_rate" PNone
               = Ok (rounded_draw rng uniform 3 8 g).1) /\
    (exists g, field s1 "dora_metrics" "mttr_hours" PNone
               = Ok (rounded_draw rng uniform (7 # 2) 6 g).1) /\
    (exists g, field s1 "code_quality" "risk_score" PNone
               = Ok (rounded_draw rng uniform 15 35 g).1) /\
    (exists g, field s1 "code_quality" "high_risk_files" PNone
               = Ok (PInt (randint 0 5 g).1)) /\
    (exists g, field s1 "review_metrics" "avg_review_time_hours" PNone
               = Ok (rounded_draw rng uniform 6 12 g).1) /\
    (exists g, field s1 "review_metrics" "review_participation_rate" PNone
               = Ok (rounded_draw rng uniform 70 95 g).1) /\
    (exists g, field s1 "review_metrics" "pr_cycle_time_hours" PNone
               = Ok (rounded_draw rng uniform 12 24 g).1) /\
    (exists g, field s1 "review_metrics" "approval_rate" PNone
               = Ok (rounded_draw rng uniform 85 98 g).1).
Proof.
  exists (bootstrap_summary rng uniform randint days replies g1).1,
         (bootstrap_summary rng uniform randint days replies g2).1.
  split; [apply get_overall_stats_without_teams|].
  split; [apply get_overall_stats_without_teams|].
  destruct (bootstrap_counted_fields days replies g1) as (P1 & B1 & C1 & F1 & T1 & R1).
  destruct (bootstrap_counted_fields days replies g2) as (P2 & B2 & _ & F2 & T2 & R2).
  destruct (bootstrap_drawn_fields days replies g1)
    as ((L0 & L1) & D1 & D2 & D3 & D4 & D5 & D6 & D7 & D8).
  split; [now rewrite P1, P2|]. split; [now rewrite B1, B2|].
  split; [now rewrite F1, F2|]. split; [now rewrite T1, T2|].
  split; [now rewrite R1, R2|]. split; [now intros ->|].
  split.
  { exists (sum_commits (fold_left count_repository replies no_totals)).
    split; [exact C1|]. split; [exact L0 | exact L1]. }
  repeat (split; [assumption|]). assumption.
Qed.
End harvesting_properties.

(** The same repositories and two states of the random generator: the two
    summaries differ in change_failure_rate. *)
Lemma bootstrap_depends_on_random_draws :
  exists s1 s2,
    (_get_overall_stats (list Q) listed_uniform listed_randint 7 (@nil unit)
       (Ok one_repository) (fun _ _ => Raise (External "no teams"))
       [0; 0; 0; 0; 0; 0; 0; 0; 0]%Q).1 = Ok s1 /\
    (_get_overall_stats (list Q) listed_uniform listed_randint 7 (@nil unit)
       (Ok one_repository) (fun _ _ => Raise (External "no teams"))
       [1 # 2; 1 # 2; 1 # 2; 1 # 2; 1 # 2; 1 # 2; 1 # 2; 1 # 2; 1 # 2]%Q).1 = Ok s2 /\
    field s1 "dora_metrics" "change_failure_rate" PNone = Ok (PFloat (30 # 10)) /\
    field s2 "dora_metrics" "change_failure_rate" PNone = Ok (PFloat (55 # 10)) /\
    ~ (30 # 10 == 55 # 10)%Q.
Proof.
  eexists _, _. split; [reflexivity|]. split; [reflexivity|].
  split; [vm_compute; reflexivity|]. split; [vm_compute; reflexivity|]. discriminate.
Qed.

Lemma bootstrap_deterministic_part_witness :
  exists s1 s2,
    (_get_overall_stats (list Q) listed_uniform listed_randint 7 (@nil unit)
       (Ok one_repository) (fun _ _ => Raise (External "no teams"))
       [0; 0; 0; 0; 0; 0; 0; 0; 0]%Q).1 = Ok s1 /\
    (_get_overall_stats (list Q) listed_uniform listed_randint 7 (@nil unit)
       (Ok one_repository) (fun _ _ => Raise (External "no teams"))
       [1 # 2; 1 # 2; 1 # 2; 1 # 2; 1 # 2; 1 # 2; 1 # 2; 1 # 2; 1 # 2]%Q).1 = Ok s2 /\
    get s1 "basic_stats" PNone = get s2 "basic_stats" PNone.
Proof.
  destruct (bootstrap_deterministic_part (list Q) listed_uniform listed_randint unit
              (fun _ _ => Raise (External "no teams")) 7 one_repository
              [0; 0; 0; 0; 0; 0; 0; 0; 0]%Q
              [1 # 2; 1 # 2; 1 # 2; 1 # 2; 1 # 2; 1 # 2; 1 # 2; 1 # 2; 1 # 2]%Q)
    as (s1 & s2 & H1 & H2 & _ & Hbasic & _).
  exists s1, s2. split; [exact H1|]. split; [exact H2 | exact Hbasic].
Defined.

(** ** Scenarios *)

(** The scenario of the specification: HIGH from the failure rate alone, a
    composite score of 75. *)
Example scenario_risk_assessment :
  exists r, _assess_risk_factors (RawSummary.to_py scenario_summary) = Ok r /\
    overall_risk_level r = HIGH /\
    identified_risks r = [risk_failure_rate] /\
    has_value (risk_score r) 75 /\
    elements (mitigation_strategies r)
    ≡ₚ ["Implement more comprehensive testing"; "Add pre-deployment validation checks"]%string.
Proof.
  eexists. split; [vm_compute; reflexivity|]. cbn.
  split; [reflexivity|]. split; [reflexivity|]. split.
  - eexists. split; reflexivity.
  - vm_compute. reflexivity.
Qed.

Example scenario_quality_indicators :
  exists r, _calculate_quality_indicators (RawSummary.to_py scenario_summary) = Ok r /\
    has_value (velocity_score r) 20 /\
    has_value (quality_score r) 0 /\
    has_value (collaboration_score r) 80 /\
    has_value (overall_score r) (333 # 10) /\
    qi_grade r = F.
Proof.
  eexists. split; [vm_compute; reflexivity|]. cbn.
  repeat split; try (eexists; split; reflexivity).
Qed.

(** No commit in a period of 7 days: a velocity of 0, and no division by
    zero. *)
Example idle_quality_indicators :
  exists r, _calculate_quality_indicators (RawSummary.to_py idle_summary) = Ok r /\
    has_value (velocity_score r) 0 /\ qi_grade r = F.
Proof.
  eexists. split; [vm_compute; reflexivity|]. cbn.
  split; [eexists; split; reflexivity | reflexivity].
Qed.

(** A period of zero days is an analysis failure. *)
Example zero_period_fails :
  error (DiffAnalystAgent_execute unit sample_str
           (harvested_with "period_days" (PInt 0)) tt).1
  = Some "Diff analysis failed: division by zero"%string.
Proof. vm_compute. reflexivity. Qed.

(** A run in which every agent succeeds. *)
Example successful_run :
  let out :=
    (process_request nat sample_str scenario_storage failing_overall_stats sample_prompt
       sample_generate_text sample_narrative ascii_isspace ascii_isdigit ascii_lower_text
       "weekly" None (Some 3%Z) 7 0%nat) in
  error out.1 = None /\
  raw_data out.1 = RawSummary.to_py scenario_summary /\
  analysis_results out.1 <> None /\
  insights out.1 = Some [text_of_string "The team keeps a steady delivery pace"] /\
  narrative out.1 = text_of_string "## Engineering Performance Report" /\
  out.2 = 3%nat.
Proof.
  vm_compute. repeat split; discriminate.
Qed.

(** ** More on the analysis engine *)

Lemma round_half_even_ge (x : Q) (z : Z) :
  (inject_Z z <= x)%Q -> (z <= round_half_even x)%Z.
Proof.
  intros H. assert (Hf : (z <= Qfloor x)%Z).
  { rewrite <- (Qfloor_Z z). now apply Qfloor_resp_le. }
  unfold round_half_even.
  destruct (Qltb (x - inject_Z (Qfloor x)) (1 # 2)); [exact Hf|].
  destruct (Qltb (1 # 2) (x - inject_Z (Qfloor x))); [lia|].
  destruct (Z.even (Qfloor x)); lia.
Qed.

Lemma round_half_even_le (x : Q) (z : Z) :
  (x <= inject_Z z)%Q -> (round_half_even x <= z)%Z.
Proof.
  intros H. assert (Hf : (Qfloor x <= z)%Z).
  { rewrite <- (Qfloor_Z z). now apply Qfloor_resp_le. }
  assert (Hup : (inject_Z (Qfloor x) < x)%Q -> (Qfloor x + 1 <= z)%Z).
  { intros Hlt. assert (Hz : (inject_Z (Qfloor x) < inject_Z z)%Q) by lra.
    rewrite <- Zlt_Qlt in Hz. lia. }
  unfold round_half_even.
  destruct (Qltb (x - inject_Z (Qfloor x)) (1 # 2)) eqn:H1; [exact Hf|].
  apply Qltb_ge in H1.
  assert (Hlt : (inject_Z (Qfloor x) < x)%Q) by lra.
  specialize (Hup Hlt).
  destruct (Qltb (1 # 2) (x - inject_Z (Qfloor x))); [lia|].
  destruct (Z.even (Qfloor x)); lia.
Qed.

(** Rounding to [n] decimals keeps a value between two integers. *)
Lemma round_digits_bounds (q : Q) (n : nat) (lo hi : Z) :
  (inject_Z lo <= q)%Q -> (q <= inject_Z hi)%Q ->
  (inject_Z lo <= round_digits q n)%Q /\ (round_digits q n <= inject_Z hi)%Q.
Proof.
  intros Hlo Hhi. unfold round_digits.
  set (scale := (10 ^ Z.of_nat n)%Z).
  assert (Hpos : (0 < scale)%Z) by (apply Z.pow_pos_nonneg; lia).
  assert (Hs : (0 < inject_Z scale)%Q) by (change 0%Q with (inject_Z 0); now rewrite <- Zlt_Qlt).
  assert (Hge : (lo * scale <= round_half_even (q * inject_Z scale))%Z).
  { apply round_half_even_ge. rewrite inject_Z_mult. now apply Qmult_le_compat_r; [|lra]. }
  assert (Hle : (round_half_even (q * inject_Z scale) <= hi * scale)%Z).
  { apply round_half_even_le. rewrite inject_Z_mult. now apply Qmult_le_compat_r; [|lra]. }
  rewrite Zle_Qle, inject_Z_mult in Hge, Hle.
  split.
  - apply Qle_shift_div_l; [exact Hs | exact Hge].
  - apply Qle_shift_div_r; [exact Hs | exact Hle].
Qed.

Lemma has_value_unique v q q' : has_value v q -> has_value v q' -> (q == q')%Q.
Proof.
  intros (a & Ha & Ea) (b & Hb & Eb). rewrite Ha in Hb. injection Hb as <-.
  now rewrite <- Ea, <- Eb.
Qed.

Lemma reads_unique data group key dflt q q' :
  reads data group key dflt q -> reads data group key dflt q' -> (q == q')%Q.
Proof.
  intros (v & Hv & Vq) (v' & Hv' & Vq'). rewrite Hv in Hv'. injection Hv' as <-.
  now apply has_value_unique with v.
Qed.

Lemma spec_grade_rank_monotone (q1 q2 : Q) :
  (q1 <= q2)%Q -> (grade_rank (spec_grade q1) <= grade_rank (spec_grade q2))%nat.
Proof.
  intros H. unfold spec_grade.
  pose proof (Qle_bool_iff 90 q1) as A1. pose proof (Qle_bool_iff 80 q1) as B1.
  pose proof (Qle_bool_iff 70 q1) as C1. pose proof (Qle_bool_iff 60 q1) as D1.
  pose proof (Qle_bool_iff 90 q2) as A2. pose proof (Qle_bool_iff 80 q2) as B2.
  pose proof (Qle_bool_iff 70 q2) as C2. pose proof (Qle_bool_iff 60 q2) as D2.
  destruct (Qle_bool 90 q1), (Qle_bool 80 q1), (Qle_bool 70 q1), (Qle_bool 60 q1),
    (Qle_bool 90 q2), (Qle_bool 80 q2), (Qle_bool 70 q2), (Qle_bool 60 q2);
    cbn; try lia; exfalso;
    repeat match goal with
           | H : true = true <-> _ |- _ => apply proj1 in H; specialize (H eq_refl)
           | H : false = true <-> (?a <= ?b)%Q |- _ =>
               assert (b < a)%Q
                 by (apply Qnot_le_lt; intros Hc; apply H in Hc; discriminate);
               clear H
           end; lra.
Qed.

(** X1.  [_score_to_grade] on numbers: a higher score never gets a worse
    grade, the thresholds 90, 80, 70 and 60 are closed (a score equal to a
    threshold gets the better grade), and a value that is not a number
    raises TypeError. *)
Theorem score_to_grade_monotone (v1 v2 : pyval) (q1 q2 : Q) :
  has_value v1 q1 -> has_value v2 q2 -> (q1 <= q2)%Q ->
  exists g1 g2,
    _score_to_grade v1 = Ok g1 /\ _score_to_grade v2 = Ok g2 /\
    (grade_rank g1 <= grade_rank g2)%nat /\
    (g1 = A <-> (90 <= q1)%Q) /\
    (g1 = B <-> (80 <= q1)%Q /\ (q1 < 90)%Q) /\
    (g1 = C <-> (70 <= q1)%Q /\ (q1 < 80)%Q) /\
    (g1 = D <-> (60 <= q1)%Q /\ (q1 < 70)%Q) /\
    (g1 = F <-> (q1 < 60)%Q) /\
    (forall v, num v = None -> _score_to_grade v = Raise TypeError).
Proof.
  intros H1 H2 Hle. exists (spec_grade q1), (spec_grade q2).
  split; [now apply score_to_grade_value|]. split; [now apply score_to_grade_value|].
  split; [now apply spec_grade_rank_monotone|].
  assert (Hraise : forall v, num v = None -> _score_to_grade v = Raise TypeError).
  { intros v Hv. unfold _score_to_grade, ge. now rewrite Hv. }
  unfold spec_grade.
  pose proof (Qle_bool_iff 90 q1) as A1. pose proof (Qle_bool_iff 80 q1) as B1.
  pose proof (Qle_bool_iff 70 q1) as C1. pose proof (Qle_bool_iff 60 q1) as D1.
  assert (Hn : forall a b : Q, ~ (a <= b)%Q -> (b < a)%Q) by (intros; now apply Qnot_le_lt).
  destruct (Qle_bool 90 q1), (Qle_bool 80 q1), (Qle_bool 70 q1), (Qle_bool 60 q1);
    repeat match goal with
           | H : true = true <-> _ |- _ => apply proj1 in H; specialize (H eq_refl)
           | H : false = true <-> (?a <= ?b)%Q |- _ =>
               assert (b < a)%Q
                 by (apply Qnot_le_lt; intros Hc; apply H in Hc; discriminate);
               clear H
           end;
    repeat split; try discriminate; try exact Hraise; intros; try lra;
    try (exfalso; lra);
    repeat match goal with H : _ /\ _ |- _ => destruct H end; try lra.
Qed.

Lemma score_to_grade_monotone_witness :
  exists g1 g2,
    _score_to_grade (PInt 60) = Ok g1 /\ _score_to_grade (PFloat (899 # 10)) = Ok g2 /\
    g1 = D /\ (grade_rank g1 <= grade_rank g2)%nat.
Proof.
  destruct (score_to_grade_monotone (PInt 60) (PFloat (899 # 10)) 60 (899 # 10))
    as (g1 & g2 & H1 & H2 & Hm & _ & _ & _ & HD & _).
  - apply (has_value_int 60).
  - apply has_value_float.
  - discriminate.
  - exists g1, g2. split; [exact H1|]. split; [exact H2|]. split; [|exact Hm].
    apply HD. split; [discriminate | reflexivity].
Defined.

(** ** Score bounds *)

(** X2.  Quality indicators of a payload with a non-negative commit count,
    a positive period, a non-negative change failure rate and a review
    participation rate between 0 and 100, the commit count and the period
    being at most 10^300 (what a float can hold): the four scores are
    numbers between 0 and 100. *)
Theorem quality_indicators_bounds data commits days cfr participation :
  reads data "basic_stats" "total_commits" (PInt 0) commits ->
  reads_top data "period_days" (PInt 7) days ->
  reads data "dora_metrics" "change_failure_rate" (PInt 0) cfr ->
  reads data "review_metrics" "review_participation_rate" (PInt 0) participation ->
  (0 <= commits)%Q -> (0 < days)%Q -> (0 <= cfr)%Q ->
  (0 <= participation)%Q -> (participation <= 100)%Q ->
  (commits <= inject_Z (10 ^ 300))%Q -> (days <= inject_Z (10 ^ 300))%Q ->
  exists r velocity quality collaboration overall,
    _calculate_quality_indicators data = Ok r /\
    has_value (velocity_score r) velocity /\
    has_value (quality_score r) quality /\
    has_value (collaboration_score r) collaboration /\
    has_value (overall_score r) overall /\
    (0 <= velocity <= 100)%Q /\ (0 <= quality <= 100)%Q /\
    (0 <= collaboration <= 100)%Q /\ (0 <= overall <= 100)%Q.
Proof.
  intros Hc Hd Hf Hp Hc0 Hd0 Hf0 Hp0 Hp100 _ _.
  assert (Hnz : ~ (days == 0)%Q) by lra.
  destruct (calculate_quality_indicators_value data commits days cfr participation
              Hc Hd Hnz Hf Hp) as (r & Hr & Hv & Hq & Hco & Ho & _).
  assert (Bv : (0 <= spec_velocity_score commits days <= 100)%Q).
  { unfold spec_velocity_score. split; [|apply Q.le_min_l].
    apply Q.min_glb; [lra|].
    assert (0 <= commits / days)%Q by (apply Qle_shift_div_l; lra). lra. }
  assert (Bq : (0 <= spec_quality_score cfr <= 100)%Q).
  { unfold spec_quality_score. split; [apply Q.le_max_l | apply Q.max_lub; lra]. }
  assert (Bo : (0 <= (spec_velocity_score commits days + spec_quality_score cfr
                      + participation) / 3 <= 100)%Q).
  { split; [apply Qle_shift_div_l; lra | apply Qle_shift_div_r; lra]. }
  eexists r, _, _, _, _. split; [exact Hr|].
  split; [exact Hv|]. split; [exact Hq|]. split; [exact Hco|]. split; [exact Ho|].
  repeat split; apply (round_digits_bounds _ 1 0 100); tauto.
Qed.

Lemma quality_indicators_bounds_witness :
  exists r overall,
    _calculate_quality_indicators (RawSummary.to_py scenario_summary) = Ok r /\
    has_value (overall_score r) overall /\ (0 <= overall <= 100)%Q.
Proof.
  destruct (quality_indicators_bounds (RawSummary.to_py scenario_summary) 14 7 20 80)
    as (r & _ & _ & _ & overall & Hr & _ & _ & _ & Ho & _ & _ & _ & Hb);
    try (eexists; split; [reflexivity | first [apply has_value_float
                                               | apply (has_value_int 14)
                                               | apply (has_value_int 7)]]);
    try discriminate; try reflexivity.
  exists r, overall. split; [exact Hr|]. split; [exact Ho | exact Hb].
Defined.
(** ** Mitigation strategies *)

Lemma elem_of_by_decision `{Countable K} (x : K) (S : gset K) (b : bool) (P : Prop) :
  bool_decide (x ∈ S) = b -> (b = true <-> P) -> (x ∈ S <-> P).
Proof.
  intros Hb HP. rewrite <- HP, <- Hb. split.
  - intros Hin. now apply bool_decide_eq_true.
  - intros Hd. now apply bool_decide_eq_true in Hd.
Qed.

(** X3.  The strategies that [_assess_risk_factors] attaches to its risks:
    each triggered check brings its own two strategies and nothing else, so
    there are twice as many strategies as triggered checks, and there is no
    strategy exactly when the only risk is the no-significant-risk
    message. *)
Theorem mitigation_strategies_of_risks data cfr lead churn participation :
  reads data "dora_metrics" "change_failure_rate" (PInt 0) cfr ->
  reads data "dora_metrics" "lead_time_days" (PInt 0) lead ->
  reads data "code_quality" "risk_score" (PInt 0) churn ->
  reads data "review_metrics" "review_participation_rate" (PInt 100) participation ->
  exists r, _assess_risk_factors data = Ok r /\
    (mitigation_strategies r = ∅ <-> identified_risks r = [risk_none]) /\
    size (mitigation_strategies r)
      = (2 * length (spec_triggered_risks cfr lead churn participation))%nat /\
    (("Implement more comprehensive testing"%string ∈ mitigation_strategies r
      <-> (15 < cfr)%Q) /\
     ("Add pre-deployment validation checks"%string ∈ mitigation_strategies r
      <-> (15 < cfr)%Q)) /\
    (("Optimize CI/CD pipeline"%string ∈ mitigation_strategies r <-> (7 < lead)%Q) /\
     ("Reduce approval bottlenecks"%string ∈ mitigation_strategies r <-> (7 < lead)%Q)) /\
    (("Focus on smaller, more frequent changes"%string ∈ mitigation_strategies r
      <-> (60 < churn)%Q) /\
     ("Increase pair programming sessions"%string ∈ mitigation_strategies r
      <-> (60 < churn)%Q)) /\
    (("Implement review assignment automation"%string ∈ mitigation_strategies r
      <-> (participation < 70)%Q) /\
     ("Provide code review training"%string ∈ mitigation_strategies r
      <-> (participation < 70)%Q)).
Proof.
  intros Hc Hl Hs Hp.
  destruct (assess_risk_factors_value data cfr lead churn participation Hc Hl Hs Hp)
    as (r & Hr & _ & Hrisks & _ & Hm).
  exists r. split; [exact Hr|]. rewrite Hm, Hrisks.
  unfold spec_identified_risks, spec_triggered_risks.
  pose proof (Qltb_lt 15 cfr) as H1. pose proof (Qltb_lt 7 lead) as H2.
  pose proof (Qltb_lt 60 churn) as H3. pose proof (Qltb_lt participation 70) as H4.
  destruct (Qltb 15 cfr), (Qltb 7 lead), (Qltb 60 churn), (Qltb participation 70);
    (split;
     [split;
      [intros He; apply (f_equal size) in He; vm_compute in He; discriminate He || reflexivity
      |intros He; try discriminate He; vm_compute; reflexivity]
     |]);
    (split; [vm_compute; reflexivity|]);
    repeat split;
    try (eapply elem_of_by_decision; [vm_compute; reflexivity | eassumption]).
Qed.

Lemma mitigation_strategies_of_risks_witness :
  exists r, _assess_risk_factors (RawSummary.to_py scenario_summary) = Ok r /\
    size (mitigation_strategies r) = 2%nat /\
    "Implement more comprehensive testing"%string ∈ mitigation_strategies r.
Proof.
  destruct (mitigation_strategies_of_risks (RawSummary.to_py scenario_summary) 20 2 50 80)
    as (r & Hr & _ & Hsize & (Htest & _) & _);
    try (eexists; split; [reflexivity | apply has_value_float]).
  exists r. split; [exact Hr|]. split; [exact Hsize|]. apply Htest. reflexivity.
Defined.

(** ** Agreement of the parts of an analysis *)

(** X4.  In an analysis that succeeds, the churn flag
    risk_threshold_exceeded (risk_score > 70) implies a HIGH risk level
    with the churn message among the risks, and the flag large_changes
    (churn_rate > 150) implies a churn level that is not LOW. *)
Theorem churn_flags_agree_with_risk (data : pyval) (a : analysis) :
  analyze data = Ok a ->
  (risk_threshold_exceeded (patterns (an_churn_analysis a)) = true ->
   overall_risk_level (an_risk_assessment a) = HIGH /\
   In risk_churn (identified_risks (an_risk_assessment a))) /\
  (large_changes (patterns (an_churn_analysis a)) = true ->
   churn_level (an_churn_analysis a) <> LOW).
Proof.
  intros Ha.
  destruct (analyze_ok _ _ Ha)
    as ((tc & Htc) & (cr & Hcr) & (rs & Hrs) & (cfr & Hcfr) & (lead & Hlead)
        & (p100 & Hp100) & _).
  unfold analyze in Ha.
  destruct (analyze_churn_patterns_value data tc cr rs Htc Hcr Hrs)
    as (c & Hc & Hlevel & _ & Hpat).
  destruct (assess_risk_factors_value data cfr lead rs p100 Hcfr Hlead Hrs Hp100)
    as (r & Hr & Hrl & Hrisks & _).
  rewrite Hc, Hr in Ha. cbn [Py.bind] in Ha.
  destruct (_calculate_quality_indicators data) as [q|e]; [|discriminate].
  cbn [Py.bind] in Ha. injection Ha as <-. cbn [an_churn_analysis an_risk_assessment].
  rewrite Hpat, Hlevel, Hrl, Hrisks. cbn [risk_threshold_exceeded large_changes].
  split.
  - intros H70. apply Qltb_lt in H70.
    assert (H60 : Qltb 60 rs = true) by (apply Qltb_lt; lra).
    unfold spec_risk_level, spec_identified_risks, spec_triggered_risks. rewrite H60.
    split; [now rewrite orb_true_r|].
    destruct (Qltb 15 cfr), (Qltb 7 lead), (Qltb p100 70); cbn; tauto.
  - intros H150. apply Qltb_lt in H150. unfold spec_churn_level.
    destruct (Qltb 200 cr); [discriminate|].
    assert (H100 : Qltb 100 cr = true) by (apply Qltb_lt; lra).
    rewrite H100. discriminate.
Qed.

Lemma churn_flags_agree_with_risk_witness :
  exists a, analyze (RawSummary.to_py risky_summary) = Ok a /\
    overall_risk_level (an_risk_assessment a) = HIGH.
Proof.
  destruct (analyze (RawSummary.to_py risky_summary)) as [a|e] eqn:Ha;
    [|vm_compute in Ha; discriminate Ha].
  exists a. split; [reflexivity|].
  destruct (churn_flags_agree_with_risk _ _ Ha) as [Hflag _].
  apply Hflag.
  vm_compute in Ha. injection Ha as <-. reflexivity.
Defined.

(** ** Shape of the composite risk score *)

(** X5.  The composite risk score of a raw summary does not decrease when
    the change failure rate, the churn risk score and the lead time do not
    decrease; a lead time of 10 days or more counts as 10 days; and with
    non-negative inputs a change failure rate of 50 or more gives 100. *)
Theorem composite_risk_score_monotone (s1 s2 : RawSummary.t) :
  let cfr1 := RawSummary.change_failure_rate (RawSummary.dora s1) in
  let cfr2 := RawSummary.change_failure_rate (RawSummary.dora s2) in
  let churn1 := RawSummary.risk_score (RawSummary.quality s1) in
  let churn2 := RawSummary.risk_score (RawSummary.quality s2) in
  let lead1 := RawSummary.lead_time_days (RawSummary.dora s1) in
  let lead2 := RawSummary.lead_time_days (RawSummary.dora s2) in
  exists v1 v2 q1 q2,
    _calculate_composite_risk_score (RawSummary.to_py s1) = Ok v1 /\
    _calculate_composite_risk_score (RawSummary.to_py s2) = Ok v2 /\
    has_value v1 q1 /\ has_value v2 q2 /\
    ((cfr1 <= cfr2)%Q -> (churn1 <= churn2)%Q -> (lead1 <= lead2)%Q -> (q1 <= q2)%Q) /\
    ((cfr1 == cfr2)%Q -> (churn1 == churn2)%Q -> (10 <= lead1)%Q -> (10 <= lead2)%Q ->
     (q1 == q2)%Q) /\
    ((50 <= cfr1)%Q -> (0 <= churn1)%Q -> (0 <= lead1)%Q -> (q1 == 100)%Q).
Proof.
  cbv zeta.
  destruct (composite_risk_score_value (RawSummary.to_py s1) _ _ _
              (summary_reads_change_failure_rate s1 _) (summary_reads_risk_score s1 _)
              (summary_reads_lead_time_days s1 _)) as (v1 & Hv1 & Hq1).
  destruct (composite_risk_score_value (RawSummary.to_py s2) _ _ _
              (summary_reads_change_failure_rate s2 _) (summary_reads_risk_score s2 _)
              (summary_reads_lead_time_days s2 _)) as (v2 & Hv2 & Hq2).
  eexists v1, v2, _, _. split; [exact Hv1|]. split; [exact Hv2|].
  split; [exact Hq1|]. split; [exact Hq2|].
  unfold spec_composite_risk_score.
  split; [|split].
  - intros Hc Hs Hl. apply Q.min_le_compat_l.
    assert (Qmin 50 (RawSummary.lead_time_days (RawSummary.dora s1) * 5)
            <= Qmin 50 (RawSummary.lead_time_days (RawSummary.dora s2) * 5))%Q
      by (apply Q.min_le_compat_l; lra).
    lra.
  - intros Hc Hs Hl1 Hl2.
    rewrite (Q.min_l 50 (RawSummary.lead_time_days (RawSummary.dora s1) * 5)) by lra.
    rewrite (Q.min_l 50 (RawSummary.lead_time_days (RawSummary.dora s2) * 5)) by lra.
    now rewrite Hc, Hs.
  - intros Hc Hs Hl. apply Q.min_l.
    assert (0 <= Qmin 50 (RawSummary.lead_time_days (RawSummary.dora s1) * 5))%Q
      by (apply Q.min_glb; lra).
    lra.
Qed.

Lemma composite_risk_score_monotone_witness :
  exists v1 v2 q1 q2,
    _calculate_composite_risk_score (RawSummary.to_py idle_summary) = Ok v1 /\
    _calculate_composite_risk_score (RawSummary.to_py scenario_summary) = Ok v2 /\
    has_value v1 q1 /\ has_value v2 q2 /\ (q1 <= q2)%Q.
Proof.
  destruct (composite_risk_score_monotone idle_summary scenario_summary)
    as (v1 & v2 & q1 & q2 & H1 & H2 & V1 & V2 & Hmono & _ & _).
  exists v1, v2, q1, q2. split; [exact H1|]. split; [exact H2|].
  split; [exact V1|]. split; [exact V2|].
  apply Hmono; discriminate.
Defined.

(** ** What a run of the pipeline returns *)

Lemma parse_insights_length isspace isdigit lower_text response found :
  _parse_insights_from_response isspace isdigit lower_text response = Ok found ->
  (length found <= 5)%nat.
Proof.
  unfold _parse_insights_from_response. intros H.
  apply bind_ok_inv in H. destruct H as (l1 & _ & H).
  apply bind_ok_inv in H. destruct H as (l2 & _ & H).
  injection H as <-. rewrite length_firstn. lia.
Qed.

Section run_outcome.
Variable world : Type.
Variable str : exn -> string.
Variable generate_performance_summary :
  option Z -> option Z -> Z -> world -> result pyval * world.
Variable overall_stats : Z -> world -> result pyval * world.
Variable insight_prompt : pyval -> result text.
Variable generate_text : text -> world -> result text * world.
Variable _create_narrative :
  pyval -> analysis -> list text -> world -> result text * world.
Variable isspace : N -> bool.
Variable isdigit : N -> bool.
Variable lower_text : text -> text.

Let run :=
  process_request world str generate_performance_summary overall_stats
    insight_prompt generate_text _create_narrative isspace isdigit lower_text.

Lemma generate_insights_length raw a w found w' :
  _generate_insights world insight_prompt generate_text isspace isdigit lower_text raw a w
  = (Ok found, w') -> (length found <= 5)%nat.
Proof.
  unfold _generate_insights. destruct (insight_prompt raw) as [prompt|e]; [|discriminate].
  destruct (generate_text prompt w) as [[content|e] w1]; cbn [Py.bind]; [|discriminate].
  intros [= H _]. now apply parse_insights_length in H.
Qed.

(** Every run ends in one of five ways. *)
Lemma run_outcome_cases request team engineer period w :
  let start := initial_state request team engineer period in
  let out := (run request team engineer period w).1 in
  (exists e, out = set_error ("Data harvesting failed: " ++ str e) start) \/
  (exists data e,
     truthy data = true /\ analyze data = Raise e /\
     out = set_error ("Diff analysis failed: " ++ str e) (set_raw_data data start)) \/
  (exists data a e,
     truthy data = true /\ analyze data = Ok a /\
     out = set_error ("Insight generation failed: " ++ str e)
             (set_analysis_results a (set_raw_data data start))) \/
  (exists data, truthy data = false /\ out = set_raw_data data start) \/
  (exists data a found written,
     truthy data = true /\ analyze data = Ok a /\ (length found <= 5)%nat /\
     out = set_insights_narrative found written
             (set_analysis_results a (set_raw_data data start))).
Proof.
  cbv zeta. unfold run, process_request, DataHarvesterAgent_execute.
  set (start := initial_state request team engineer period).
  destruct (if id_given (engineer_id start) then _ else _) as [[data|e] w1].
  2:{ left. exists e. now rewrite error_set_set_error. }
  right.
  replace (error_set (set_raw_data data start)) with false by reflexivity.
  unfold DiffAnalystAgent_execute.
  replace (error_set (set_raw_data data start)) with false by reflexivity.
  cbn [orb raw_data set_raw_data].
  destruct (truthy data) eqn:Ht; cbn [negb].
  2:{ right. right. left. exists data. split; [exact Ht|].
      replace (error_set (set_raw_data data start)) with false by reflexivity.
      unfold InsightNarratorAgent_execute.
      replace (error_set (set_raw_data data start)) with false by reflexivity.
      reflexivity. }
  destruct (analyze data) as [a|e] eqn:Ha.
  2:{ left. exists data, e. rewrite error_set_set_error by discriminate. auto. }
  right.
  replace (error_set (set_analysis_results a (set_raw_data data start)))
    with false by reflexivity.
  unfold InsightNarratorAgent_execute.
  replace (error_set (set_analysis_results a (set_raw_data data start)))
    with false by reflexivity.
  cbn [analysis_results set_analysis_results raw_data set_raw_data].
  destruct (_generate_insights _ _ _ _ _ _ _ _ _) as [[found|e] w2] eqn:Hg.
  2:{ left. exists data, a, e. rewrite error_set_set_error by discriminate. auto. }
  apply generate_insights_length in Hg.
  destruct (_create_narrative data a found w2) as [[written|e] w3].
  2:{ left. exists data, a, e. rewrite error_set_set_error by discriminate. auto. }
  right. right. exists data, a, found, written.
  replace (error_set (set_insights_narrative found written
                        (set_analysis_results a (set_raw_data data start))))
    with false by reflexivity.
  auto.
Qed.

(** X6.  A run that ends with the error set exposes no partial result: the
    insights are still the empty list, the narrative and the charts are
    still empty, and the message starts with the name of the stage that
    failed; an analysis is present only when that stage is the narration,
    and raw data only when it is not the harvest. *)
Theorem run_failure_exposes_no_partial_result request team engineer period w :
  let out := (run request team engineer period w).1 in
  error out <> None ->
  insights out = Some [] /\ narrative out = [] /\ charts out = Some [] /\
  ((exists e, error out = Some ("Data harvesting failed: " ++ str e)%string) \/
   (exists e, error out = Some ("Diff analysis failed: " ++ str e)%string) \/
   (exists e, error out = Some ("Insight generation failed: " ++ str e)%string)) /\
  (analysis_results out <> None ->
   exists e, error out = Some ("Insight generation failed: " ++ str e)%string) /\
  (raw_data out <> PNone ->
   ~ exists e, error out = Some ("Data harvesting failed: " ++ str e)%string).
Proof.
  cbv zeta. intros Herr.
  destruct (run_outcome_cases request team engineer period w)
    as [(e & H) | [(data & e & Ht & Ha & H) | [(data & a & e & Ht & Ha & H)
       | [(data & Ht & H) | (data & a & found & written & Ht & Ha & Hl & H)]]]];
    cbv zeta in H; rewrite H in *; cbn in *;
    try (now elim Herr).
  - split; [reflexivity|]. split; [reflexivity|]. split; [reflexivity|].
    split; [left; eauto|]. split; intros Hn; now elim Hn.
  - split; [reflexivity|]. split; [reflexivity|]. split; [reflexivity|].
    split; [right; left; eauto|]. split; [intros Hn; now elim Hn|].
    intros _ (e' & He'). discriminate He'.
  - split; [reflexivity|]. split; [reflexivity|]. split; [reflexivity|].
    split; [right; right; eauto|]. split; [eauto|].
    intros _ (e' & He'). discriminate He'.
Qed.

(** X7.  A run that ends without error either harvested an empty payload,
    and then holds no analysis, no insight and an empty narrative, or holds
    the analysis of its raw data together with at most five insights. *)
Theorem run_success_contract request team engineer period w :
  let out := (run request team engineer period w).1 in
  error out = None ->
  charts out = Some [] /\
  ((truthy (raw_data out) = false /\ analysis_results out = None /\
    insights out = Some [] /\ narrative out = []) \/
   (truthy (raw_data out) = true /\
    exists a found,
      analyze (raw_data out) = Ok a /\ analysis_results out = Some a /\
      insights out = Some found /\ (length found <= 5)%nat)).
Proof.
  cbv zeta. intros Herr.
  destruct (run_outcome_cases request team engineer period w)
    as [(e & H) | [(data & e & Ht & Ha & H) | [(data & a & e & Ht & Ha & H)
       | [(data & Ht & H) | (data & a & found & written & Ht & Ha & Hl & H)]]]];
    cbv zeta in H; rewrite H in *; cbn in *; try discriminate Herr.
  - split; [reflexivity|]. left. auto.
  - split; [reflexivity|]. right. split; [exact Ht|]. exists a, found. auto.
Qed.
End run_outcome.

Lemma run_failure_exposes_no_partial_result_witness :
  insights (process_request nat sample_str failing_summary failing_overall_stats
              sample_prompt sample_generate_text sample_narrative
              ascii_isspace ascii_isdigit ascii_lower_text
              "daily" None None 1 0%nat).1 = Some [].
Proof.
  destruct (run_failure_exposes_no_partial_result nat sample_str failing_summary
              failing_overall_stats sample_prompt sample_generate_text sample_narrative
              ascii_isspace ascii_isdigit ascii_lower_text
              "daily"%string None None 1%Z 0%nat) as (Hi & _).
  - discriminate.
  - exact Hi.
Defined.

Lemma run_success_contract_witness :
  exists a,
    analysis_results (process_request nat sample_str scenario_storage
                        failing_overall_stats sample_prompt sample_generate_text
                        sample_narrative ascii_isspace ascii_isdigit ascii_lower_text
                        "weekly" None (Some 3%Z) 7 0%nat).1 = Some a.
Proof.
  destruct (run_success_contract nat sample_str scenario_storage
              failing_overall_stats sample_prompt sample_generate_text sample_narrative
              ascii_isspace ascii_isdigit ascii_lower_text
              "weekly"%string None (Some 3%Z) 7%Z 0%nat) as (_ & [(Hf & _) | (_ & a & found & _ & Ha & _)]).
  - reflexivity.
  - vm_compute in Hf. discriminate Hf.
  - exists a. exact Ha.
Defined.

(** ** The DORA metrics *)

Section dora_properties.
Import Metrics MetricsEngine.

Lemma sum_Q_from (xs : list Q) (k : Q) : (fold_left Qplus xs k == k + sum_Q xs)%Q.
Proof.
  unfold sum_Q. revert k. induction xs as [|x xs IH]; intros k; cbn.
  - lra.
  - rewrite IH, (IH (0 + x)%Q). lra.
Qed.

Lemma sum_Q_cons (x : Q) (xs : list Q) : (sum_Q (x :: xs) == x + sum_Q xs)%Q.
Proof. unfold sum_Q at 1. cbn. rewrite sum_Q_from. lra. Qed.

Lemma length_pos_Q {X} (xs : list X) :
  xs <> [] -> (0 < inject_Z (Z.of_nat (length xs)))%Q.
Proof.
  intros H. change 0%Q with (inject_Z 0). rewrite <- Zlt_Qlt.
  destruct xs; [contradiction | cbn [length]; lia].
Qed.





End dora_properties.

Section dora_times.
Import Metrics MetricsEngine.







Lemma recovery_times_map (found : list Incident) (acc : list Q) :
  fold_left (fun times i => times ++ [recovery_hours i]) found acc
  = acc ++ map recovery_hours found.
Proof.
  revert acc. induction found as [|i found IH]; intros acc; cbn.
  - now rewrite app_nil_r.
  - rewrite IH, <- app_assoc. reflexivity.
Qed.

(** The value of [_calculate_mttr]: the mean over the resolved incidents. *)
Lemma calculate_mttr_mean (db : tables) (now : Z) (team_id : option Z) (days : Z) :
  _calculate_mttr db now team_id days
  = mean (map recovery_hours (List.filter is_resolved (get_incidents db now days))).
Proof.
  unfold _calculate_mttr. cbv zeta.
  destruct (List.filter is_resolved (get_incidents db now days)) as [|i found]; [reflexivity|].
  rewrite recovery_times_map. reflexivity.
Qed.

Lemma sum_Q_nonnegative (xs : list Q) :
  Forall (fun x => (0 <= x)%Q) xs -> (0 <= sum_Q xs)%Q.
Proof.
  induction 1 as [|x xs Hx _ IH].
  - unfold sum_Q. cbn [fold_left]. lra.
  - rewrite sum_Q_cons. lra.
Qed.

Lemma sum_Q_positive (xs : list Q) :
  Forall (fun x => (0 <= x)%Q) xs -> Exists (fun x => (0 < x)%Q) xs -> (0 < sum_Q xs)%Q.
Proof.
  intros Hall Hex. induction Hex as [x xs Hx | x xs _ IH].
  - inversion Hall as [|? ? _ Hrest]; subst. rewrite sum_Q_cons.
    pose proof (sum_Q_nonnegative xs Hrest). lra.
  - inversion Hall as [|? ? Hx Hrest]; subst. rewrite sum_Q_cons.
    specialize (IH Hrest). lra.
Qed.

Lemma mean_nonnegative (xs : list Q) :
  Forall (fun x => (0 <= x)%Q) xs -> (0 <= mean xs)%Q.
Proof.
  intros Hall. destruct xs as [|x xs]; [cbn; lra|]. unfold mean.
  apply Qle_shift_div_l; [apply length_pos_Q; discriminate|].
  rewrite Qmult_0_l. now apply sum_Q_nonnegative.
Qed.

Lemma mean_positive_of_one (xs : list Q) :
  Forall (fun x => (0 <= x)%Q) xs -> Exists (fun x => (0 < x)%Q) xs -> (0 < mean xs)%Q.
Proof.
  intros Hall Hex. destruct xs as [|x xs]; [inversion Hex|]. unfold mean.
  apply Qlt_shift_div_l; [apply length_pos_Q; discriminate|].
  rewrite Qmult_0_l. now apply sum_Q_positive.
Qed.

Lemma recovery_hours_sign (i : Incident) (resolved : Z) :
  resolved_at i = Some resolved ->
  ((incident_created_at i <= resolved)%Z -> (0 <= recovery_hours i)%Q) /\
  ((incident_created_at i < resolved)%Z -> (0 < recovery_hours i)%Q).
Proof.
  intros Hr. unfold recovery_hours. rewrite Hr. split; intros H.
  - assert (Hq : (0 <= inject_Z (resolved - incident_created_at i))%Q).
    { change 0%Q with (inject_Z 0). rewrite <- Zle_Qle. lia. }
    apply Qle_shift_div_l; [lra|]. rewrite Qmult_0_l.
    apply Qle_shift_div_l; lra.
  - assert (Hq : (0 < inject_Z (resolved - incident_created_at i))%Q).
    { change 0%Q with (inject_Z 0). rewrite <- Zlt_Qlt. lia. }
    apply Qlt_shift_div_l; [lra|]. rewrite Qmult_0_l.
    apply Qlt_shift_div_l; lra.
Qed.

Lemma filter_resolved_twice (window : Incident -> bool) (found : list Incident) :
  List.filter is_resolved (List.filter window (List.filter is_resolved found))
  = List.filter is_resolved (List.filter window found).
Proof.
  induction found as [|i found IH]; [reflexivity|]. cbn [List.filter].
  destruct (is_resolved i) eqn:Er; cbn [List.filter].
  - destruct (window i); cbn [List.filter]; [rewrite Er|]; now rewrite IH.
  - destruct (window i); cbn [List.filter]; [rewrite Er|]; exact IH.
Qed.

(** X11.  For a period whose window exists, the mean time to recovery
    looks at resolved incidents only: it is 0 when the window has no
    resolved incident, and it is the same with the unresolved incidents
    taken out of the storage.  When no incident of the window is resolved
    before it was created it is not negative, and it is positive as soon as
    one of them is resolved after it was created. *)
Theorem mttr_of_resolved_incidents (db : tables) (now : Z) (team_id : option Z)
    (days : Z) :
  window_exists now days = true ->
  let found := get_incidents db now days in
  let mttr := _calculate_mttr db now team_id days in
  (List.filter is_resolved found = [] -> mttr = 0%Q) /\
  _calculate_mttr
    {| base := base db; teams := teams db; pull_requests := pull_requests db;
       incidents := List.filter is_resolved (incidents db) |} now team_id days = mttr /\
  ((forall i resolved,
      In i found -> resolved_at i = Some resolved ->
      (incident_created_at i <= resolved)%Z) ->
   (0 <= mttr)%Q /\
   ((exists i resolved,
       In i found /\ resolved_at i = Some resolved /\
       (incident_created_at i < resolved)%Z) -> (0 < mttr)%Q)).
Proof.
  intros _. cbv zeta. rewrite !calculate_mttr_mean.
  set (found := get_incidents db now days).
  split; [intros ->; reflexivity|]. split.
  { unfold get_incidents. cbn [incidents]. now rewrite filter_resolved_twice. }
  intros Hsane.
  assert (Hall : Forall (fun x => (0 <= x)%Q)
                   (map recovery_hours (List.filter is_resolved found))).
  { apply List.Forall_forall. intros x Hx. apply in_map_iff in Hx as (i & <- & Hi).
    apply filter_In in Hi as [Hi Hres]. unfold is_resolved in Hres.
    destruct (resolved_at i) as [resolved|] eqn:Er; [|discriminate].
    apply (recovery_hours_sign i resolved Er). now apply Hsane. }
  split; [now apply mean_nonnegative|].
  intros (i & resolved & Hi & Hr & Hlt).
  apply mean_positive_of_one; [exact Hall|].
  apply List.Exists_exists. exists (recovery_hours i). split.
  - apply in_map. apply filter_In. split; [exact Hi|]. unfold is_resolved. now rewrite Hr.
  - now apply (recovery_hours_sign i resolved Hr).
Qed.
End dora_times.

(** ** Churn and the totals of a summary *)

Section churn_properties.
Import Metrics MetricsEngine.

Lemma sum_Z_from (xs : list Z) (k : Z) : fold_left Z.add xs k = (k + sum_Z xs)%Z.
Proof.
  unfold sum_Z. revert k. induction xs as [|x xs IH]; intros k; cbn [fold_left].
  - lia.
  - rewrite (IH (k + x)%Z), (IH (0 + x)%Z). lia.
Qed.

Lemma sum_Z_cons (x : Z) (xs : list Z) : sum_Z (x :: xs) = (x + sum_Z xs)%Z.
Proof. unfold sum_Z at 1. cbn. now rewrite sum_Z_from. Qed.

Lemma sum_Z_bounds {X} (f : X -> Z) (xs : list X) (lo hi : Z) :
  Forall (fun x => lo <= f x <= hi)%Z xs ->
  (Z.of_nat (length xs) * lo <= sum_Z (map f xs) <= Z.of_nat (length xs) * hi)%Z.
Proof.
  induction 1 as [|x xs Hx _ IH].
  - cbn. lia.
  - cbn [map length]. rewrite sum_Z_cons. lia.
Qed.

Lemma sum_Z_lower {X} (f : X -> Z) (xs : list X) (lo : Z) :
  Forall (fun x => lo <= f x)%Z xs ->
  (Z.of_nat (length xs) * lo <= sum_Z (map f xs))%Z.
Proof.
  induction 1 as [|x xs Hx _ IH].
  - cbn. lia.
  - cbn [map length]. rewrite sum_Z_cons. lia.
Qed.

Lemma filter_none {X} (p : X -> bool) (xs : list X) :
  Forall (fun x => p x = false) xs -> List.filter p xs = [].
Proof. induction 1 as [|x xs Hx _ IH]; cbn; [reflexivity | now rewrite Hx]. Qed.

Lemma filter_all {X} (p : X -> bool) (xs : list X) :
  Forall (fun x => p x = true) xs -> List.filter p xs = xs.
Proof. induction 1 as [|x xs Hx _ IH]; cbn; [reflexivity | now rewrite Hx, IH]. Qed.

(** The score before the cap, for a non-empty list. *)
Lemma churn_risk_score_unfold (cs : list Commit) :
  cs <> [] ->
  (_calculate_churn_risk_score cs ==
   Qmin 100
     (inject_Z (sum_Z (map churn_of cs)) / inject_Z (Z.of_nat (length cs)) / 10
      + inject_Z (Z.of_nat (length (List.filter (fun c => (300 <? churn_of c)%Z) cs)))
        / inject_Z (Z.of_nat (length cs)) * 50))%Q.
Proof.
  intros Hne. destruct cs as [|c cs]; [contradiction|].
  unfold _calculate_churn_risk_score. cbv zeta.
  rewrite count_large_from, Z.add_0_l. apply py_min_100.
Qed.

(** The range of the score, by the size of the commits. *)
Lemma churn_risk_score_bounds (cs : list Commit) :
  let score := _calculate_churn_risk_score cs in
  (score <= 100)%Q /\
  (Forall (fun c => 0 <= churn_of c)%Z cs -> (0 <= score)%Q) /\
  (Forall (fun c => 0 <= churn_of c <= 300)%Z cs -> (score <= 30)%Q) /\
  (cs <> [] -> Forall (fun c => 300 < churn_of c)%Z cs -> (80 < score)%Q).
Proof.
  cbv zeta. destruct cs as [|c0 cs0] eqn:Ecs.
  - cbn. repeat split; try lra. intros H. now elim H.
  - rewrite <- Ecs. assert (Hne : cs <> []) by (rewrite Ecs; discriminate).
    clear Ecs. rewrite (churn_risk_score_unfold cs Hne).
    pose proof (length_pos_Q cs Hne) as Hn.
    set (n := inject_Z (Z.of_nat (length cs))) in *.
    set (large := List.filter (fun c => (300 <? churn_of c)%Z) cs).
    assert (Hl0 : (0 <= inject_Z (Z.of_nat (length large)) / n)%Q).
    { apply Qle_shift_div_l; [exact Hn|]. rewrite Qmult_0_l.
      change 0%Q with (inject_Z 0). rewrite <- Zle_Qle. lia. }
    split; [apply Q.le_min_l|]. split; [|split].
    + intros Hall. apply Q.min_glb; [lra|].
      pose proof (sum_Z_lower churn_of cs 0 Hall) as Hs.
      assert (Ha : (0 <= inject_Z (sum_Z (map churn_of cs)) / n)%Q).
      { apply Qle_shift_div_l; [exact Hn|]. rewrite Qmult_0_l.
        change 0%Q with (inject_Z 0). rewrite <- Zle_Qle. lia. }
      assert (Ha10 : (0 <= inject_Z (sum_Z (map churn_of cs)) / n / 10)%Q)
        by (apply Qle_shift_div_l; lra).
      lra.
    + intros Hall. pose proof (sum_Z_bounds churn_of cs 0 300 Hall) as [_ Hs].
      assert (Hnone : large = []).
      { apply filter_none. eapply List.Forall_impl; [|exact Hall].
        intros c Hc. apply Z.ltb_ge. cbv beta in Hc. lia. }
      rewrite Hnone. cbn [length]. change (inject_Z (Z.of_nat 0)) with 0%Q.
      assert (Ha : (inject_Z (sum_Z (map churn_of cs)) / n <= 300)%Q).
      { apply Qle_shift_div_r; [exact Hn|]. unfold n.
        change 300%Q with (inject_Z 300). rewrite <- inject_Z_mult, <- Zle_Qle. lia. }
      assert (Ha10 : (inject_Z (sum_Z (map churn_of cs)) / n / 10 <= 30)%Q)
        by (apply Qle_shift_div_r; lra).
      apply Qle_trans with (inject_Z (sum_Z (map churn_of cs)) / n / 10 + 0 / n * 50)%Q;
        [apply Q.le_min_r|]. unfold Qdiv at 3. lra.
    + intros _ Hall.
      assert (Hall' : Forall (fun c => 301 <= churn_of c)%Z cs)
        by (eapply List.Forall_impl; [|exact Hall]; intros c Hc; cbv beta in Hc; lia).
      pose proof (sum_Z_lower churn_of cs 301 Hall') as Hs.
      assert (Hfull : large = cs).
      { apply filter_all. eapply List.Forall_impl; [|exact Hall].
        intros c Hc. now apply Z.ltb_lt. }
      rewrite Hfull. fold n.
      assert (Hone : (n / n == 1)%Q) by (field; lra).
      assert (Ha : (301 <= inject_Z (sum_Z (map churn_of cs)) / n)%Q).
      { apply Qle_shift_div_l; [exact Hn|]. unfold n.
        change 301%Q with (inject_Z 301). rewrite <- inject_Z_mult, <- Zle_Qle. lia. }
      assert (Ha10 : (30 < inject_Z (sum_Z (map churn_of cs)) / n / 10)%Q)
        by (apply Qlt_shift_div_l; lra).
      apply Q.min_glb_lt; [lra|]. rewrite Hone. lra.
Qed.

(** X12.  The churn risk score is never above 100; it is not negative when
    no commit has a negative line count; it is at most 30 when no commit
    changes more than 300 lines, and above 80 when every commit does. *)
Theorem churn_risk_score_range (cs : list Commit) :
  let score := _calculate_churn_risk_score cs in
  (score <= 100)%Q /\
  (Forall (fun c => 0 <= churn_of c)%Z cs -> (0 <= score)%Q) /\
  (Forall (fun c => 0 <= churn_of c <= 300)%Z cs -> (score <= 30)%Q) /\
  (cs <> [] -> Forall (fun c => 300 < churn_of c)%Z cs -> (80 < score)%Q).
Proof. exact (churn_risk_score_bounds cs). Qed.

End churn_properties.

(** ** The analysis of a generated summary *)

Section generated_summary.
Import Metrics MetricsEngine.

Lemma summary_reads_total_commits (s : RawSummary.t) dflt :
  reads (RawSummary.to_py s) "basic_stats" "total_commits" dflt
    (inject_Z (RawSummary.total_commits (RawSummary.basic s))).
Proof. eexists. split; [reflexivity | apply has_value_int]. Qed.

Lemma summary_reads_period_days (s : RawSummary.t) dflt :
  reads_top (RawSummary.to_py s) "period_days" dflt (inject_Z (RawSummary.period_days s)).
Proof. eexists. split; [reflexivity | apply has_value_int]. Qed.

Lemma reads_top_unique data key dflt q q' :
  reads_top data key dflt q -> reads_top data key dflt q' -> (q == q')%Q.
Proof.
  intros (v & Hv & Vq) (v' & Hv' & Vq'). rewrite Hv in Hv'. injection Hv' as <-.
  now apply has_value_unique with v.
Qed.

Lemma summary_analyzable (s : RawSummary.t) :
  RawSummary.period_days s <> 0%Z -> analyzable (RawSummary.to_py s).
Proof.
  intros Hd. unfold analyzable.
  split; [eexists; apply summary_reads_total_churn|].
  split; [eexists; apply summary_reads_churn_rate|].
  split; [eexists; apply summary_reads_risk_score|].
  split; [eexists; apply summary_reads_change_failure_rate|].
  split; [eexists; apply summary_reads_lead_time_days|].
  split; [eexists; apply summary_reads_review_participation_rate|].
  split; [eexists; apply summary_reads_review_participation_rate|].
  split; [eexists; apply summary_reads_total_commits|].
  eexists. split; [apply summary_reads_period_days|].
  change 0%Q with (inject_Z 0). rewrite inject_Z_injective. exact Hd.
Qed.

(** What an analysis of a summary holds, in terms of the summary's fields. *)
Lemma analyze_summary (s : RawSummary.t) (a : analysis) :
  analyze (RawSummary.to_py s) = Ok a ->
  let cfr := RawSummary.change_failure_rate (RawSummary.dora s) in
  let lead := RawSummary.lead_time_days (RawSummary.dora s) in
  let churn := RawSummary.risk_score (RawSummary.quality s) in
  let participation := RawSummary.review_participation_rate (RawSummary.review s) in
  let rate := RawSummary.churn_rate (RawSummary.quality s) in
  RawSummary.period_days s <> 0%Z /\
  churn_level (an_churn_analysis a) = spec_churn_level rate /\
  risk_threshold_exceeded (patterns (an_churn_analysis a)) = Qltb 70 churn /\
  large_changes (patterns (an_churn_analysis a)) = Qltb 150 rate /\
  overall_risk_level (an_risk_assessment a) = spec_risk_level cfr lead churn participation /\
  identified_risks (an_risk_assessment a)
  = spec_identified_risks cfr lead churn participation /\
  has_value (collaboration_score (an_quality_indicators a)) (round_digits participation 1).
Proof.
  intros Ha. cbv zeta.
  destruct (analyze_ok _ _ Ha) as (_ & _ & _ & _ & _ & _ & _ & _ & (d & Hd & Hnz)).
  pose proof (reads_top_unique _ _ _ _ _ Hd (summary_reads_period_days s _)) as Hdq.
  assert (Hdays : RawSummary.period_days s <> 0%Z).
  { intros Hz. apply Hnz. rewrite Hdq, Hz. reflexivity. }
  split; [exact Hdays|].
  unfold analyze in Ha.
  destruct (analyze_churn_patterns_value (RawSummary.to_py s) _ _ _
              (summary_reads_total_churn s _) (summary_reads_churn_rate s _)
              (summary_reads_risk_score s _)) as (c & Hc & Hlevel & _ & Hpat).
  destruct (assess_risk_factors_value (RawSummary.to_py s) _ _ _ _
              (summary_reads_change_failure_rate s _) (summary_reads_lead_time_days s _)
              (summary_reads_risk_score s _) (summary_reads_review_participation_rate s _))
    as (r & Hr & Hrl & Hrisks & _).
  destruct (calculate_quality_indicators_value (RawSummary.to_py s) _ _ _ _
              (summary_reads_total_commits s _) (summary_reads_period_days s _)
              (fun H => Hnz (Qeq_trans _ _ _ Hdq H))
              (summary_reads_change_failure_rate s _)
              (summary_reads_review_participation_rate s _))
    as (q & Hq & _ & _ & Hcollab & _).
  rewrite Hc, Hr, Hq in Ha. cbn [Py.bind] in Ha. injection Ha as <-.
  cbn [an_churn_analysis an_risk_assessment an_quality_indicators].
  rewrite Hpat. cbn [risk_threshold_exceeded large_changes].
  repeat split; assumption || reflexivity.
Qed.

Lemma analyze_summary_zero_period (s : RawSummary.t) :
  RawSummary.period_days s = 0%Z -> analyze (RawSummary.to_py s) = Raise ZeroDivisionError.
Proof.
  intros Hz. unfold analyze.
  destruct (analyze_churn_patterns_value (RawSummary.to_py s) _ _ _
              (summary_reads_total_churn s _) (summary_reads_churn_rate s _)
              (summary_reads_risk_score s _)) as (c & -> & _).
  destruct (assess_risk_factors_value (RawSummary.to_py s) _ _ _ _
              (summary_reads_change_failure_rate s _) (summary_reads_lead_time_days s _)
              (summary_reads_risk_score s _) (summary_reads_review_participation_rate s _))
    as (r & -> & _).
  cbn [Py.bind]. unfold _calculate_quality_indicators.
  change (get (RawSummary.to_py s) "basic_stats" empty_dict)
    with (Ok (RawSummary.basic_dict (RawSummary.basic s))).
  change (get (RawSummary.to_py s) "dora_metrics" empty_dict)
    with (Ok (RawSummary.dora_dict (RawSummary.dora s))).
  change (get (RawSummary.to_py s) "review_metrics" empty_dict)
    with (Ok (RawSummary.review_dict (RawSummary.review s))).
  cbn [Py.bind].
  change (get (RawSummary.basic_dict (RawSummary.basic s)) "total_commits" (PInt 0))
    with (Ok (PInt (RawSummary.total_commits (RawSummary.basic s)))).
  change (get (RawSummary.to_py s) "period_days" (PInt 7))
    with (Ok (PInt (RawSummary.period_days s))).
  cbn [Py.bind]. rewrite Hz. reflexivity.
Qed.

(** X14.  A summary produced by the metrics engine is always analysed when
    the period is not zero, whatever the storage holds, and a period of
    zero days always fails the analysis with a division by zero, even when
    no commit is counted. *)
Theorem generated_summary_is_analyzed (db : tables) (now : Z)
    (engineer_id team_id : option Z) (days : Z) :
  let data := generate_performance_summary db now engineer_id team_id days in
  (days <> 0%Z -> exists a, analyze data = Ok a) /\
  (days = 0%Z -> analyze data = Raise ZeroDivisionError) /\
  (analyzable data <-> days <> 0%Z).
Proof.
  cbv zeta. unfold generate_performance_summary.
  set (s := performance_summary db now engineer_id team_id days).
  assert (Hp : RawSummary.period_days s = days) by reflexivity.
  split; [|split].
  - intros Hd. apply analyze_value, summary_analyzable. now rewrite Hp.
  - intros Hd. apply analyze_summary_zero_period. now rewrite Hp.
  - split.
    + intros Hok Hd. destruct (analyze_value _ Hok) as (a & Ha).
      rewrite analyze_summary_zero_period in Ha by (now rewrite Hp). discriminate.
    + intros Hd. apply summary_analyzable. now rewrite Hp.
Qed.

(** X15.  Review participation decides a risk of its own.  When the scope
    has no pull request in the window the analysis of the generated summary
    reports low review participation, a risk level that is not LOW and a
    collaboration score of 0; with at least one pull request it never
    reports low review participation and the collaboration score is 85. *)
Theorem review_participation_drives_risk (db : tables) (now : Z)
    (engineer_id team_id : option Z) (days : Z) (a : analysis) :
  analyze (generate_performance_summary db now engineer_id team_id days) = Ok a ->
  let prs := pull_requests_in_scope db now team_id engineer_id days in
  (prs = [] ->
   In risk_review (identified_risks (an_risk_assessment a)) /\
   overall_risk_level (an_risk_assessment a) <> LOW /\
   has_value (collaboration_score (an_quality_indicators a)) 0) /\
  (prs <> [] ->
   ~ In risk_review (identified_risks (an_risk_assessment a)) /\
   has_value (collaboration_score (an_quality_indicators a)) 85).
Proof.
  intros Ha. cbv zeta. unfold generate_performance_summary in Ha.
  destruct (analyze_summary _ _ Ha) as (_ & _ & _ & _ & Hlevel & Hrisks & Hcollab).
  rewrite Hlevel, Hrisks. clear Hlevel Hrisks Ha.
  revert Hcollab. unfold performance_summary. cbv zeta.
  cbn [RawSummary.review RawSummary.review_participation_rate RawSummary.dora
       RawSummary.quality RawSummary.change_failure_rate RawSummary.lead_time_days
       RawSummary.risk_score].
  unfold calculate_review_metrics.
  generalize (change_failure_rate (calculate_dora_metrics db now team_id engineer_id days))
    as cfr.
  generalize (lead_time_days (calculate_dora_metrics db now team_id engineer_id days))
    as lead.
  generalize (risk_score
                (calculate_code_churn_metrics (base db) now engineer_id team_id days))
    as churn.
  intros churn lead cfr.
  destruct (pull_requests_in_scope db now team_id engineer_id days) as [|p prs];
    cbn [review_participation_rate]; intros Hcollab.
  - split; [|intros H; now elim H]. intros _.
    unfold spec_identified_risks, spec_triggered_risks, spec_risk_level.
    change (Qltb 0 70) with true. rewrite orb_true_r.
    split; [|split].
    + destruct (Qltb 15 cfr), (Qltb 7 lead), (Qltb 60 churn); cbn; tauto.
    + destruct (Qltb 15 cfr || Qltb 60 churn); discriminate.
    + destruct Hcollab as (q & Hq & Hv). exists q. split; [exact Hq|].
      rewrite Hv. apply (round_digits_int 0 1).
  - split; [intros H; discriminate H|]. intros _.
    unfold spec_identified_risks, spec_triggered_risks.
    change (Qltb 85 70) with false.
    split.
    + unfold risk_review, risk_failure_rate, risk_lead_time, risk_churn, risk_none.
      destruct (Qltb 15 cfr), (Qltb 7 lead), (Qltb 60 churn); cbn;
        intros H; repeat (destruct H as [H | H]; [discriminate H|]); exact H.
    + destruct Hcollab as (q & Hq & Hv). exists q. split; [exact Hq|].
      rewrite Hv. apply (round_digits_int 85 1).
Qed.

(** X16.  The size of the commits alone can decide the risk level.  In the
    analysis of a generated summary whose scope has at least one commit, if
    every commit changes more than 300 lines then the risk level is HIGH,
    the churn risk is reported, the churn level is HIGH and both churn
    flags are set; and if every commit changes between 0 and 300 lines the
    churn risk is not reported and risk_threshold_exceeded is not set. *)
Theorem commit_size_drives_risk (db : tables) (now : Z)
    (engineer_id team_id : option Z) (days : Z) (a : analysis) :
  analyze (generate_performance_summary db now engineer_id team_id days) = Ok a ->
  let cs := commits_in_scope (base db) now team_id engineer_id days in
  (cs <> [] -> Forall (fun c => 300 < churn_of c)%Z cs ->
   overall_risk_level (an_risk_assessment a) = HIGH /\
   In risk_churn (identified_risks (an_risk_assessment a)) /\
   churn_level (an_churn_analysis a) = HIGH /\
   risk_threshold_exceeded (patterns (an_churn_analysis a)) = true /\
   large_changes (patterns (an_churn_analysis a)) = true) /\
  (Forall (fun c => 0 <= churn_of c <= 300)%Z cs ->
   ~ In risk_churn (identified_risks (an_risk_assessment a)) /\
   risk_threshold_exceeded (patterns (an_churn_analysis a)) = false).
Proof.
  intros Ha. cbv zeta. unfold generate_performance_summary in Ha.
  destruct (analyze_summary _ _ Ha) as (_ & Hcl & Hflag & Hlarge & Hlevel & Hrisks & _).
  rewrite Hcl, Hflag, Hlarge, Hlevel, Hrisks. clear Hcl Hflag Hlarge Hlevel Hrisks Ha.
  unfold performance_summary. cbv zeta.
  cbn [RawSummary.review RawSummary.review_participation_rate RawSummary.dora
       RawSummary.quality RawSummary.change_failure_rate RawSummary.lead_time_days
       RawSummary.risk_score RawSummary.churn_rate].
  unfold calculate_code_churn_metrics.
  generalize (change_failure_rate (calculate_dora_metrics db now team_id engineer_id days))
    as cfr.
  generalize (lead_time_days (calculate_dora_metrics db now team_id engineer_id days))
    as lead.
  generalize (review_participation_rate
                (calculate_review_metrics db now engineer_id team_id days))
    as participation.
  generalize (commits_in_scope (base db) now team_id engineer_id days) as cs.
  intros cs participation lead cfr.
  unfold churn_metrics_of. cbv zeta. cbn [risk_score churn_rate].
  destruct (churn_risk_score_bounds cs) as (_ & _ & Hsmall & Hbig).
  split.
  - intros Hne Hall. specialize (Hbig Hne Hall).
    assert (H60 : Qltb 60 (_calculate_churn_risk_score cs) = true)
      by (apply Qltb_lt; lra).
    assert (H70 : Qltb 70 (_calculate_churn_risk_score cs) = true)
      by (apply Qltb_lt; lra).
    assert (Hrate : (300 < match cs with
                           | [] => 0
                           | _ :: _ => inject_Z (sum_Z (map churn_of cs))
                                       / inject_Z (Z.of_nat (length cs))
                           end)%Q).
    { destruct cs as [|c0 cs0] eqn:Ecs; [contradiction|]. rewrite <- Ecs in *.
      pose proof (length_pos_Q cs Hne) as Hn.
      assert (Hall' : Forall (fun c => 301 <= churn_of c)%Z cs)
        by (eapply List.Forall_impl; [|exact Hall]; intros c Hc; cbv beta in Hc; lia).
      pose proof (sum_Z_lower churn_of cs 301 Hall') as Hs.
      apply Qlt_shift_div_l; [exact Hn|].
      apply Qlt_le_trans with (301 * inject_Z (Z.of_nat (length cs)))%Q; [lra|].
      change 301%Q with (inject_Z 301). rewrite <- inject_Z_mult, <- Zle_Qle. lia. }
    unfold spec_risk_level, spec_identified_risks, spec_triggered_risks, spec_churn_level.
    rewrite H60, H70, orb_true_r.
    assert (H200 : Qltb 200 (match cs with
                             | [] => 0
                             | _ :: _ => inject_Z (sum_Z (map churn_of cs))
                                         / inject_Z (Z.of_nat (length cs))
                             end)%Q = true) by (apply Qltb_lt; lra).
    assert (H150 : Qltb 150 (match cs with
                             | [] => 0
                             | _ :: _ => inject_Z (sum_Z (map churn_of cs))
                                         / inject_Z (Z.of_nat (length cs))
                             end)%Q = true) by (apply Qltb_lt; lra).
    rewrite H200, H150.
    split; [reflexivity|]. split; [|repeat split; reflexivity].
    destruct (Qltb 15 cfr), (Qltb 7 lead), (Qltb participation 70); cbn; tauto.
  - intros Hall. specialize (Hsmall Hall).
    assert (H60 : Qltb 60 (_calculate_churn_risk_score cs) = false).
    { destruct (Qltb 60 (_calculate_churn_risk_score cs)) eqn:E; [|reflexivity].
      apply Qltb_lt in E. lra. }
    assert (H70 : Qltb 70 (_calculate_churn_risk_score cs) = false).
    { destruct (Qltb 70 (_calculate_churn_risk_score cs)) eqn:E; [|reflexivity].
      apply Qltb_lt in E. lra. }
    unfold spec_identified_risks, spec_triggered_risks. rewrite H60, H70.
    split; [|reflexivity].
    unfold risk_review, risk_failure_rate, risk_lead_time, risk_churn, risk_none.
    destruct (Qltb 15 cfr), (Qltb 7 lead), (Qltb participation 70); cbn;
      intros H; repeat (destruct H as [H | H]; [discriminate H|]); exact H.
Qed.
End generated_summary.

(** ** Aggregation over the teams *)

Section aggregation_properties.
Import Metrics MetricsEngine Aggregation.

Lemma fold_team_summaries {X} (g : X -> RawSummary.t) (ts : list X) (z : RawSummary.t) :
  fold_left (fun aggregated team => add_summary aggregated (g team)) ts z
  = fold_left add_summary (map g ts) z.
Proof. revert z. induction ts as [|t ts IH]; intros z; cbn; [reflexivity | apply IH]. Qed.

Lemma fold_add_Z (f : RawSummary.t -> Z)
    (Hf : forall a b, f (add_summary a b) = (f a + f b)%Z)
    (ss : list RawSummary.t) (acc : RawSummary.t) :
  f (fold_left add_summary ss acc) = (f acc + sum_Z (map f ss))%Z.
Proof.
  revert acc. induction ss as [|s ss IH]; intros acc; cbn [fold_left map].
  - unfold sum_Z. cbn. lia.
  - rewrite IH, Hf, sum_Z_cons. lia.
Qed.

Lemma fold_add_Q (f : RawSummary.t -> Q)
    (Hf : forall a b, (f (add_summary a b) == f a + f b)%Q)
    (ss : list RawSummary.t) (acc : RawSummary.t) :
  (f (fold_left add_summary ss acc) == f acc + sum_Q (map f ss))%Q.
Proof.
  revert acc. induction ss as [|s ss IH]; intros acc; cbn [fold_left map].
  - unfold sum_Q. cbn [fold_left]. lra.
  - rewrite IH, Hf, sum_Q_cons. lra.
Qed.

Lemma fold_period_days (ss : list RawSummary.t) (acc : RawSummary.t) :
  RawSummary.period_days (fold_left add_summary ss acc) = RawSummary.period_days acc.
Proof. revert acc. induction ss as [|s ss IH]; intros acc; cbn; [reflexivity | now rewrite IH]. Qed.

Lemma mean_sum (xs : list Q) :
  xs <> [] -> (mean xs == sum_Q xs / inject_Z (Z.of_nat (length xs)))%Q.
Proof. destruct xs; [contradiction | reflexivity]. Qed.

(** The averaged value of a rate: the mean over the teams. *)
Lemma averaged_rate (f : RawSummary.t -> Q)
    (Hf : forall a b, (f (add_summary a b) == f a + f b)%Q)
    (ss : list RawSummary.t) (days : Z) :
  ss <> [] -> f (zero_summary days) = 0%Q ->
  (f (fold_left add_summary ss (zero_summary days)) / inject_Z (Z.of_nat (length ss))
   == mean (map f ss))%Q.
Proof.
  intros Hne Hz. rewrite mean_sum by (intros H; apply map_eq_nil in H; contradiction).
  rewrite (fold_add_Q f Hf), Hz, length_map. 
  pose proof (length_pos_Q ss Hne). field. lra.
Qed.

(** X17.  Over a non-empty list of teams and for a period whose window
    exists, the aggregated summary keeps the period, holds for every count the sum of the counts of the teams and
    for every rate the unweighted mean of the rates of the teams, and
    reports no high-risk file. *)
Theorem aggregated_sums_and_means (db : tables) (now : Z) (teams : list Team) (days : Z) :
  teams <> [] -> window_exists now days = true ->
  let total := aggregate_teams db now teams days in
  let per_team := map (team_summary db now days) teams in
  let sum_of f := sum_Z (map (fun s => f (RawSummary.basic s)) per_team) in
  let mean_of f := mean (map f per_team) in
  RawSummary.period_days total = days /\
  RawSummary.total_commits (RawSummary.basic total) = sum_of RawSummary.total_commits /\
  RawSummary.total_pull_requests (RawSummary.basic total)
  = sum_of RawSummary.total_pull_requests /\
  RawSummary.lines_added (RawSummary.basic total) = sum_of RawSummary.lines_added /\
  RawSummary.lines_deleted (RawSummary.basic total) = sum_of RawSummary.lines_deleted /\
  RawSummary.files_changed (RawSummary.basic total) = sum_of RawSummary.files_changed /\
  RawSummary.high_risk_files (RawSummary.quality total) = 0%Z /\
  (RawSummary.lead_time_days (RawSummary.dora total)
   == mean_of (fun s => RawSummary.lead_time_days (RawSummary.dora s)))%Q /\
  (RawSummary.churn_rate (RawSummary.quality total)
   == mean_of (fun s => RawSummary.churn_rate (RawSummary.quality s)))%Q /\
  (RawSummary.risk_score (RawSummary.quality total)
   == mean_of (fun s => RawSummary.risk_score (RawSummary.quality s)))%Q /\
  (RawSummary.review_participation_rate (RawSummary.review total)
   == mean_of (fun s => RawSummary.review_participation_rate (RawSummary.review s)))%Q.
Proof.
  intros Hne _. cbv zeta. unfold aggregate_teams. cbv zeta.
  rewrite fold_team_summaries.
  assert (Hcount : (0 <? Z.of_nat (length teams))%Z = true).
  { apply Z.ltb_lt. destruct teams; [contradiction | cbn [length]; lia]. }
  rewrite Hcount.
  set (per_team := map (team_summary db now days) teams).
  assert (Hlen : length teams = length per_team) by (unfold per_team; now rewrite length_map).
  assert (Hne' : per_team <> []).
  { unfold per_team. intros H. apply map_eq_nil in H. contradiction. }
  rewrite Hlen.
  unfold divide_averages. cbv zeta.
  cbn [RawSummary.period_days RawSummary.basic RawSummary.quality RawSummary.dora
       RawSummary.review RawSummary.total_churn RawSummary.high_risk_files
       RawSummary.lead_time_days RawSummary.churn_rate RawSummary.risk_score
       RawSummary.review_participation_rate].
  split; [now rewrite fold_period_days|].
  split; [now rewrite (fold_add_Z (fun s => RawSummary.total_commits (RawSummary.basic s)))|].
  split;
    [now rewrite (fold_add_Z (fun s => RawSummary.total_pull_requests (RawSummary.basic s)))|].
  split; [now rewrite (fold_add_Z (fun s => RawSummary.lines_added (RawSummary.basic s)))|].
  split; [now rewrite (fold_add_Z (fun s => RawSummary.lines_deleted (RawSummary.basic s)))|].
  split; [now rewrite (fold_add_Z (fun s => RawSummary.files_changed (RawSummary.basic s)))|].
  split.
  { rewrite (fold_add_Z (fun s => RawSummary.high_risk_files (RawSummary.quality s)))
      by reflexivity.
    cbn [zero_summary RawSummary.quality RawSummary.high_risk_files].
    unfold per_team. rewrite map_map. cbn [team_summary].
    clear. induction teams as [|t ts IH]; [reflexivity|].
    cbn [map]. rewrite sum_Z_cons. rewrite Z.add_0_l in IH. rewrite IH. reflexivity. }
  split;
    [apply (averaged_rate (fun s => RawSummary.lead_time_days (RawSummary.dora s)));
     [reflexivity | exact Hne' | reflexivity]|].
  split;
    [apply (averaged_rate (fun s => RawSummary.churn_rate (RawSummary.quality s)));
     [reflexivity | exact Hne' | reflexivity]|].
  split;
    [apply (averaged_rate (fun s => RawSummary.risk_score (RawSummary.quality s)));
     [reflexivity | exact Hne' | reflexivity]|].
  apply (averaged_rate
           (fun s => RawSummary.review_participation_rate (RawSummary.review s)));
    [reflexivity | exact Hne' | reflexivity].
Qed.
End aggregation_properties.

Section aggregation_consequences.
Import Metrics MetricsEngine Aggregation.



Lemma risk_review_reported (cfr lead churn participation : Q) :
  In risk_review (spec_identified_risks cfr lead churn participation) <->
  Qltb participation 70 = true.
Proof.
  unfold spec_identified_risks, spec_triggered_risks.
  unfold risk_review, risk_failure_rate, risk_lead_time, risk_churn, risk_none.
  destruct (Qltb 15 cfr), (Qltb 7 lead), (Qltb 60 churn), (Qltb participation 70); cbn;
    (split; [intros H; repeat (destruct H as [H | H]; [discriminate H|]);
             solve [reflexivity | destruct H]
            | intros H; solve [discriminate H | tauto]]).
Qed.

Lemma participation_of_teams (db : tables) (now : Z) (teams : list Team) (days : Z) :
  (sum_Q (map (fun team => RawSummary.review_participation_rate
                             (RawSummary.review (team_summary db now days team))) teams)
   == 85 * inject_Z (Z.of_nat (length (teams_with_pull_requests db now teams days))))%Q.
Proof.
  induction teams as [|t ts IH].
  - unfold sum_Q, teams_with_pull_requests. cbn [map fold_left List.filter length].
    change (inject_Z (Z.of_nat 0)) with 0%Q. lra.
  - cbn [map]. rewrite sum_Q_cons, IH. unfold teams_with_pull_requests.
    cbn [List.filter]. unfold team_summary at 1, performance_summary. cbv zeta.
    cbn [RawSummary.review RawSummary.review_participation_rate].
    unfold calculate_review_metrics.
    destruct (pull_requests_in_scope db now (Some (team_pk t)) None days);
      cbn [review_participation_rate length].
    + lra.
    + rewrite Nat2Z.inj_succ. unfold Z.succ. rewrite inject_Z_plus.
      change (inject_Z 1) with 1%Q. lra.
Qed.

(** X19.  The organization-wide review participation is 85 times the share
    of the teams that have a pull request in the window, so the analysis of
    the aggregated summary reports low review participation exactly when
    fewer than 14 in 17 teams have one. *)
Theorem aggregated_review_participation (db : tables) (now : Z) (teams : list Team)
    (days : Z) (a : analysis) :
  teams <> [] ->
  analyze (RawSummary.to_py (aggregate_teams db now teams days)) = Ok a ->
  let reviewed := Z.of_nat (length (teams_with_pull_requests db now teams days)) in
  let team_count := Z.of_nat (length teams) in
  (RawSummary.review_participation_rate
     (RawSummary.review (aggregate_teams db now teams days))
   == 85 * inject_Z reviewed / inject_Z team_count)%Q /\
  (In risk_review (identified_risks (an_risk_assessment a)) <->
   (17 * reviewed < 14 * team_count)%Z).
Proof.
  intros Hne Ha. cbv zeta.
  destruct (analyze_summary _ _ Ha) as (_ & _ & _ & _ & _ & Hrisks & _).
  rewrite Hrisks, risk_review_reported. clear Hrisks Ha.
  pose proof (length_pos_Q teams Hne) as Hn.
  assert (Hp : (RawSummary.review_participation_rate
                  (RawSummary.review (aggregate_teams db now teams days))
                == 85 * inject_Z (Z.of_nat (length (teams_with_pull_requests db now teams days)))
                   / inject_Z (Z.of_nat (length teams)))%Q).
  { unfold aggregate_teams. cbv zeta. rewrite fold_team_summaries.
    assert (Hcount : (0 <? Z.of_nat (length teams))%Z = true).
    { apply Z.ltb_lt. destruct teams; [contradiction | cbn [length]; lia]. }
    rewrite Hcount. unfold divide_averages. cbv zeta.
    cbn [RawSummary.review RawSummary.review_participation_rate].
    rewrite (fold_add_Q
               (fun s => RawSummary.review_participation_rate (RawSummary.review s)))
      by reflexivity.
    cbn [zero_summary RawSummary.review RawSummary.review_participation_rate].
    rewrite map_map, participation_of_teams. field. lra. }
  split; [exact Hp|].
  set (p := RawSummary.review_participation_rate
              (RawSummary.review (aggregate_teams db now teams days))) in *.
  set (k := Z.of_nat (length (teams_with_pull_requests db now teams days))) in *.
  set (n := Z.of_nat (length teams)) in *.
  assert (Hiff : (p < 70)%Q <-> (17 * k < 14 * n)%Z).
  { rewrite Hp. split.
    - intros H. apply (Qmult_lt_compat_r _ _ (inject_Z n)) in H; [|exact Hn].
      assert (Heq : (85 * inject_Z k / inject_Z n * inject_Z n == 85 * inject_Z k)%Q)
        by (field; lra).
      rewrite Heq in H.
      assert (H' : (inject_Z (17 * k) < inject_Z (14 * n))%Q)
        by (rewrite !inject_Z_mult; change (inject_Z 17) with 17%Q;
            change (inject_Z 14) with 14%Q; lra).
      now rewrite <- Zlt_Qlt in H'.
    - intros H. rewrite Zlt_Qlt, !inject_Z_mult in H.
      change (inject_Z 17) with 17%Q in H. change (inject_Z 14) with 14%Q in H.
      apply Qlt_shift_div_r; [exact Hn | lra]. }
  rewrite <- Hiff. split.
  - apply Qltb_lt.
  - intros H. destruct (Qltb p 70) eqn:E; [reflexivity|]. apply Qltb_ge in E. lra.
Qed.
End aggregation_consequences.

(** ** The metrics engine on a small storage *)

Section metrics_examples.
Import Metrics MetricsEngine Aggregation.

Lemma mttr_of_resolved_incidents_witness :
  (0 < _calculate_mttr sample_tables (12 * day) None 30)%Q.
Proof.
  pose proof (mttr_of_resolved_incidents sample_tables (12 * day) None 30 eq_refl) as H.
  cbv zeta in H. destruct H as (_ & _ & Hsign).
  apply Hsign.
  - intros i resolved Hi Hr. vm_compute in Hi.
    destruct Hi as [<- | [<- | []]]; cbn in Hr; [|discriminate Hr].
    injection Hr as <-. vm_compute. discriminate.
  - eexists _, _. split; [vm_compute; left; reflexivity|].
    split; [reflexivity | vm_compute; reflexivity].
Defined.

Lemma review_participation_drives_risk_witness :
  exists a,
    analyze (generate_performance_summary unreviewed_tables (12 * day) None None 30) = Ok a /\
    In risk_review (identified_risks (an_risk_assessment a)).
Proof.
  destruct (analyze (generate_performance_summary unreviewed_tables (12 * day) None None 30))
    as [a|e] eqn:Ha; [|vm_compute in Ha; discriminate Ha].
  exists a. split; [reflexivity|].
  destruct (review_participation_drives_risk _ _ _ _ _ _ Ha) as [Hnone _].
  apply Hnone. reflexivity.
Defined.

Lemma commit_size_drives_risk_witness :
  exists a,
    analyze (generate_performance_summary sample_tables (12 * day) None None 30) = Ok a /\
    overall_risk_level (an_risk_assessment a) = HIGH.
Proof.
  destruct (analyze (generate_performance_summary sample_tables (12 * day) None None 30))
    as [a|e] eqn:Ha; [|vm_compute in Ha; discriminate Ha].
  exists a. split; [reflexivity|].
  destruct (commit_size_drives_risk _ _ _ _ _ _ Ha) as [Hlarge _].
  apply Hlarge.
  - discriminate.
  - repeat constructor.
Defined.

Lemma aggregated_sums_and_means_witness :
  RawSummary.period_days
    (aggregate_teams sample_tables (12 * day) (teams sample_tables) 30) = 30%Z.
Proof.
  refine (proj1 (aggregated_sums_and_means sample_tables (12 * day)
                   (teams sample_tables) 30 _ _)); [discriminate | reflexivity].
Defined.


Lemma aggregated_review_participation_witness :
  exists a,
    analyze (RawSummary.to_py
               (aggregate_teams sample_tables (12 * day) (teams sample_tables) 30)) = Ok a /\
    In risk_review (identified_risks (an_risk_assessment a)).
Proof.
  destruct (analyze (RawSummary.to_py
                       (aggregate_teams sample_tables (12 * day) (teams sample_tables) 30)))
    as [a|e] eqn:Ha; [|vm_compute in Ha; discriminate Ha].
  exists a. split; [reflexivity|].
  assert (Hne : teams sample_tables <> []) by discriminate.
  destruct (aggregated_review_participation _ _ _ _ _ Hne Ha) as [_ Hiff].
  apply Hiff. vm_compute. reflexivity.
Defined.
End metrics_examples.


(** ** A request for one engineer or one team *)

Lemma summary_truthy (s : RawSummary.t) : truthy (RawSummary.to_py s) = true.
Proof. reflexivity. Qed.

Section generated_summary_outcomes.
Import Metrics MetricsEngine.

Lemma generated_summary_succeeds (db : tables) (now : Z) (engineer_id team_id : option Z)
    (days : Z) :
  days <> 0%Z ->
  exists a, analyze (generate_performance_summary db now engineer_id team_id days) = Ok a.
Proof. intros Hd. apply analyze_value, summary_analyzable. exact Hd. Qed.

(** A scope holds no more commits than the storage. *)
Lemma commits_in_scope_bounded (db : storage) (now : Z) (team_id engineer_id : option Z)
    (days : Z) :
  (length (commits_in_scope db now team_id engineer_id days) <= length (commits db))%nat.
Proof.
  unfold commits_in_scope.
  destruct (id_given engineer_id); [|destruct (id_given team_id)];
    apply List.filter_length_le.
Qed.
End generated_summary_outcomes.

Section scoped_request.
Variable world : Type.
Variable str : exn -> string.
Variable generate_performance_summary :
  option Z -> option Z -> Z -> world -> result pyval * world.
Variable overall_stats : Z -> world -> result pyval * world.
Variable insight_prompt : pyval -> result text.
Variable generate_text : text -> world -> result text * world.
Variable _create_narrative :
  pyval -> analysis -> list text -> world -> result text * world.
Variable isspace : N -> bool.
Variable isdigit : N -> bool.
Variable lower_text : text -> text.

(** What the metrics engine returns when it does not raise: the dict of
    [generate_performance_summary] for the period that was asked, with a
    period and a commit count that a float can hold. *)
Hypothesis summary_shape :
  forall engineer_id team_id days w data w',
    generate_performance_summary engineer_id team_id days w = (Ok data, w') ->
    exists s, data = RawSummary.to_py s /\ RawSummary.period_days s = days /\
              (Z.abs days <= 10 ^ 300)%Z /\
              (Z.abs (RawSummary.total_commits (RawSummary.basic s)) <= 10 ^ 300)%Z.

Let run :=
  process_request world str generate_performance_summary overall_stats
    insight_prompt generate_text _create_narrative isspace isdigit lower_text.

(** X20.  A request that names an engineer or a team asks the metrics
    engine once: for the engineer when one is given, else for the team; an
    id of 0 counts as absent.  When that call raises (the storage fails, or
    the period is beyond what a date can hold), the run ends in "Data
    harvesting failed" and nothing else is done.  When it returns a summary
    (a dict of the shape that generate_performance_summary builds, for the
    period asked, with a period and a commit count within the range of a
    float), the raw data is that summary; with a period of zero days the
    run ends in "Diff analysis failed" for a division by zero; with any
    other period the analysis cannot fail, the analysis of the raw data is
    stored, and the only error left is the narration's. *)
Theorem scoped_request_outcome request team engineer period w :
  id_given engineer || id_given team = true ->
  let start := initial_state request team engineer period in
  let harvested :=
    if id_given engineer then generate_performance_summary engineer None period w
    else generate_performance_summary None team period w in
  let out := run request team engineer period w in
  match harvested.1 with
  | Raise e =>
      out = (set_error ("Data harvesting failed: " ++ str e) start, harvested.2)
  | Ok data =>
      raw_data out.1 = data /\
      (period = 0%Z ->
       out = (set_error ("Diff analysis failed: " ++ str ZeroDivisionError)
                (set_raw_data data start), harvested.2)) /\
      (period <> 0%Z ->
       exists a, analyze data = Ok a /\ analysis_results out.1 = Some a /\
         (error out.1 = None \/
          exists e, error out.1 = Some ("Insight generation failed: " ++ str e)%string))
  end.
Proof.
  intros Hscope. cbv zeta. unfold run, process_request, DataHarvesterAgent_execute.
  set (start := initial_state request team engineer period).
  cbn [engineer_id team_id time_period start initial_state].
  set (harvested := if id_given engineer
                    then generate_performance_summary engineer None period w
                    else generate_performance_summary None team period w).
  assert (Hharvest :
            (if id_given engineer then generate_performance_summary engineer None period w
             else if id_given team then generate_performance_summary None team period w
                  else overall_stats period w) = harvested).
  { unfold harvested. destruct (id_given engineer); [reflexivity|].
    cbn [orb] in Hscope. now rewrite Hscope. }
  rewrite Hharvest.
  assert (Hshape : forall data w1, harvested = (Ok data, w1) ->
            exists s, data = RawSummary.to_py s /\ RawSummary.period_days s = period).
  { intros data w1 H. unfold harvested in H.
    destruct (id_given engineer);
      destruct (summary_shape _ _ _ _ _ _ H) as (s & Hs & Hp & _); now exists s. }
  destruct harvested as [[data|e] w1]; cbn [fst snd].
  2:{ now rewrite error_set_set_error. }
  destruct (Hshape data w1 eq_refl) as (s & -> & Hperiod).
  assert (Hzero : period = 0%Z -> analyze (RawSummary.to_py s) = Raise ZeroDivisionError).
  { intros Hz. apply analyze_summary_zero_period. now rewrite Hperiod. }
  assert (Hsome : period <> 0%Z -> exists a, analyze (RawSummary.to_py s) = Ok a).
  { intros Hnz. apply analyze_value, summary_analyzable. now rewrite Hperiod. }
  set (data := RawSummary.to_py s) in *.
  assert (Htruthy : truthy data = true) by apply summary_truthy.
  replace (error_set (set_raw_data data start)) with false by reflexivity.
  unfold DiffAnalystAgent_execute.
  replace (error_set (set_raw_data data start)) with false by reflexivity.
  cbn [orb raw_data set_raw_data]. rewrite Htruthy. cbn [negb].
  destruct (analyze data) as [a|e] eqn:Ha.
  - replace (error_set (set_analysis_results a (set_raw_data data start)))
      with false by reflexivity.
    unfold InsightNarratorAgent_execute.
    replace (error_set (set_analysis_results a (set_raw_data data start)))
      with false by reflexivity.
    cbn [analysis_results set_analysis_results raw_data set_raw_data].
    destruct (_generate_insights _ _ _ _ _ _ _ _ _) as [[found|e] w2].
    + destruct (_create_narrative data a found w2) as [[written|e] w3].
      * replace (error_set (set_insights_narrative found written
                              (set_analysis_results a (set_raw_data data start))))
          with false by reflexivity.
        split; [reflexivity|]. split.
        -- intros Hz. discriminate (Hzero Hz).
        -- intros _. exists a. split; [reflexivity|]. split; [reflexivity|]. now left.
      * rewrite error_set_set_error by discriminate.
        split; [reflexivity|]. split.
        -- intros Hz. discriminate (Hzero Hz).
        -- intros _. exists a. split; [reflexivity|]. split; [reflexivity|].
           right. now exists e.
    + rewrite error_set_set_error by discriminate.
      split; [reflexivity|]. split.
      * intros Hz. discriminate (Hzero Hz).
      * intros _. exists a. split; [reflexivity|]. split; [reflexivity|].
        right. now exists e.
  - rewrite error_set_set_error by discriminate.
    split; [reflexivity|]. split.
    + intros Hz. specialize (Hzero Hz). injection Hzero as ->. reflexivity.
    + intros Hnz. destruct (Hsome Hnz) as (a & Ha'). discriminate Ha'.
Qed.
End scoped_request.

(** ** The shape of the parsed insights *)

Section parsed_items.
Variable isspace : N -> bool.
Variable isdigit : N -> bool.
Variable lower_text : text -> text.

Lemma kept_lines_shape (lines : list text) :
  Forall (fun line => ~ In newline line) lines ->
  Forall (fun item =>
            (20 < length item)%nat /\
            (forall c rest, item = c :: rest -> isspace c = false) /\
            (forall kept c, item = kept ++ [c] -> isspace c = false) /\
            ~ In newline item)
    (kept_lines isspace isdigit lines).
Proof.
  intros Hlines. rewrite Forall_forall in Hlines. apply Forall_forall. intros item Hitem.
  unfold kept_lines in Hitem.
  apply list_elem_of_filter in Hitem as [Hlen Hitem].
  apply list_elem_of_In, in_map_iff in Hitem as (line & <- & Hline).
  apply list_elem_of_In, list_elem_of_filter in Hline as [_ Hline].
  apply list_elem_of_In, in_map_iff in Hline as (raw & <- & Hraw).
  apply list_elem_of_In in Hraw.
  split; [exact Hlen|]. split; [intros c rest; apply strip_head|].
  split; [intros kept c; apply strip_last|].
  intros Hin. apply strip_keeps, lstrip_by_keeps, strip_keeps in Hin.
  now apply (Hlines raw Hraw).
Qed.

Lemma kept_sentences_shape (sentences : list text) :
  Forall (fun sentence => ~ In full_stop sentence) sentences ->
  Forall (fun item =>
            (20 < length item)%nat /\
            (forall c rest, item = c :: rest -> isspace c = false) /\
            exists sentence,
              item = sentence ++ [full_stop] /\ ~ In full_stop sentence /\
              (30 < length sentence)%nat /\ mentions_team lower_text sentence = true)
    (kept_sentences isspace lower_text sentences).
Proof.
  intros Hs. rewrite Forall_forall in Hs. apply Forall_forall. intros item Hitem.
  unfold kept_sentences in Hitem.
  apply list_elem_of_In, in_map_iff in Hitem as (sentence & <- & Hsentence).
  apply list_elem_of_In, list_elem_of_filter in Hsentence as [[Hlen Hteam] Hsentence].
  apply list_elem_of_In, in_map_iff in Hsentence as (raw & <- & Hraw).
  apply list_elem_of_In in Hraw.
  split; [rewrite length_app; cbn [length]; lia|]. split.
  - intros c rest Heq. destruct (strip isspace raw) as [|x xs] eqn:E.
    + cbn [length] in Hlen. lia.
    + cbn in Heq. injection Heq as <- _. now apply strip_head in E.
  - exists (strip isspace raw). split; [reflexivity|]. split; [|split; assumption].
    intros Hin. apply strip_keeps in Hin. now apply (Hs raw Hraw).
Qed.

(** X21.  The parser never raises, and what it returns is well formed: at
    most five items, each longer than 20 characters and not starting with a
    whitespace character; and either every item comes from a line (it holds
    no line break and does not end with whitespace), or every item is a
    trimmed sentence of more than 30 characters that mentions team or
    performance and holds exactly one full stop, its last character. *)
Theorem parsed_insights_wellformed (response : text) :
  exists found,
    _parse_insights_from_response isspace isdigit lower_text response = Ok found /\
    (length found <= 5)%nat /\
    Forall (fun item =>
              (20 < length item)%nat /\
              forall c rest, item = c :: rest -> isspace c = false) found /\
    (Forall (fun item =>
               ~ In newline item /\
               forall kept c, item = kept ++ [c] -> isspace c = false) found \/
     Forall (fun item =>
               exists sentence,
                 item = sentence ++ [full_stop] /\ ~ In full_stop sentence /\
                 (30 < length sentence)%nat /\
                 mentions_team lower_text sentence = true) found).
Proof.
  exists (collected_items isspace isdigit lower_text response).
  split; [apply parse_insights_value|].
  split; [unfold collected_items; rewrite length_firstn; lia|].
  pose proof (kept_lines_shape _ (split_on_pieces newline response)) as Hlines.
  pose proof (kept_sentences_shape _ (split_on_pieces full_stop response)) as Hsentences.
  unfold collected_items, structured_items, fallback_items in *.
  destruct (kept_lines isspace isdigit (split_on newline response)) as [|item rest].
  - split.
    + apply Forall_take. eapply List.Forall_impl; [|exact Hsentences].
      intros item (Hlen & Hhead & _). now split.
    + right. apply Forall_take. eapply List.Forall_impl; [|exact Hsentences].
      intros item (_ & _ & Hshape). exact Hshape.
  - split.
    + apply Forall_take. eapply List.Forall_impl; [|exact Hlines].
      intros x (Hlen & Hhead & _). now split.
    + left. apply Forall_take. eapply List.Forall_impl; [|exact Hlines].
      intros x (_ & _ & Hlast & Hnl). now split.
Qed.
End parsed_items.

(** ** The harvest without teams *)

(** What a successful analysis holds, from the values of the fields it
    reads. *)
Lemma analyze_reads data total rate score cfr lead participation commits days :
  reads data "code_quality" "total_churn" (PInt 0) total ->
  reads data "code_quality" "churn_rate" (PInt 0) rate ->
  reads data "code_quality" "risk_score" (PInt 0) score ->
  reads data "dora_metrics" "change_failure_rate" (PInt 0) cfr ->
  reads data "dora_metrics" "lead_time_days" (PInt 0) lead ->
  reads data "review_metrics" "review_participation_rate" (PInt 100) participation ->
  reads data "review_metrics" "review_participation_rate" (PInt 0) participation ->
  reads data "basic_stats" "total_commits" (PInt 0) commits ->
  reads_top data "period_days" (PInt 7) days -> ~ (days == 0)%Q ->
  exists a, analyze data = Ok a /\
    churn_level (an_churn_analysis a) = spec_churn_level rate /\
    risk_threshold_exceeded (patterns (an_churn_analysis a)) = Qltb 70 score /\
    overall_risk_level (an_risk_assessment a) = spec_risk_level cfr lead score participation /\
    identified_risks (an_risk_assessment a)
    = spec_identified_risks cfr lead score participation /\
    has_value (quality_score (an_quality_indicators a))
      (round_digits (spec_quality_score cfr) 1).
Proof.
  intros Ht Hr Hs Hc Hl Hp100 Hp0 Hn Hd Hnz. unfold analyze.
  destruct (analyze_churn_patterns_value data _ _ _ Ht Hr Hs) as (c & -> & Hlevel & _ & Hpat).
  destruct (assess_risk_factors_value data _ _ _ _ Hc Hl Hs Hp100)
    as (r & -> & Hrl & Hrisks & _).
  destruct (calculate_quality_indicators_value data _ _ _ _ Hn Hd Hnz Hc Hp0)
    as (q & -> & _ & Hquality & _).
  cbn [Py.bind]. eexists. split; [reflexivity|].
  cbn [an_churn_analysis an_risk_assessment an_quality_indicators].
  rewrite Hpat. cbn [risk_threshold_exceeded].
  repeat split; assumption.
Qed.

Lemma Qltb_false (x y : Q) : (y <= x)%Q -> Qltb x y = false.
Proof.
  intros H. destruct (Qltb x y) eqn:E; [|reflexivity]. apply Qltb_lt in E. lra.
Qed.

Section bootstrap_properties.
Variable rng : Type.
Variable uniform : Q -> Q -> rng -> Q * rng.
Variable randint : Z -> Z -> rng -> Z * rng.

Lemma totals_eq (t1 t2 : totals) :
  sum_commits t1 = sum_commits t2 -> sum_prs t1 = sum_prs t2 ->
  sum_lines_added t1 = sum_lines_added t2 ->
  sum_lines_deleted t1 = sum_lines_deleted t2 ->
  sum_files_changed t1 = sum_files_changed t2 -> t1 = t2.
Proof. destruct t1, t2. cbn. congruence. Qed.

Lemma count_commits_fields (cs : list commit_info) (t : totals) :
  let t' := fold_left count_commit cs t in
  sum_commits t' = sum_commits t /\ sum_prs t' = sum_prs t /\
  sum_lines_added t' = (sum_lines_added t + Metrics.sum_Z (map info_additions cs))%Z /\
  sum_lines_deleted t' = (sum_lines_deleted t + Metrics.sum_Z (map info_deletions cs))%Z /\
  sum_files_changed t'
  = (sum_files_changed t + Metrics.sum_Z (map info_changed_files cs))%Z.
Proof.
  cbv zeta. revert t. induction cs as [|c cs IH]; intros t; cbn [fold_left map].
  - unfold Metrics.sum_Z. cbn. repeat split; lia.
  - destruct (IH (count_commit t c)) as (H1 & H2 & H3 & H4 & H5).
    rewrite H1, H2, H3, H4, H5, !sum_Z_cons. cbn. repeat split; lia.
Qed.

(** The effect of one repository is an addition to every total. *)
Lemma count_repository_adds (t : totals) (reply : repository_reply) :
  let d := count_repository no_totals reply in
  count_repository t reply
  = {| sum_commits := sum_commits t + sum_commits d;
       sum_prs := sum_prs t + sum_prs d;
       sum_lines_added := sum_lines_added t + sum_lines_added d;
       sum_lines_deleted := sum_lines_deleted t + sum_lines_deleted d;
       sum_files_changed := sum_files_changed t + sum_files_changed d |}.
Proof.
  cbv zeta. unfold count_repository.
  destruct (synced reply) as [repo_data|e].
  - destruct (fetched reply) as [commits|e].
    + match goal with
      | |- fold_left count_commit commits ?a = _ =>
          destruct (count_commits_fields commits a) as (A1 & A2 & A3 & A4 & A5)
      end.
      match goal with
      | |- _ = {| sum_commits := _ + sum_commits (fold_left count_commit commits ?b);
                  sum_prs := _; sum_lines_added := _; sum_lines_deleted := _;
                  sum_files_changed := _ |} =>
          destruct (count_commits_fields commits b) as (B1 & B2 & B3 & B4 & B5)
      end.
      apply totals_eq; cbn [sum_commits sum_prs sum_lines_added sum_lines_deleted
                            sum_files_changed];
        rewrite ?A1, ?A2, ?A3, ?A4, ?A5, ?B1, ?B2, ?B3, ?B4, ?B5; cbn; lia.
    + apply totals_eq; cbn; lia.
  - apply totals_eq; cbn; lia.
Qed.

Lemma count_repository_commutes (t : totals) (a b : repository_reply) :
  count_repository (count_repository t a) b = count_repository (count_repository t b) a.
Proof.
  rewrite (count_repository_adds (count_repository t a) b), (count_repository_adds t a).
  rewrite (count_repository_adds (count_repository t b) a), (count_repository_adds t b).
  apply totals_eq; cbn [sum_commits sum_prs sum_lines_added sum_lines_deleted
                        sum_files_changed]; lia.
Qed.

Lemma totals_permutation (replies replies' : list repository_reply) :
  Permutation replies replies' ->
  forall t, fold_left count_repository replies t = fold_left count_repository replies' t.
Proof.
  induction 1 as [|x l l' _ IH|x y l|l l' l'' _ IH1 _ IH2]; intros t; cbn [fold_left].
  - reflexivity.
  - apply IH.
  - now rewrite count_repository_commutes.
  - now rewrite IH1.
Qed.

Lemma totals_without_failures (replies : list repository_reply) (t : totals) :
  fold_left count_repository replies t
  = fold_left count_repository
      (List.filter (fun reply => match synced reply with Ok _ => true | Raise _ => false end)
         replies) t.
Proof.
  revert t. induction replies as [|reply replies IH]; intros t; cbn [List.filter fold_left].
  - reflexivity.
  - destruct (synced reply) as [repo_data|e] eqn:E; cbn [fold_left].
    + apply IH.
    + rewrite <- IH. unfold count_repository at 2. now rewrite E.
Qed.

(** X22.  The summary of the harvest without teams does not depend on the
    order in which the repositories are listed, and a repository whose
    synchronisation raises leaves no trace in it: with the same state of
    the random generator the summary is the same as without that
    repository. *)
Theorem bootstrap_ignores_order_and_failures (days : Z)
    (replies replies' : list repository_reply) (g : rng) :
  Permutation replies replies' ->
  bootstrap_summary rng uniform randint days replies g
  = bootstrap_summary rng uniform randint days replies' g /\
  bootstrap_summary rng uniform randint days replies g
  = bootstrap_summary rng uniform randint days
      (List.filter (fun reply => match synced reply with Ok _ => true | Raise _ => false end)
         replies) g.
Proof.
  intros Hperm. unfold bootstrap_summary.
  rewrite <- (totals_permutation _ _ Hperm no_totals).
  rewrite <- (totals_without_failures replies no_totals). split; reflexivity.
Qed.

Hypothesis uniform_in_range :
  forall a b g, (a <= b)%Q -> (a <= (uniform a b g).1)%Q /\ ((uniform a b g).1 <= b)%Q.

Lemma rounded_draw_in_range (a b : Q) (lo hi : Z) (g : rng) :
  (a <= b)%Q -> (inject_Z lo <= a)%Q -> (b <= inject_Z hi)%Q ->
  exists q, has_value (rounded_draw rng uniform a b g).1 q /\
            (inject_Z lo <= q)%Q /\ (q <= inject_Z hi)%Q /\
            (rounded_draw rng uniform a b g).1 = PFloat q.
Proof.
  intros Hab Hlo Hhi. unfold rounded_draw.
  destruct (uniform_in_range a b g Hab) as [Ha Hb].
  destruct (uniform a b g) as [u g']. cbn [fst] in *.
  exists (round_digits u 1). split; [apply has_value_float|].
  destruct (round_digits_bounds u 1 lo hi) as [H1 H2]; [lra | lra |].
  split; [exact H1|]. split; [exact H2 | reflexivity].
Qed.

(** X23.  When the random generator keeps to the range it is asked for,
    the harvest without teams can never be reported as risky: whatever
    the repositories hold, with a period that is not zero the analysis
    succeeds with a LOW risk level, no identified risk, the flag
    risk_threshold_exceeded not set and a quality score between 60 and
    85. *)
Theorem bootstrap_is_never_risky (days : Z) (replies : list repository_reply) (g : rng) :
  days <> 0%Z ->
  exists a q,
    analyze (bootstrap_summary rng uniform randint days replies g).1 = Ok a /\
    overall_risk_level (an_risk_assessment a) = LOW /\
    identified_risks (an_risk_assessment a) = [risk_none] /\
    risk_threshold_exceeded (patterns (an_churn_analysis a)) = false /\
    has_value (quality_score (an_quality_indicators a)) q /\
    (60 <= q)%Q /\ (q <= 85)%Q.
Proof.
  intros Hdays. unfold bootstrap_summary.
  set (t := fold_left count_repository replies no_totals).
  destruct (rounded_draw_in_range (3 # 2) (7 # 2) 1 4 g) as (l1 & Hl1 & Hl1lo & Hl1hi & El1);
    [vm_compute; discriminate | vm_compute; discriminate | vm_compute; discriminate |].
  set (first := if (0 <? sum_commits t)%Z then rounded_draw rng uniform (3 # 2) (7 # 2) g
                else (PInt 0, g)).
  assert (Hfirst : exists lead, has_value first.1 lead /\ (0 <= lead)%Q /\ (lead <= 4)%Q).
  { unfold first. destruct (0 <? sum_commits t)%Z.
    - exists l1. change (inject_Z 1) with 1%Q in Hl1lo.
      change (inject_Z 4) with 4%Q in Hl1hi. split; [exact Hl1|]. split; lra.
    - exists 0%Q. split; [apply (has_value_int 0)|]. split; lra. }
  destruct Hfirst as (lead & Hlead & Hlead0 & Hlead4).
  destruct first as [lead_time g1]. cbn [fst] in Hlead.
  destruct (rounded_draw_in_range 3 8 3 8 g1) as (cfr & Hcfr & Hcfr3 & Hcfr8 & Ecfr);
    [vm_compute; discriminate | vm_compute; discriminate | vm_compute; discriminate |].
  destruct (rounded_draw rng uniform 3 8 g1) as [change_failure_rate g2].
  cbn [fst] in Hcfr, Ecfr.
  destruct (rounded_draw rng uniform (7 # 2) 6 g2) as [mttr_hours g3].
  destruct (rounded_draw_in_range 15 35 15 35 g3) as (rs & Hrs & Hrs15 & Hrs35 & Ers);
    [vm_compute; discriminate | vm_compute; discriminate | vm_compute; discriminate |].
  destruct (rounded_draw rng uniform 15 35 g3) as [risk g4]. cbn [fst] in Hrs, Ers.
  destruct (randint 0 5 g4) as [high_risk_files g5].
  destruct (rounded_draw rng uniform 6 12 g5) as [avg_review_time_hours g6].
  destruct (rounded_draw_in_range 70 95 70 95 g6) as (p & Hp & Hp70 & Hp95 & Ep);
    [vm_compute; discriminate | vm_compute; discriminate | vm_compute; discriminate |].
  destruct (rounded_draw rng uniform 70 95 g6) as [review_participation_rate g7].
  cbn [fst] in Hp, Ep.
  destruct (rounded_draw rng uniform 12 24 g7) as [pr_cycle_time_hours g8].
  destruct (rounded_draw rng uniform 85 98 g8) as [approval_rate g9].
  cbn [fst].
  match goal with |- context [analyze ?d] => set (data := d) end.
  destruct (analyze_reads data
              (inject_Z (sum_lines_added t + sum_lines_deleted t))
              (round_digits (inject_Z (sum_lines_added t + sum_lines_deleted t)
                             / inject_Z (Z.max (sum_commits t) 1)) 1)
              rs cfr lead p (inject_Z (sum_commits t)) (inject_Z days))
    as (a & Ha & _ & Hflag & Hlevel & Hrisks & Hquality).
  - eexists. split; [reflexivity | apply has_value_int].
  - eexists. split; [reflexivity | apply has_value_float].
  - eexists. split; [reflexivity | exact Hrs].
  - eexists. split; [reflexivity | exact Hcfr].
  - eexists. split; [reflexivity | exact Hlead].
  - eexists. split; [reflexivity | exact Hp].
  - eexists. split; [reflexivity | exact Hp].
  - eexists. split; [reflexivity | apply has_value_int].
  - eexists. split; [reflexivity | apply has_value_int].
  - change 0%Q with (inject_Z 0). rewrite inject_Z_injective. exact Hdays.
  - exists a, (round_digits (spec_quality_score cfr) 1).
    split; [exact Ha|].
    change (inject_Z 15) with 15%Q in Hrs15. change (inject_Z 35) with 35%Q in Hrs35.
    change (inject_Z 70) with 70%Q in Hp70. change (inject_Z 95) with 95%Q in Hp95.
    change (inject_Z 3) with 3%Q in Hcfr3. change (inject_Z 8) with 8%Q in Hcfr8.
    assert (H15 : Qltb 15 cfr = false) by (apply Qltb_false; lra).
    assert (H7 : Qltb 7 lead = false) by (apply Qltb_false; lra).
    assert (H60 : Qltb 60 rs = false) by (apply Qltb_false; lra).
    assert (H70 : Qltb 70 rs = false) by (apply Qltb_false; lra).
    assert (Hp' : Qltb p 70 = false) by (apply Qltb_false; lra).
    rewrite Hlevel, Hrisks, Hflag.
    unfold spec_risk_level, spec_identified_risks, spec_triggered_risks.
    rewrite H15, H7, H60, H70, Hp'.
    split; [reflexivity|]. split; [reflexivity|]. split; [reflexivity|].
    split; [exact Hquality|].
    change 60%Q with (inject_Z 60). change 85%Q with (inject_Z 85).
    apply (round_digits_bounds (spec_quality_score cfr) 1 60 85);
      unfold spec_quality_score; change (inject_Z 60) with 60%Q;
      change (inject_Z 85) with 85%Q.
    + apply Q.max_le_iff. right. lra.
    + apply Q.max_lub; lra.
Qed.
End bootstrap_properties.

(** ** Examples of the harvest and of a scoped request *)

Lemma scoped_request_outcome_witness :
  error (process_request nat sample_str sample_tables_summary
           failing_overall_stats sample_prompt sample_generate_text sample_narrative
           ascii_isspace ascii_isdigit ascii_lower_text
           "weekly" None (Some 1%Z) 0 0%nat).1
  = Some ("Diff analysis failed: " ++ sample_str ZeroDivisionError)%string /\
  (process_request nat sample_str sample_tables_summary
     failing_overall_stats sample_prompt sample_generate_text sample_narrative
     ascii_isspace ascii_isdigit ascii_lower_text
     "weekly" None (Some 1%Z) 1000000 0%nat).1
  = set_error "Data harvesting failed: date value out of range"
      (initial_state "weekly" None (Some 1%Z) 1000000).
Proof.
  assert (Hshape : forall engineer_id team_id days (w : nat) data w',
            sample_tables_summary engineer_id team_id days w = (Ok data, w') ->
            exists s, data = RawSummary.to_py s /\ RawSummary.period_days s = days /\
              (Z.abs days <= 10 ^ 300)%Z /\
              (Z.abs (RawSummary.total_commits (RawSummary.basic s)) <= 10 ^ 300)%Z).
  { intros engineer_id team_id days w data w' H. unfold sample_tables_summary in H.
    destruct (Metrics.window_exists (12 * day) days) eqn:Hdays; [|discriminate H].
    unfold Metrics.window_exists in Hdays.
    apply andb_true_iff in Hdays as [Hdays _]. apply andb_true_iff in Hdays as [Hdays _].
    apply Z.leb_le in Hdays. injection H as <- _.
    eexists. split; [reflexivity|]. split; [reflexivity|]. split.
    - apply Z.le_trans with 999999999%Z; [exact Hdays | vm_compute; discriminate].
    - cbn [RawSummary.basic RawSummary.total_commits MetricsEngine.performance_summary].
      pose proof (commits_in_scope_bounded (MetricsEngine.base sample_tables) (12 * day)
                    team_id engineer_id days) as Hle.
      change (length (Metrics.commits (MetricsEngine.base sample_tables)))
        with 1%nat in Hle.
      apply Z.le_trans with 1%Z; [lia | vm_compute; discriminate]. }
  split.
  - pose proof (scoped_request_outcome nat sample_str sample_tables_summary
                  failing_overall_stats sample_prompt sample_generate_text sample_narrative
                  ascii_isspace ascii_isdigit ascii_lower_text Hshape
                  "weekly" None (Some 1%Z) 0 0%nat eq_refl) as H.
    cbv zeta in H. cbn [id_given negb Z.eqb fst snd] in H.
    change (sample_tables_summary None (Some 1%Z) 0 0%nat)
      with (Ok (MetricsEngine.generate_performance_summary sample_tables (12 * day)
                  None (Some 1%Z) 0), 1%nat) in H.
    cbn [fst snd] in H.
    destruct H as (_ & Hzero & _). rewrite (Hzero eq_refl). reflexivity.
  - pose proof (scoped_request_outcome nat sample_str sample_tables_summary
                  failing_overall_stats sample_prompt sample_generate_text sample_narrative
                  ascii_isspace ascii_isdigit ascii_lower_text Hshape
                  "weekly" None (Some 1%Z) 1000000 0%nat eq_refl) as H.
    cbv zeta in H. cbn [id_given negb Z.eqb fst snd] in H.
    change (sample_tables_summary None (Some 1%Z) 1000000 0%nat)
      with (@Raise pyval (External "date value out of range"), 1%nat) in H.
    cbn [fst snd] in H. rewrite H. reflexivity.
Defined.

Lemma bootstrap_ignores_order_and_failures_witness :
  bootstrap_summary unit midpoint_uniform lowest_randint 7
    (failing_repository :: one_repository) tt
  = bootstrap_summary unit midpoint_uniform lowest_randint 7
      (one_repository ++ [failing_repository]) tt.
Proof.
  apply (bootstrap_ignores_order_and_failures unit midpoint_uniform lowest_randint 7
           (failing_repository :: one_repository) (one_repository ++ [failing_repository]) tt).
  apply Permutation_cons_append.
Defined.

Lemma bootstrap_is_never_risky_witness :
  exists a,
    analyze (bootstrap_summary unit midpoint_uniform lowest_randint 7 one_repository tt).1
    = Ok a /\
    overall_risk_level (an_risk_assessment a) = LOW.
Proof.
  destruct (bootstrap_is_never_risky unit midpoint_uniform lowest_randint) with
    (days := 7%Z) (replies := one_repository) (g := tt) as (a & q & Ha & Hlow & _).
  - intros a b g Hab. unfold midpoint_uniform. cbn [fst].
    split; [apply Qle_shift_div_l | apply Qle_shift_div_r]; lra.
  - discriminate.
  - exists a. split; [exact Ha | exact Hlow].
Defined.


(** ** The commands of the chat bot *)

Section bot_commands.
Variable str_lower : string -> string.
Variable split_words : string -> list string.

Lemma parse_part_paired args part rest :
  Bot.paired args -> Bot.paired (Bot.parse_part str_lower args part rest).
Proof.
  intros Hp. unfold Bot.parse_part. cbv zeta.
  destruct (String.eqb (str_lower part) "daily") eqn:Ed; cbn [orb].
  { apply String.eqb_eq in Ed. left. split; [exact Ed | reflexivity]. }
  destruct (String.eqb (str_lower part) "weekly") eqn:Ew; cbn [orb].
  { apply String.eqb_eq in Ew. right. left. split; [exact Ew | reflexivity]. }
  destruct (String.eqb (str_lower part) "monthly") eqn:Em.
  { apply String.eqb_eq in Em. right. right. split; [exact Em | reflexivity]. }
  destruct (String.eqb (str_lower part) "team"),
    (String.eqb (str_lower part) "engineer"), rest as [|next rest']; exact Hp.
Qed.

Lemma parse_part_targeted names args part rest :
  (forall name, In name rest -> In name names) ->
  Bot.targeted names args -> Bot.targeted names (Bot.parse_part str_lower args part rest).
Proof.
  intros Hnames Ht. unfold Bot.parse_part. cbv zeta.
  destruct (String.eqb (str_lower part) "daily") eqn:Ed; cbn [orb]; [exact Ht|].
  destruct (String.eqb (str_lower part) "weekly") eqn:Ew; cbn [orb]; [exact Ht|].
  destruct (String.eqb (str_lower part) "monthly") eqn:Em; [exact Ht|].
  destruct (String.eqb (str_lower part) "team"),
    (String.eqb (str_lower part) "engineer"), rest as [|next rest']; try exact Ht;
    (right; split; [first [now left | now right]|]; exists next;
     split; [reflexivity|]; apply Hnames; now left).
Qed.

Lemma parse_parts_invariant names parts args :
  (forall name, In name (tl parts) -> In name names) ->
  Bot.paired args -> Bot.targeted names args ->
  Bot.paired (Bot.parse_parts str_lower parts args) /\
  Bot.targeted names (Bot.parse_parts str_lower parts args).
Proof.
  revert args. induction parts as [|part rest IH]; intros args Hnames Hp Ht;
    cbn [Bot.parse_parts]; [now split|].
  apply IH.
  - intros name Hin. apply Hnames. cbn [tl]. destruct rest; [contradiction | now right].
  - now apply parse_part_paired.
  - apply parse_part_targeted; [exact Hnames | exact Ht].
Qed.

Lemma parse_command_args_invariant (command_text : string) :
  Bot.paired (Bot._parse_command_args str_lower split_words command_text) /\
  Bot.targeted (tl (split_words command_text))
    (Bot._parse_command_args str_lower split_words command_text).
Proof.
  unfold Bot._parse_command_args.
  assert (Hd : Bot.paired Bot.default_args) by (right; left; split; reflexivity).
  assert (Ht : forall names, Bot.targeted names Bot.default_args)
    by (intros names; left; split; reflexivity).
  destruct (String.eqb command_text ""); [split; [exact Hd | apply Ht]|].
  apply parse_parts_invariant; [auto | exact Hd | apply Ht].
Qed.

Lemma parse_command_args_period (command_text : string) :
  Bot.time_period (Bot._parse_command_args str_lower split_words command_text) <> 0%Z.
Proof.
  destruct (parse_command_args_invariant command_text)
    as [[[_ ->] | [[_ ->] | [_ ->]]] _]; discriminate.
Qed.

(** X24.  Whatever the text of a /dev-report command, the parsed arguments
    are consistent: the report type is daily, weekly or monthly and the
    period is the 1, 7 or 30 days that go with it; the target is either
    "all" without a name, or "team" or "engineer" with a name that is one
    of the words after the first; and a text that is empty or has no word
    gives the defaults (weekly, 7 days, all). *)
Theorem parse_command_args_consistent (command_text : string) :
  let args := Bot._parse_command_args str_lower split_words command_text in
  ((Bot.report_type args = "daily"%string /\ Bot.time_period args = 1%Z) \/
   (Bot.report_type args = "weekly"%string /\ Bot.time_period args = 7%Z) \/
   (Bot.report_type args = "monthly"%string /\ Bot.time_period args = 30%Z)) /\
  ((Bot.target_type args = "all"%string /\ Bot.target_name args = None) \/
   ((Bot.target_type args = "team"%string \/ Bot.target_type args = "engineer"%string) /\
    exists name, Bot.target_name args = Some name /\
                 In name (tl (split_words command_text)))) /\
  (command_text = ""%string \/ split_words command_text = [] -> args = Bot.default_args).
Proof.
  cbv zeta. destruct (parse_command_args_invariant command_text) as [Hp Ht].
  split; [exact Hp|]. split; [exact Ht|].
  unfold Bot._parse_command_args. intros [-> | Hnone]; [reflexivity|].
  rewrite Hnone. now destruct (String.eqb command_text "").
Qed.

(** X25.  A report requested through the bot is always analysed: the
    period that a command gives is never zero, so the analysis of the
    summary generated for any engineer or team over that period, and of the
    summary aggregated over any teams, succeeds whatever the storage
    holds. *)
Theorem bot_reports_are_always_analysed (command_text : string)
    (db : MetricsEngine.tables) (now : Z) (engineer_id team_id : option Z)
    (teams : list MetricsEngine.Team) :
  let days := Bot.time_period (Bot._parse_command_args str_lower split_words command_text) in
  days <> 0%Z /\
  (exists a,
     analyze (MetricsEngine.generate_performance_summary db now engineer_id team_id days)
     = Ok a) /\
  (exists a,
     analyze (RawSummary.to_py (Aggregation.aggregate_teams db now teams days)) = Ok a).
Proof.
  cbv zeta. pose proof (parse_command_args_period command_text) as Hdays.
  split; [exact Hdays|]. split; [now apply generated_summary_succeeds|].
  apply analyze_value, summary_analyzable.
  unfold Aggregation.aggregate_teams. cbv zeta. rewrite fold_team_summaries.
  destruct (0 <? Z.of_nat (length teams))%Z;
    cbn [Aggregation.divide_averages RawSummary.period_days];
    rewrite fold_period_days; exact Hdays.
Qed.
End bot_commands.

(** ** Scopes and periods *)

Section scope_properties.
Import Metrics MetricsEngine.

Lemma filter_length_mono {X} (p q : X -> bool) (xs : list X) :
  (forall x, In x xs -> p x = true -> q x = true) ->
  (length (List.filter p xs) <= length (List.filter q xs))%nat.
Proof.
  induction xs as [|x xs IH]; intros H; cbn [List.filter]; [lia|].
  assert (IH' : (length (List.filter p xs) <= length (List.filter q xs))%nat)
    by (apply IH; intros y Hy; apply H; now right).
  destruct (p x) eqn:Ep.
  - rewrite (H x (or_introl eq_refl) Ep). cbn [length]. lia.
  - destruct (q x); cbn [length]; lia.
Qed.

Lemma cutoff_mono (now days days' : Z) :
  (days <= days')%Z -> (cutoff now days' <= cutoff now days)%Z.
Proof. unfold cutoff, microseconds_per_day. lia. Qed.

Lemma window_mono (now days days' at_time : Z) :
  (days <= days')%Z ->
  (cutoff now days <=? at_time)%Z = true -> (cutoff now days' <=? at_time)%Z = true.
Proof.
  intros Hd H. apply Z.leb_le in H. apply Z.leb_le.
  pose proof (cutoff_mono now days days' Hd). lia.
Qed.

Lemma commits_in_scope_grow (db : storage) (now : Z) (team_id engineer_id : option Z)
    (days days' : Z) :
  (days <= days')%Z ->
  (length (commits_in_scope db now team_id engineer_id days)
   <= length (commits_in_scope db now team_id engineer_id days'))%nat.
Proof.
  intros Hd. unfold commits_in_scope.
  destruct (id_given engineer_id); [|destruct (id_given team_id)];
    unfold get_engineer_commits, get_team_commits, get_all_commits;
    apply filter_length_mono; intros c _ H.
  - apply andb_true_iff in H as [H1 H2]. rewrite H1. cbn [andb].
    now apply (window_mono now days days').
  - apply andb_true_iff in H as [H1 H2]. rewrite H1. cbn [andb].
    now apply (window_mono now days days').
  - now apply (window_mono now days days').
Qed.

Lemma pull_requests_in_scope_grow (db : tables) (now : Z) (team_id engineer_id : option Z)
    (days days' : Z) :
  (days <= days')%Z ->
  (length (pull_requests_in_scope db now team_id engineer_id days)
   <= length (pull_requests_in_scope db now team_id engineer_id days'))%nat.
Proof.
  intros Hd. unfold pull_requests_in_scope.
  destruct (id_given engineer_id); [|destruct (id_given team_id)];
    unfold get_engineer_pull_requests, get_team_pull_requests, get_all_pull_requests;
    apply filter_length_mono; intros c _ H.
  - apply andb_true_iff in H as [H1 H2]. rewrite H1. cbn [andb].
    now apply (window_mono now days days').
  - apply andb_true_iff in H as [H1 H2]. rewrite H1. cbn [andb].
    now apply (window_mono now days days').
  - now apply (window_mono now days days').
Qed.

(** X26.  The counts of a summary grow with the scope and with the period.
    For an engineer who is a member of a team, the commits counted for the
    engineer are at most those counted for the team, which are at most
    those counted for the whole organization; and for every scope a longer
    period never counts fewer commits or fewer pull requests. *)
Theorem summary_counts_nest (db : tables) (now : Z) (engineer team : Z) (days : Z) :
  engineer <> 0%Z -> team <> 0%Z ->
  In {| engineer_pk := engineer; engineer_team := Some team |} (engineers (base db)) ->
  let commits_of engineer_id team_id days :=
    RawSummary.total_commits
      (RawSummary.basic (performance_summary db now engineer_id team_id days)) in
  let pull_requests_of engineer_id team_id days :=
    RawSummary.total_pull_requests
      (RawSummary.basic (performance_summary db now engineer_id team_id days)) in
  (commits_of (Some engineer) None days <= commits_of None (Some team) days)%Z /\
  (commits_of None (Some team) days <= commits_of None None days)%Z /\
  (forall engineer_id team_id days',
     (days <= days')%Z ->
     (commits_of engineer_id team_id days <= commits_of engineer_id team_id days')%Z /\
     (pull_requests_of engineer_id team_id days
      <= pull_requests_of engineer_id team_id days')%Z).
Proof.
  intros He Ht Hmember. cbv zeta. unfold performance_summary. cbv zeta.
  cbn [RawSummary.basic RawSummary.total_commits RawSummary.total_pull_requests].
  assert (Hge : id_given (Some engineer) = true)
    by (cbn; now apply negb_true_iff, Z.eqb_neq).
  assert (Hgt : id_given (Some team) = true)
    by (cbn; now apply negb_true_iff, Z.eqb_neq).
  split; [|split].
  - apply inj_le. unfold commits_in_scope. rewrite Hge, Hgt.
    cbn [id_given default from_option id].
    unfold get_engineer_commits, get_team_commits.
    apply filter_length_mono. intros c _ H.
    apply andb_true_iff in H as [Hauthor Hwindow]. rewrite Hwindow, andb_true_r.
    apply existsb_exists. exists {| engineer_pk := engineer; engineer_team := Some team |}.
    split; [exact Hmember|]. cbn [engineer_pk engineer_team column_is].
    now rewrite Hauthor, Z.eqb_refl.
  - apply inj_le. unfold commits_in_scope. rewrite Hgt.
    cbn [id_given default from_option id].
    unfold get_team_commits, get_all_commits.
    apply filter_length_mono. intros c _ H.
    now apply andb_true_iff in H as [_ Hwindow].
  - intros engineer_id team_id days' Hd. split; apply inj_le.
    + now apply commits_in_scope_grow.
    + now apply pull_requests_in_scope_grow.
Qed.
End scope_properties.

Section scope_examples.
Import Metrics MetricsEngine.

Lemma summary_counts_nest_witness :
  (RawSummary.total_commits
     (RawSummary.basic (performance_summary sample_tables (12 * day) (Some 1%Z) None 30))
   <= RawSummary.total_commits
        (RawSummary.basic (performance_summary sample_tables (12 * day) None (Some 1%Z) 30)))%Z.
Proof.
  refine (proj1 (summary_counts_nest sample_tables (12 * day) 1 1 30 _ _ _)).
  - discriminate.
  - discriminate.
  - now left.
Defined.
End scope_examples.

(** ** Examples of commands *)

(** The word after "team" is the name, in its own spelling; keywords are
    recognised in any case. *)
Example command_for_a_team :
  Bot._parse_command_args lower space_words "team Backend MONTHLY"
  = {| Bot.report_type := "monthly"; Bot.target_type := "team";
       Bot.target_name := Some "Backend"%string; Bot.time_period := 30 |}.
Proof. reflexivity. Qed.

(** A trailing "team" has no name to take and is ignored. *)
Example command_with_trailing_keyword :
  Bot._parse_command_args lower space_words "daily team"
  = {| Bot.report_type := "daily"; Bot.target_type := "all";
       Bot.target_name := None; Bot.time_period := 1 |}.
Proof. reflexivity. Qed.
